(** * Apps Script tool wrappers: a shallow embedding

    The two tools of the repository, [script_run]
    (script-scripts-run.js) and [script_projects_versions_list]
    (script-projects-versions-list.js), are embedded as functions in a
    small reader/state/exception monad.  The platform pieces they call
    (template literals, [URL], [URLSearchParams], [JSON.stringify],
    property access, truthiness) are embedded next to them, following
    ECMAScript and the WHATWG URL standard.

    Conventions.
    - A JavaScript string is a [string] of bytes, read as the UTF-8
      encoding of the text.
    - A JavaScript number is an integer [Z]; its decimal rendering is the
      one JavaScript prints for integers below 10^21.
    - A tool is called with an argument object whose members are JSON
      values; a member that is absent reads as [undefined].  The body
      of a tool is embedded on the destructured argument
      ([executeFunction]), the call on any argument value, with the
      binding of the parameter pattern, next to it ([invoke]).
    - The collaborators ([getAuthHeaders], [getOAuthAccessToken], [fetch],
      [JSON.parse], the clock, the stack text of a fresh error) are the
      fields of an environment record [Env].  What they throw is an
      [Error] object.  The logger and the console are observers: they
      receive a payload, never throw and have no effect on the result;
      the expressions that build a payload are evaluated, since they can
      throw. *)

From Stdlib Require Import ZArith NArith String Ascii List Lia Bool DecimalString.
From stdpp Require Import gmap strings.
Import ListNotations.

Set Warnings "-register-all".

Local Open Scope string_scope.
Local Open Scope list_scope.

(** * Bytes *)

Module Byte.

Definition code (c : ascii) : N := N_of_ascii c.

Definition dquote : ascii := "034"%char.
Definition backslash : ascii := "092"%char.
Definition tab : ascii := "009"%char.
Definition lf : ascii := "010"%char.
Definition cr : ascii := "013"%char.

Definition between (lo hi : N) (c : ascii) : bool :=
  ((lo <=? code c) && (code c <=? hi))%N.

Definition is_digit : ascii -> bool := between 48 57.
Definition is_upper : ascii -> bool := between 65 90.
Definition is_lower : ascii -> bool := between 97 122.
Definition is_alnum (c : ascii) : bool := is_digit c || is_upper c || is_lower c.

Definition one_of (cs : string) (c : ascii) : bool :=
  existsb (Ascii.eqb c) (list_ascii_of_string cs).

(** Hexadecimal digits, upper case (percent-encoding) and lower case
    (JSON escapes). *)
Definition hex_upper (n : N) : ascii :=
  if (n <? 10)%N then ascii_of_N (48 + n) else ascii_of_N (55 + n).
Definition hex_lower (n : N) : ascii :=
  if (n <? 10)%N then ascii_of_N (48 + n) else ascii_of_N (87 + n).

Definition hex_value (c : ascii) : option N :=
  if is_digit c then Some (code c - 48)%N
  else if between 65 70 c then Some (code c - 55)%N
  else if between 97 102 c then Some (code c - 87)%N
  else None.

End Byte.

(** * JavaScript values *)

(** The values a tool can receive in its argument object or decode from
    a response: the JSON values and [undefined].  An object keeps its
    members in insertion order, as [JSON.stringify] prints them. *)
Inductive value : Type :=
| VUndefined
| VNull
| VBool (b : bool)
| VNum (n : Z)
| VStr (s : string)
| VArr (items : list value)
| VObj (members : list (string * value)).

Module JS.

(** ToBoolean. *)
Definition truthy (v : value) : bool :=
  match v with
  | VUndefined | VNull => false
  | VBool b => b
  | VNum n => negb (n =? 0)%Z
  | VStr s => negb (String.eqb s "")
  | VArr _ | VObj _ => true
  end.

(** A destructuring default [x = d] applies to [undefined] only. *)
Definition default (d v : value) : value :=
  match v with VUndefined => d | _ => v end.

Definition Number_toString (n : Z) : string :=
  NilEmpty.string_of_int (Z.to_int n).

Definition Boolean_toString (b : bool) : string :=
  if b then "true" else "false".

Fixpoint join (sep : string) (parts : list string) : string :=
  match parts with
  | [] => ""
  | [p] => p
  | p :: rest => p +:+ sep +:+ join sep rest
  end.

Fixpoint lookup_member (k : string) (members : list (string * value)) : option value :=
  match members with
  | [] => None
  | (k', v) :: rest => if String.eqb k k' then Some v else lookup_member k rest
  end.

Definition has_member (k : string) (members : list (string * value)) : bool :=
  match lookup_member k members with Some _ => true | None => false end.

(** All-or-nothing traversal of a list of fallible results. *)
Fixpoint sequence {A} (l : list (option A)) : option (list A) :=
  match l with
  | [] => Some []
  | None :: _ => None
  | Some x :: rest =>
      match sequence rest with Some xs => Some (x :: xs) | None => None end
  end.

(** ToString, as a template literal or a [USVString] parameter applies
    it.  [None] stands for the [TypeError] of OrdinaryToPrimitive: an
    object of plain data converts through [Object.prototype.toString]
    unless a member named [toString] (never callable in decoded data)
    shadows it.  An array converts through [join], where [undefined] and
    [null] items print as the empty string. *)
Fixpoint ToString (v : value) : option string :=
  match v with
  | VUndefined => Some "undefined"
  | VNull => Some "null"
  | VBool b => Some (Boolean_toString b)
  | VNum n => Some (Number_toString n)
  | VStr s => Some s
  | VArr items =>
      option_map (join ",")
        (sequence (map (fun item =>
                          match item with
                          | VUndefined | VNull => Some ""
                          | _ => ToString item
                          end) items))
  | VObj members =>
      if has_member "toString" members then None else Some "[object Object]"
  end.

Definition nullish (v : value) : bool :=
  match v with VUndefined | VNull => true | _ => false end.

(** The method call [v.toString()]: [undefined] and [null] have no
    properties; on the other values it agrees with [ToString]. *)
Definition call_toString (v : value) : option string :=
  if nullish v then None else ToString v.

(** Property read [v.k] on a value that is neither [undefined] nor
    [null], for the property names the tools read ([response], [result],
    [error], [done], [executionMetadata], [log], [versions], [message],
    [length]): of these only [length] exists on a prototype (strings and
    arrays).  The length of a string is counted in bytes here and in
    UTF-16 units by JavaScript; the tools only log it. *)
Definition get_member (v : value) (k : string) : value :=
  match v with
  | VObj members =>
      match lookup_member k members with Some x => x | None => VUndefined end
  | VArr items =>
      if String.eqb k "length" then VNum (Z.of_nat (List.length items)) else VUndefined
  | VStr s =>
      if String.eqb k "length" then VNum (Z.of_nat (String.length s)) else VUndefined
  | _ => VUndefined
  end.

(** QuoteJSONString. *)
Definition quote_char (c : ascii) : string :=
  let esc (x : string) := String Byte.backslash x in
  if Ascii.eqb c Byte.dquote then esc (String Byte.dquote "")
  else if Ascii.eqb c Byte.backslash then esc (String Byte.backslash "")
  else if Ascii.eqb c "008" then esc "b"
  else if Ascii.eqb c Byte.tab then esc "t"
  else if Ascii.eqb c Byte.lf then esc "n"
  else if Ascii.eqb c "012" then esc "f"
  else if Ascii.eqb c Byte.cr then esc "r"
  else if (Byte.code c <? 32)%N then
    esc ("u00" +:+ String (Byte.hex_lower (Byte.code c / 16))
                     (String (Byte.hex_lower (Byte.code c mod 16)) ""))
  else String c "".

Definition quote (s : string) : string :=
  String Byte.dquote
    (String.concat "" (map quote_char (list_ascii_of_string s))
     +:+ String Byte.dquote "").

(** [JSON.stringify] without replacer or indentation; [None] is
    JavaScript's [undefined] result.  A member whose value is [undefined]
    is left out of an object and printed as [null] in an array. *)
Fixpoint JSON_stringify (v : value) : option string :=
  match v with
  | VUndefined => None
  | VNull => Some "null"
  | VBool b => Some (Boolean_toString b)
  | VNum n => Some (Number_toString n)
  | VStr s => Some (quote s)
  | VArr items =>
      Some ("[" +:+ join ","
                  (map (fun item =>
                          match JSON_stringify item with
                          | Some s => s
                          | None => "null"
                          end) items) +:+ "]")
  | VObj members =>
      Some ("{" +:+ join ","
                  (flat_map (fun kv =>
                               match JSON_stringify (snd kv) with
                               | Some s => [quote (fst kv) +:+ ":" +:+ s]
                               | None => []
                               end) members) +:+ "}")
  end.

End JS.


(** * URLs on the API origin *)

(** [new URL(text)], the [search] setter, [searchParams.append] and the
    serializer, after the WHATWG URL standard.  The parser is embedded
    for the inputs the tools build: the fixed origin followed by a
    path.  The scheme and host states are then settled by the origin and
    parsing continues in the path state, which never fails. *)
Module URL.

Definition origin : string := "https://script.googleapis.com".

(** ** Percent-encode sets *)

Definition c0_control_set (c : ascii) : bool :=
  ((Byte.code c <=? 31) || (126 <? Byte.code c))%N.
Definition fragment_set (c : ascii) : bool :=
  c0_control_set c || Byte.one_of (String Byte.dquote " <>`") c.
Definition query_set (c : ascii) : bool :=
  c0_control_set c || Byte.one_of (String Byte.dquote " #<>") c.
Definition special_query_set (c : ascii) : bool :=
  query_set c || Ascii.eqb c "'".
(** The circumflex joined the path set in a late revision of the
    standard; nothing below depends on it. *)
Definition path_set (c : ascii) : bool :=
  query_set c || Byte.one_of "?^`{}" c.
(** The application/x-www-form-urlencoded set leaves only ASCII
    alphanumerics and [*-._] in place. *)
Definition urlencoded_set (c : ascii) : bool :=
  negb (Byte.is_alnum c || Byte.one_of "*-._" c).

Definition percent_encode_byte (c : ascii) : string :=
  String "%" (String (Byte.hex_upper (Byte.code c / 16))
             (String (Byte.hex_upper (Byte.code c mod 16)) "")).

Definition encode_with (set : ascii -> bool) (c : ascii) : string :=
  if set c then percent_encode_byte c else String c "".

Fixpoint percent_encode (set : ascii -> bool) (s : string) : string :=
  match s with
  | EmptyString => ""
  | String c rest => encode_with set c +:+ percent_encode set rest
  end.

Fixpoint percent_decode (s : string) : string :=
  match s with
  | EmptyString => ""
  | String c rest =>
      if Ascii.eqb c "%" then
        match rest with
        | String h1 (String h2 rest') =>
            match Byte.hex_value h1, Byte.hex_value h2 with
            | Some a, Some b => String (ascii_of_N (16 * a + b)) (percent_decode rest')
            | _, _ => String c (percent_decode rest)
            end
        | _ => String c (percent_decode rest)
        end
      else String c (percent_decode rest)
  end.

(** ** application/x-www-form-urlencoded *)

Fixpoint map_bytes (f : ascii -> ascii) (s : string) : string :=
  match s with
  | EmptyString => ""
  | String c rest => String (f c) (map_bytes f rest)
  end.

Definition plus_to_space : string -> string :=
  map_bytes (fun c => if Ascii.eqb c "+" then " "%char else c).

(** The pieces of [s] between occurrences of [sep]; the piece being read
    is [piece]. *)
Fixpoint split_on (sep : ascii) (s piece : string) : list string :=
  match s with
  | EmptyString => [piece]
  | String c rest =>
      if Ascii.eqb c sep then piece :: split_on sep rest ""
      else split_on sep rest (piece +:+ String c "")
  end.

(** A name-value piece is cut at its first [=]; without one the whole
    piece is the name. *)
Fixpoint cut_at (sep : ascii) (s name : string) : string * string :=
  match s with
  | EmptyString => (name, "")
  | String c rest =>
      if Ascii.eqb c sep then (name, rest)
      else cut_at sep rest (name +:+ String c "")
  end.

Definition urlencoded_parse (input : string) : list (string * string) :=
  flat_map (fun piece =>
              if String.eqb piece "" then []
              else
                let (name, val) := cut_at "=" piece "" in
                [(percent_decode (plus_to_space name),
                  percent_decode (plus_to_space val))])
           (split_on "&" input "").

Definition urlencoded_byte (c : ascii) : string :=
  if Ascii.eqb c " " then "+" else encode_with urlencoded_set c.

Fixpoint urlencoded_encode (s : string) : string :=
  match s with
  | EmptyString => ""
  | String c rest => urlencoded_byte c +:+ urlencoded_encode rest
  end.

Definition urlencoded_pair (kv : string * string) : string :=
  urlencoded_encode (fst kv) +:+ "=" +:+ urlencoded_encode (snd kv).

Definition urlencoded_serialize (l : list (string * string)) : string :=
  JS.join "&" (map urlencoded_pair l).

(** ** The URL record *)

(** The parts of a URL that vary on the fixed origin.  [searchParams] is
    the list of the URL's query object, kept next to the query string as
    the standard keeps it. *)
Record t : Type := mk {
  path : list string;
  query : option string;
  fragment : option string;
  searchParams : list (string * string)
}.

Definition ascii_lowercase : string -> string :=
  map_bytes (fun c => if Byte.is_upper c then ascii_of_N (Byte.code c + 32) else c).

Definition single_dot_segment (s : string) : bool :=
  existsb (String.eqb (ascii_lowercase s)) ["."; "%2e"].
Definition double_dot_segment (s : string) : bool :=
  existsb (String.eqb (ascii_lowercase s)) [".."; ".%2e"; "%2e."; "%2e%2e"].

(** What the path state does with the buffer when a segment ends; [slash]
    tells whether it ended at a [/] or a backslash. *)
Definition close_segment (slash : bool) (buffer : string) (p : list string) : list string :=
  if double_dot_segment buffer then
    if slash then removelast p else removelast p ++ [""]
  else if single_dot_segment buffer then
    if slash then p else p ++ [""]
  else p ++ [buffer].

Definition fragment_state (input : string) : string :=
  percent_encode fragment_set input.

Fixpoint query_state (input buffer : string) : string * option string :=
  match input with
  | EmptyString => (percent_encode special_query_set buffer, None)
  | String c rest =>
      if Ascii.eqb c "#" then
        (percent_encode special_query_set buffer, Some (fragment_state rest))
      else query_state rest (buffer +:+ String c "")
  end.

Definition with_query (p : list string) (q : option string) (f : option string) : t :=
  mk p q f (urlencoded_parse (match q with Some s => s | None => "" end)).

Fixpoint path_state (input buffer : string) (p : list string) : t :=
  match input with
  | EmptyString => with_query (close_segment false buffer p) None None
  | String c rest =>
      if Ascii.eqb c "/" || Ascii.eqb c Byte.backslash then
        path_state rest "" (close_segment true buffer p)
      else if Ascii.eqb c "?" then
        let (q, f) := query_state rest "" in
        with_query (close_segment false buffer p) (Some q) f
      else if Ascii.eqb c "#" then
        with_query (close_segment false buffer p) None (Some (fragment_state rest))
      else path_state rest (buffer +:+ encode_with path_set c) p
  end.

Fixpoint remove_tab_newline (s : string) : string :=
  match s with
  | EmptyString => ""
  | String c rest =>
      if Byte.one_of (String Byte.tab (String Byte.lf (String Byte.cr ""))) c
      then remove_tab_newline rest
      else String c (remove_tab_newline rest)
  end.

Fixpoint strip_prefix (pre s : string) : option string :=
  match pre, s with
  | EmptyString, _ => Some s
  | String a pre', String b s' => if Ascii.eqb a b then strip_prefix pre' s' else None
  | String _ _, EmptyString => None
  end.

(** [new URL(input)] for an input on the API origin; [None] is the
    [TypeError] of a failed parse and covers every other input. *)
Definition parse (input : string) : option t :=
  match strip_prefix origin (remove_tab_newline input) with
  | Some (String c rest) =>
      if Ascii.eqb c "/" || Ascii.eqb c Byte.backslash
      then Some (path_state rest "" [])
      else None
  | _ => None
  end.

(** Every byte of [s] satisfies [p]. *)
Fixpoint all_bytes (p : ascii -> bool) (s : string) : bool :=
  match s with
  | EmptyString => true
  | String c rest => p c && all_bytes p rest
  end.

(** A byte the path state copies as it is: no delimiter, no byte of the
    path percent-encode set (which holds the tab and the newlines), and
    no percent sign. *)
Definition kept (c : ascii) : bool :=
  negb (path_set c || Byte.one_of (String Byte.backslash "/%") c).

(** The [pathname] getter. *)
Definition pathname (u : t) : string :=
  String.concat "" (map (fun seg => "/" +:+ seg) (path u)).

(** The [search] setter. *)
Definition set_search (u : t) (v : string) : t :=
  if String.eqb v "" then mk (path u) None (fragment u) []
  else
    let input := match v with String "?" rest => rest | _ => v end in
    mk (path u)
       (Some (percent_encode special_query_set (remove_tab_newline input)))
       (fragment u)
       (urlencoded_parse input).

(** [url.searchParams.append(name, value)]: the pair joins the list and
    the query string is rewritten from the list. *)
Definition append (u : t) (name val : string) : t :=
  let l := searchParams u ++ [(name, val)] in
  let s := urlencoded_serialize l in
  mk (path u) (if String.eqb s "" then None else Some s) (fragment u) l.

(** The serializer behind [url.toString()]. *)
Definition href (u : t) : string :=
  origin +:+ pathname u
  +:+ match query u with Some q => "?" +:+ q | None => "" end
  +:+ match fragment u with Some f => "#" +:+ f | None => "" end.

End URL.

(** * Errors, requests, responses and the environment *)

(** A thrown value: the tools and the platform throw [Error] objects
    only, read through [name], [message] and [stack]. *)
Record Error : Type := mkError {
  name : string;
  message : string;
  stack : string
}.

(** What [fetch] is called with. *)
Record Request : Type := mkRequest {
  method : string;
  url : URL.t;
  headers : gmap string string;
  body : option string
}.

(** What [fetch] resolves to.  [text] is the outcome of reading the
    body, which [response.text()] and [response.json()] both await. *)
Record Response : Type := mkResponse {
  status : Z;
  statusText : string;
  content_length : option string;
  text : Error + string
}.

(** [response.ok]: the status is in the range 200-299. *)
Definition ok (r : Response) : bool :=
  ((200 <=? status r) && (status r <=? 299))%Z.

(** The collaborators of the tools.  An awaited call either rejects
    ([inl]) or resolves ([inr]). *)
Record Env : Type := mkEnv {
  getAuthHeaders : Error + gmap string string;
  getOAuthAccessToken : Error + string;
  fetch : Request -> Error + Response;
  JSON_parse : string -> Error + value;
  (** the successive readings of the clock, in milliseconds *)
  clock : nat -> Z;
  toISOString : Z -> string;
  (** the stack text of an error created with a name and a message *)
  capture_stack : string -> string -> string
}.

(** * The monad of a tool invocation *)

(** An invocation reads the environment, records the requests it hands
    to [fetch] and the number of clock readings it took, and either
    throws or yields a value. *)
Record State : Type := mkState {
  fetched : list Request;
  ticks : nat
}.

Definition M (A : Type) : Type := Env -> State -> (Error + A) * State.

Definition ret {A} (x : A) : M A := fun _ s => (inr x, s).

Definition bind {A B} (m : M A) (k : A -> M B) : M B :=
  fun env s =>
    match m env s with
    | (inl err, s') => (inl err, s')
    | (inr x, s') => k x env s'
    end.

Definition throw {A} (err : Error) : M A := fun _ s => (inl err, s).

(** [try { m } catch (error) { handler error }]. *)
Definition try_catch {A} (m : M A) (handler : Error -> M A) : M A :=
  fun env s =>
    match m env s with
    | (inl err, s') => handler err env s'
    | (inr x, s') => (inr x, s')
    end.

Declare Scope js_scope.
Delimit Scope js_scope with js.
Notation "x <- m ;; k" := (bind m (fun x => k))
  (at level 100, m at next level, right associativity) : js_scope.
Notation "m ;; k" := (bind m (fun _ => k))
  (at level 100, right associativity) : js_scope.
Local Open Scope js_scope.

(** [await f()] for a collaborator [f]. *)
Definition await {A} (f : Env -> Error + A) : M A := fun env s => (f env, s).

Definition new_Error (msg : string) : M Error :=
  fun env s => (inr (mkError "Error" msg (capture_stack env "Error" msg)), s).

Definition throw_TypeError {A} (msg : string) : M A :=
  fun env s => (inl (mkError "TypeError" msg (capture_stack env "TypeError" msg)), s).

Definition tick (s : State) : State := mkState (fetched s) (S (ticks s)).

Definition Date_now : M Z := fun env s => (inr (clock env (ticks s)), tick s).

Definition new_Date_toISOString : M string :=
  fun env s => (inr (toISOString env (clock env (ticks s))), tick s).

Definition do_fetch (r : Request) : M Response :=
  fun env s => (fetch env r, mkState (fetched s ++ [r]) (ticks s)).

(** The logger and the console observe a payload and change nothing. *)
Definition observe (payload : value) : M unit := ret tt.

(** A platform operation that fails throws a [TypeError]. *)
Definition or_TypeError {A} (o : option A) (msg : string) : M A :=
  match o with
  | Some x => ret x
  | None => throw_TypeError msg
  end.

(** The conversions and property reads of [JS], throwing. *)
Definition ToString (v : value) : M string :=
  or_TypeError (JS.ToString v) "Cannot convert object to primitive value".

Definition cannot_read (v : value) (k : string) : string :=
  "Cannot read properties of "
  +:+ match v with VNull => "null" | _ => "undefined" end
  +:+ " (reading '" +:+ k +:+ "')".

(** [v.toString()] *)
Definition call_toString (v : value) : M string :=
  or_TypeError (JS.call_toString v)
    (if JS.nullish v then cannot_read v "toString" else "toString is not a function").

(** [v.k] *)
Definition get (v : value) (k : string) : M value :=
  or_TypeError (if JS.nullish v then None else Some (JS.get_member v k))
    (cannot_read v k).

(** [v?.k] *)
Definition opt_get (v : value) (k : string) : value :=
  if JS.nullish v then VUndefined else JS.get_member v k.

Definition new_URL (input : string) : M URL.t :=
  or_TypeError (URL.parse input) "Invalid URL".

(** [params.append(name, value)] on a [URLSearchParams]; the value is
    converted to a string. *)
Definition params_append (params : list (string * string)) (name : string) (v : value)
  : M (list (string * string)) :=
  s <- ToString v ;; ret (params ++ [(name, s)]).

Definition searchParams_append (u : URL.t) (name : string) (v : value) : M URL.t :=
  s <- ToString v ;; ret (URL.append u name s).

(** [await response.text()] and [await response.json()]. *)
Definition response_text (r : Response) : M string := fun _ s => (text r, s).

Definition response_json (r : Response) : M value :=
  t <- response_text r ;; await (fun env => JSON_parse env t).

(** The object every [catch] block returns. *)
Definition error_envelope (error : Error) (errorDetails : value) : value :=
  VObj [("error", VBool true);
        ("message", VStr (message error));
        ("details", errorDetails);
        ("rawError", VObj [("name", VStr (name error)); ("stack", VStr (stack error))])].

(** [error.name || 'Unknown'] *)
Definition errorType (error : Error) : string :=
  if String.eqb (name error) "" then "Unknown" else name error.

(** Running an invocation from a fresh state: its outcome and the
    requests it issued, in order. *)
Definition run {A} (m : M A) (env : Env) : (Error + A) * list Request :=
  let (r, s) := m env (mkState [] 0) in (r, fetched s).

Definition outcome {A} (m : M A) (env : Env) : Error + A := fst (run m env).
Definition requests {A} (m : M A) (env : Env) : list Request := snd (run m env).

(** The message of the [TypeError] that destructuring [undefined] or
    [null] throws, as V8 words it for the first property [k] of the
    pattern. *)
Definition cannot_destructure (v : value) (k : string) : string :=
  "Cannot destructure property '" +:+ k +:+ "' of '"
  +:+ match v with VNull => "object null" | _ => "undefined" end
  +:+ "' as it is "
  +:+ match v with VNull => "null" | _ => "undefined" end
  +:+ ".".

(** * script-scripts-run.js *)

Module ScriptRun.

(** The destructured argument object; an omitted member reads as
    [undefined]. *)
Record args : Type := mkArgs {
  scriptId : value;
  functionName : value;
  parameters : value;
  devMode : value;
  fields : value;
  alt : value;
  key : value;
  access_token : value;
  oauth_token : value;
  quotaUser : value;
  prettyPrint : value
}.

Definition baseUrl : string := "https://script.googleapis.com".

Definition errorDetails (error : Error) (scriptId : value) (timestamp : string) : value :=
  VObj [("message", VStr (message error));
        ("stack", VStr (stack error));
        ("scriptId", scriptId);
        ("timestamp", VStr timestamp);
        ("errorType", VStr (errorType error))].

Definition executeFunction (a : args) : M value :=
  let scriptId := scriptId a in
  let functionName := functionName a in
  let parameters := JS.default (VArr []) (parameters a) in
  let devMode := JS.default (VBool true) (devMode a) in
  let fields := fields a in
  let alt := JS.default (VStr "json") (alt a) in
  let quotaUser := quotaUser a in
  let prettyPrint := JS.default (VBool true) (prettyPrint a) in
  id <- ToString scriptId ;;
  url <- new_URL (baseUrl +:+ "/v1/scripts/" +:+ id +:+ ":run") ;;
  (* Append query parameters to the URL *)
  let params := [] in
  params <- (if JS.truthy fields then params_append params "fields" fields
             else ret params) ;;
  params <- (if JS.truthy alt then params_append params "alt" alt
             else ret params) ;;
  params <- (match prettyPrint with
             | VUndefined => ret params
             | _ => s <- call_toString prettyPrint ;;
                    params_append params "prettyPrint" (VStr s)
             end) ;;
  (* the authentication parameters are not added *)
  params <- (if JS.truthy quotaUser then params_append params "quotaUser" quotaUser
             else ret params) ;;
  let url := URL.set_search url (URL.urlencoded_serialize params) in
  let requestBody :=
    VObj [("function", functionName);
          ("parameters", parameters);
          ("devMode", devMode)] in
  try_catch
    (headers <- await getAuthHeaders ;;
     let headers := <["Content-Type" := "application/json"]> headers in
     (* the log line interpolates the function name *)
     name <- ToString functionName ;;
     observe (VObj [("message", VStr ("Executing function: " +:+ name));
                    ("scriptId", scriptId); ("functionName", functionName);
                    ("parameters", parameters); ("devMode", devMode)]) ;;
     response <- do_fetch (mkRequest "POST" url headers (JS.JSON_stringify requestBody)) ;;
     if negb (ok response) then
       errorData <- response_json response ;;
       error <- new_Error (match JS.JSON_stringify errorData with
                           | Some s => s
                           | None => ""
                           end) ;;
       throw error
     else
       data <- response_json response ;;
       res <- get data "response" ;;
       err <- get data "error" ;;
       done <- get data "done" ;;
       observe (VObj [("scriptId", scriptId); ("functionName", functionName);
                      ("hasResult", VBool (JS.truthy (opt_get res "result")));
                      ("hasError", VBool (JS.truthy err));
                      ("done", done)]) ;;
       res <- get data "response" ;;
       (if JS.truthy (opt_get (opt_get res "executionMetadata") "log")
        then observe (VObj [("logs", opt_get (opt_get res "executionMetadata") "log")])
        else ret tt) ;;
       ret data)
    (fun error =>
       timestamp <- new_Date_toISOString ;;
       let errorDetails := errorDetails error scriptId timestamp in
       observe errorDetails ;;
       observe errorDetails ;;
       ret (error_envelope error errorDetails)).

(** The parameter pattern of line 21 applied to the argument of a call.
    Every value other than [undefined] and [null] is read member by
    member; a primitive or an array has none of these members. *)
Definition destructure (argument : value) : args :=
  mkArgs (JS.get_member argument "scriptId")
         (JS.get_member argument "functionName")
         (JS.get_member argument "parameters")
         (JS.get_member argument "devMode")
         (JS.get_member argument "fields")
         (JS.get_member argument "alt")
         (JS.get_member argument "key")
         (JS.get_member argument "access_token")
         (JS.get_member argument "oauth_token")
         (JS.get_member argument "quotaUser")
         (JS.get_member argument "prettyPrint").

(** The call [executeFunction(argument)]: the pattern is bound before
    the body is entered, and binding it to [undefined] (no argument) or
    [null] throws. *)
Definition invoke (argument : value) : M value :=
  if JS.nullish argument
  then throw_TypeError (cannot_destructure argument "scriptId")
  else executeFunction (destructure argument).

End ScriptRun.

(** * script-projects-versions-list.js *)

Module VersionsList.

Record args : Type := mkArgs {
  scriptId : value;
  pageSize : value;
  pageToken : value;
  fields : value;
  key : value;
  access_token : value;
  oauth_token : value;
  prettyPrint : value
}.

Definition baseUrl : string := "https://script.googleapis.com".

Definition errorDetails (error : Error) (scriptId : value) (duration : Z)
    (timestamp : string) : value :=
  VObj [("message", VStr (message error));
        ("stack", VStr (stack error));
        ("scriptId", scriptId);
        ("duration", VNum duration);
        ("timestamp", VStr timestamp);
        ("errorType", VStr (errorType error))].

(** [a || b] on values. *)
Definition or_else (a b : value) : value := if JS.truthy a then a else b.

Definition executeFunction (a : args) : M value :=
  let scriptId := scriptId a in
  let pageSize := JS.default (VNum 100) (pageSize a) in
  let pageToken := pageToken a in
  let fields := fields a in
  let key := key a in
  let prettyPrint := JS.default (VBool true) (prettyPrint a) in
  startTime <- Date_now ;;
  try_catch
    (observe (VObj [("scriptId", scriptId); ("pageSize", pageSize);
                    ("pageToken", pageToken)]) ;;
     token <- await getOAuthAccessToken ;;
     (* Construct the URL with query parameters *)
     id <- ToString scriptId ;;
     url <- new_URL (baseUrl +:+ "/v1/projects/" +:+ id +:+ "/versions") ;;
     size <- call_toString pageSize ;;
     url <- searchParams_append url "pageSize" (VStr size) ;;
     url <- (if JS.truthy pageToken then searchParams_append url "pageToken" pageToken
             else ret url) ;;
     url <- (if JS.truthy fields then searchParams_append url "fields" fields
             else ret url) ;;
     url <- searchParams_append url "alt" (VStr "json") ;;
     url <- (if JS.truthy key then searchParams_append url "key" key
             else ret url) ;;
     url <- (if JS.truthy prettyPrint
             then s <- call_toString prettyPrint ;;
                  searchParams_append url "prettyPrint" (VStr s)
             else ret url) ;;
     observe (VObj [("url", VStr (URL.href url));
                    ("pathSegments",
                     VArr (map VStr (URL.split_on "/" (URL.pathname url) "")));
                    ("queryParams",
                     VObj (map (fun kv => (fst kv, VStr (snd kv)))
                             (URL.searchParams url)))]) ;;
     let headers : gmap string string :=
       <["Authorization" := "Bearer " +:+ token]> {["Accept" := "application/json"]} in
     observe (VStr (URL.href url)) ;;
     fetchStartTime <- Date_now ;;
     response <- do_fetch (mkRequest "GET" url headers None) ;;
     fetchEnd <- Date_now ;;
     let fetchDuration := (fetchEnd - fetchStartTime)%Z in
     let responseSize :=
       match content_length response with
       | Some s => if String.eqb s "" then "unknown" else s
       | None => "unknown"
       end in
     observe (VObj [("status", VNum (status response));
                    ("duration", VNum fetchDuration);
                    ("size", VStr responseSize)]) ;;
     if negb (ok response) then
       errorText <- response_text response ;;
       errorData <- try_catch (await (fun env => JSON_parse env errorText))
                      (fun parseError => ret (VObj [("message", VStr errorText)])) ;;
       now <- Date_now ;;
       timestamp <- new_Date_toISOString ;;
       let detailedError :=
         VObj [("status", VNum (status response));
               ("statusText", VStr (statusText response));
               ("url", VStr (URL.href url));
               ("errorResponse", errorData);
               ("duration", VNum (now - startTime)%Z);
               ("scriptId", scriptId);
               ("timestamp", VStr timestamp)] in
       observe detailedError ;;
       observe (match JS.JSON_stringify detailedError with
                | Some s => VStr s
                | None => VUndefined
                end) ;;
       err <- get errorData "error" ;;
       reason <- (if JS.truthy (opt_get err "message") then ret (opt_get err "message")
                  else msg <- get errorData "message" ;;
                       ret (or_else msg (VStr "Unknown error"))) ;;
       reason <- ToString reason ;;
       error <- new_Error ("API Error (" +:+ JS.Number_toString (status response)
                           +:+ "): " +:+ reason) ;;
       throw error
     else
       data <- response_json response ;;
       versions <- get data "versions" ;;
       now <- Date_now ;;
       observe (VObj [("scriptId", scriptId);
                      ("versionsCount", or_else (opt_get versions "length") (VNum 0));
                      ("duration", VNum (now - startTime)%Z)]) ;;
       observe (VStr "Successfully retrieved script versions") ;;
       ret data)
    (fun error =>
       now <- Date_now ;;
       timestamp <- new_Date_toISOString ;;
       let errorDetails := errorDetails error scriptId (now - startTime)%Z timestamp in
       observe errorDetails ;;
       observe errorDetails ;;
       ret (error_envelope error errorDetails)).

(** The parameter pattern of line 19 applied to the argument of a
    call. *)
Definition destructure (argument : value) : args :=
  mkArgs (JS.get_member argument "scriptId")
         (JS.get_member argument "pageSize")
         (JS.get_member argument "pageToken")
         (JS.get_member argument "fields")
         (JS.get_member argument "key")
         (JS.get_member argument "access_token")
         (JS.get_member argument "oauth_token")
         (JS.get_member argument "prettyPrint").

(** The call [executeFunction(argument)]: the pattern is bound before
    [startTime] is read and the [try] block entered, and binding it to
    [undefined] (no argument) or [null] throws. *)
Definition invoke (argument : value) : M value :=
  if JS.nullish argument
  then throw_TypeError (cannot_destructure argument "scriptId")
  else executeFunction (destructure argument).

End VersionsList.

(** * The arguments' declared types *)

Module Declared.

Definition opt_string (v : value) : bool :=
  match v with VUndefined | VStr _ => true | _ => false end.
Definition opt_boolean (v : value) : bool :=
  match v with VUndefined | VBool _ => true | _ => false end.
Definition opt_array (v : value) : bool :=
  match v with VUndefined | VArr _ => true | _ => false end.
Definition opt_integer (v : value) : bool :=
  match v with VUndefined | VNum _ => true | _ => false end.

(** Every argument of [script_run] is omitted or of the type its
    schema and JSDoc declare. *)
Definition script_run (a : ScriptRun.args) : bool :=
  opt_string (ScriptRun.scriptId a) && opt_string (ScriptRun.functionName a)
  && opt_array (ScriptRun.parameters a) && opt_boolean (ScriptRun.devMode a)
  && opt_string (ScriptRun.fields a) && opt_string (ScriptRun.alt a)
  && opt_string (ScriptRun.key a) && opt_string (ScriptRun.access_token a)
  && opt_string (ScriptRun.oauth_token a) && opt_string (ScriptRun.quotaUser a)
  && opt_boolean (ScriptRun.prettyPrint a).

(** Every argument of [script_projects_versions_list] is omitted or of
    the type its schema and JSDoc declare. *)
Definition versions_list (a : VersionsList.args) : bool :=
  opt_string (VersionsList.scriptId a) && opt_integer (VersionsList.pageSize a)
  && opt_string (VersionsList.pageToken a) && opt_string (VersionsList.fields a)
  && opt_string (VersionsList.key a) && opt_string (VersionsList.access_token a)
  && opt_string (VersionsList.oauth_token a)
  && opt_boolean (VersionsList.prettyPrint a).

End Declared.

(** * Sample invocations *)

Module Sample.

Definition headers : gmap string string := {["Authorization" := "Bearer token"]}.

Definition stack_text (name msg : string) : string := name +:+ ": " +:+ msg.

Definition SyntaxError : Error :=
  mkError "SyntaxError" "Unexpected token" (stack_text "SyntaxError" "Unexpected token").

(** A decoder that agrees with [JSON.parse] on the bodies of the samples:
    the JSON texts [null] and [{}], the empty text and an HTML page. *)
Definition parse (t : string) : Error + value :=
  if String.eqb t "null" then inr VNull
  else if String.eqb t "{}" then inr (VObj [])
  else inl SyntaxError.

(** The remote answers every request with the given status and body. *)
Definition replies (st : Z) (reason body : string) (_ : Request) : Error + Response :=
  inr (mkResponse st reason None (inr body)).

Definition env (respond : Request -> Error + Response) : Env :=
  mkEnv (inr headers) (inr "token") respond parse
    (fun n => 1000 * Z.of_nat n)%Z
    (fun _ => "2025-01-01T00:00:00.000Z")
    stack_text.

(** [script_run] called with these four arguments and nothing else. *)
Definition run_args (scriptId functionName parameters prettyPrint : value)
  : ScriptRun.args :=
  ScriptRun.mkArgs scriptId functionName parameters VUndefined VUndefined
    VUndefined VUndefined VUndefined VUndefined VUndefined prettyPrint.

(** [script_projects_versions_list] called with a script id only. *)
Definition list_args (scriptId : value) : VersionsList.args :=
  VersionsList.mkArgs scriptId VUndefined VUndefined VUndefined VUndefined
    VUndefined VUndefined VUndefined.

(** The text [s] between double quotes. *)
Definition quoted (s : string) : string :=
  String Byte.dquote (s +:+ String Byte.dquote "").

End Sample.

(** * Facts about the URL embedding *)

Module URLFacts.
Import URL.

(** stdpp keeps [String.append] folded; here it is reasoned about by
    computation. *)
#[local] Arguments String.append !s1 s2 : simpl nomatch.

Lemma all_bytes_app p s t :
  all_bytes p (s +:+ t) = all_bytes p s && all_bytes p t.
Proof.
  induction s as [|c s IH]; simpl; [reflexivity|].
  rewrite IH. apply andb_assoc.
Qed.

Lemma append_nil_r (s : string) : s +:+ "" = s.
Proof. induction s as [|c s IH]; simpl; congruence. Qed.

Lemma append_assoc (s t u : string) : (s +:+ t) +:+ u = s +:+ (t +:+ u).
Proof. induction s as [|c s IH]; simpl; congruence. Qed.

(** A case split over the 256 bytes. *)
Ltac each_byte c :=
  destruct c as [[] [] [] [] [] [] [] []].

(** ** Decoding undoes encoding *)

Definition form_decode (s : string) : string :=
  percent_decode (plus_to_space s).

Lemma form_decode_byte (c : ascii) (rest : string) :
  form_decode (urlencoded_byte c +:+ rest) = String c (form_decode rest).
Proof. each_byte c; reflexivity. Qed.

Lemma form_decode_encode (s : string) :
  form_decode (urlencoded_encode s) = s.
Proof.
  induction s as [|c s IH]; [reflexivity|].
  simpl urlencoded_encode. rewrite form_decode_byte, IH. reflexivity.
Qed.

(** The encoder emits alphanumerics and [*-._+%] only. *)
Definition form_byte (c : ascii) : bool :=
  Byte.is_alnum c || Byte.one_of "*-._+%" c.

Lemma urlencoded_byte_form (c : ascii) : all_bytes form_byte (urlencoded_byte c) = true.
Proof. each_byte c; reflexivity. Qed.

Lemma urlencoded_encode_form (s : string) : all_bytes form_byte (urlencoded_encode s) = true.
Proof.
  induction s as [|c s IH]; [reflexivity|].
  simpl. rewrite all_bytes_app, urlencoded_byte_form, IH. reflexivity.
Qed.

Lemma all_bytes_weaken (p q : ascii -> bool) (s : string) :
  (forall c, p c = true -> q c = true) ->
  all_bytes p s = true -> all_bytes q s = true.
Proof.
  intros Hpq. induction s as [|c s IH]; simpl; [reflexivity|].
  intros H. apply andb_prop in H as [Hc Hs].
  rewrite (Hpq _ Hc), (IH Hs). reflexivity.
Qed.

Definition other_than (sep c : ascii) : bool := negb (Ascii.eqb c sep).

Lemma form_byte_not_amp c : form_byte c = true -> other_than "&" c = true.
Proof. each_byte c; simpl; intros H; try reflexivity; discriminate H. Qed.

Lemma form_byte_not_eq c : form_byte c = true -> other_than "=" c = true.
Proof. each_byte c; simpl; intros H; try reflexivity; discriminate H. Qed.

(** ** Cutting and splitting *)

Lemma cut_at_app sep (x y acc : string) :
  all_bytes (other_than sep) x = true ->
  cut_at sep (x +:+ String sep y) acc = (acc +:+ x, y).
Proof.
  revert acc. induction x as [|c x IH]; intros acc H; simpl.
  - rewrite Ascii.eqb_refl, append_nil_r. reflexivity.
  - simpl in H. apply andb_prop in H as [Hc Hx].
    unfold other_than in Hc. apply negb_true_iff in Hc. rewrite Hc.
    rewrite (IH _ Hx), append_assoc. reflexivity.
Qed.

Lemma split_on_app sep (x rest acc : string) :
  all_bytes (other_than sep) x = true ->
  split_on sep (x +:+ rest) acc = split_on sep rest (acc +:+ x).
Proof.
  revert acc. induction x as [|c x IH]; intros acc H; simpl.
  - rewrite append_nil_r. reflexivity.
  - simpl in H. apply andb_prop in H as [Hc Hx].
    unfold other_than in Hc. apply negb_true_iff in Hc. rewrite Hc.
    rewrite (IH _ Hx), append_assoc. reflexivity.
Qed.

Lemma split_on_join sep (p : string) (ps : list string) :
  Forall (fun x => all_bytes (other_than sep) x = true) (p :: ps) ->
  split_on sep (JS.join (String sep "") (p :: ps)) "" = p :: ps.
Proof.
  revert p. induction ps as [|q ps IH]; intros p H.
  - simpl. inversion H; subst.
    rewrite <- (append_nil_r p) at 1. rewrite split_on_app by assumption.
    reflexivity.
  - inversion H as [|? ? Hp Hrest]; subst.
    change (JS.join (String sep "") (p :: q :: ps))
      with (p +:+ String sep (JS.join (String sep "") (q :: ps))).
    rewrite split_on_app by assumption. simpl.
    rewrite Ascii.eqb_refl. f_equal. apply IH. assumption.
Qed.

Lemma urlencoded_pair_no_amp kv :
  all_bytes (other_than "&") (urlencoded_pair kv) = true.
Proof.
  unfold urlencoded_pair. rewrite !all_bytes_app. simpl.
  rewrite !(all_bytes_weaken form_byte _ _ form_byte_not_amp)
    by apply urlencoded_encode_form.
  reflexivity.
Qed.

Lemma urlencoded_pair_not_empty kv : String.eqb (urlencoded_pair kv) "" = false.
Proof.
  unfold urlencoded_pair. destruct (urlencoded_encode (fst kv)); reflexivity.
Qed.

Lemma parse_pair (kv : string * string) :
  (let (name, val) := cut_at "=" (urlencoded_pair kv) "" in
   [(percent_decode (plus_to_space name), percent_decode (plus_to_space val))])
  = [kv].
Proof.
  unfold urlencoded_pair.
  change (urlencoded_encode (fst kv) +:+ "=" +:+ urlencoded_encode (snd kv))
    with (urlencoded_encode (fst kv) +:+ String "=" (urlencoded_encode (snd kv))).
  rewrite cut_at_app
    by (apply (all_bytes_weaken form_byte _ _ form_byte_not_eq),
          urlencoded_encode_form).
  simpl. fold (form_decode (urlencoded_encode (fst kv))).
  fold (form_decode (urlencoded_encode (snd kv))).
  rewrite !form_decode_encode. destruct kv; reflexivity.
Qed.

(** What a server reads back from a serialized list is the list. *)
Lemma urlencoded_parse_serialize (l : list (string * string)) :
  urlencoded_parse (urlencoded_serialize l) = l.
Proof.
  unfold urlencoded_parse, urlencoded_serialize.
  destruct l as [|kv l]; [reflexivity|].
  change (map urlencoded_pair (kv :: l))
    with (urlencoded_pair kv :: map urlencoded_pair l).
  rewrite split_on_join.
  2:{ change (urlencoded_pair kv :: map urlencoded_pair l)
        with (map urlencoded_pair (kv :: l)).
      induction (kv :: l) as [|x xs IH]; constructor;
        [apply urlencoded_pair_no_amp | exact IH]. }
  change (urlencoded_pair kv :: map urlencoded_pair l)
    with (map urlencoded_pair (kv :: l)).
  induction (kv :: l) as [|x xs IH]; [reflexivity|].
  simpl. rewrite urlencoded_pair_not_empty, parse_pair, IH. reflexivity.
Qed.

(** ** The [search] setter on a serialized list *)

Definition wire_byte (c : ascii) : bool := form_byte c || Byte.one_of "=&" c.

Lemma urlencoded_serialize_wire (l : list (string * string)) :
  all_bytes wire_byte (urlencoded_serialize l) = true.
Proof.
  assert (Hpair : forall kv, all_bytes wire_byte (urlencoded_pair kv) = true).
  { intros kv. unfold urlencoded_pair. rewrite !all_bytes_app. simpl.
    rewrite !(all_bytes_weaken form_byte wire_byte)
      by (try apply urlencoded_encode_form;
          intros c Hc; unfold wire_byte; rewrite Hc; reflexivity).
    reflexivity. }
  unfold urlencoded_serialize.
  induction l as [|kv l IH]; [reflexivity|].
  destruct l as [|kv' l]; [apply Hpair|].
  change (all_bytes wire_byte
            (urlencoded_pair kv +:+ "&" +:+
             JS.join "&" (map urlencoded_pair (kv' :: l))) = true).
  rewrite !all_bytes_app, Hpair, IH. reflexivity.
Qed.

Lemma remove_tab_newline_wire (s : string) :
  all_bytes wire_byte s = true -> remove_tab_newline s = s.
Proof.
  induction s as [|c s IH]; [reflexivity|].
  simpl. intros H. apply andb_prop in H as [Hc Hs]. rewrite (IH Hs).
  revert Hc. each_byte c; simpl; intros Hc; try reflexivity; discriminate Hc.
Qed.

Lemma percent_encode_wire (s : string) :
  all_bytes wire_byte s = true -> percent_encode special_query_set s = s.
Proof.
  induction s as [|c s IH]; [reflexivity|].
  simpl. intros H. apply andb_prop in H as [Hc Hs]. rewrite (IH Hs).
  revert Hc. each_byte c; simpl; intros Hc; try reflexivity; discriminate Hc.
Qed.

Lemma urlencoded_serialize_empty (l : list (string * string)) :
  String.eqb (urlencoded_serialize l) "" = match l with [] => true | _ => false end.
Proof.
  destruct l as [|kv [|kv' l]]; [reflexivity| |].
  - apply urlencoded_pair_not_empty.
  - unfold urlencoded_serialize.
    change (JS.join "&" (map urlencoded_pair (kv :: kv' :: l)))
      with (urlencoded_pair kv +:+ "&" +:+ JS.join "&" (map urlencoded_pair (kv' :: l))).
    pose proof (urlencoded_pair_not_empty kv) as H.
    destruct (urlencoded_pair kv); [discriminate H | reflexivity].
Qed.

(** Assigning a serialized list to [url.search] stores it unchanged, and
    the URL's query object holds the list again. *)
Lemma set_search_serialize (u : t) (l : list (string * string)) :
  set_search u (urlencoded_serialize l)
  = mk (path u)
       (match l with [] => None | _ => Some (urlencoded_serialize l) end)
       (fragment u) l.
Proof.
  unfold set_search. rewrite urlencoded_serialize_empty.
  destruct l as [|kv l]; [reflexivity|].
  pose proof (urlencoded_serialize_wire (kv :: l)) as Hw.
  set (v := urlencoded_serialize (kv :: l)) in *.
  assert (Hin : match v with String "?" rest => rest | _ => v end = v).
  { destruct v as [|c v]; [reflexivity|]. simpl in Hw.
    apply andb_prop in Hw as [Hc _]. revert Hc.
    each_byte c; simpl; intros Hc; try reflexivity; discriminate Hc. }
  rewrite Hin, (remove_tab_newline_wire _ Hw), (percent_encode_wire _ Hw).
  unfold v. rewrite urlencoded_parse_serialize. reflexivity.
Qed.

(** ** Parsing the tools' templates *)

Lemma remove_tab_newline_app (s t : string) :
  remove_tab_newline (s +:+ t) = remove_tab_newline s +:+ remove_tab_newline t.
Proof.
  induction s as [|c s IH]; [reflexivity|].
  simpl. rewrite IH.
  destruct (Byte.one_of _ c); reflexivity.
Qed.

Lemma remove_tab_newline_kept (s : string) :
  all_bytes kept s = true -> remove_tab_newline s = s.
Proof.
  induction s as [|c s IH]; [reflexivity|].
  simpl. intros H. apply andb_prop in H as [Hc Hs]. rewrite (IH Hs).
  revert Hc. each_byte c; simpl; intros Hc; try reflexivity; discriminate Hc.
Qed.

(** The parser never fails on the origin followed by a path. *)
Lemma parse_origin_path (rest : string) :
  parse (origin +:+ String "/" rest)
  = Some (path_state (remove_tab_newline rest) "" []).
Proof. reflexivity. Qed.

Lemma path_state_kept (id rest buffer : string) (p : list string) :
  all_bytes kept id = true ->
  path_state (id +:+ rest) buffer p = path_state rest (buffer +:+ id) p.
Proof.
  revert buffer. induction id as [|c id IH]; intros buffer H.
  - simpl. rewrite append_nil_r. reflexivity.
  - simpl in H. apply andb_prop in H as [Hc Hid].
    change (String c id +:+ rest) with (String c (id +:+ rest)).
    replace (buffer +:+ String c id) with ((buffer +:+ encode_with path_set c) +:+ id).
    + rewrite <- (IH _ Hid). revert Hc.
      each_byte c; simpl; intros Hc; try reflexivity; discriminate Hc.
    + rewrite append_assoc. f_equal. revert Hc.
      each_byte c; simpl; intros Hc; try reflexivity; discriminate Hc.
Qed.

(** Without a percent sign the only dot segments are [.] and [..]. *)
Lemma no_dot_segment (s : string) :
  all_bytes (other_than "%") s = true -> s <> "." -> s <> ".." ->
  single_dot_segment s = false /\ double_dot_segment s = false.
Proof.
  intros H H1 H2.
  destruct s as [|c s]; [split; reflexivity|].
  simpl in H. apply andb_prop in H as [Hc Hs]. revert Hc H1 H2.
  each_byte c; intros Hc H1 H2; try discriminate Hc; try (split; reflexivity).
  (* the segment starts with a dot *)
  destruct s as [|c s]; [congruence|].
  simpl in Hs. apply andb_prop in Hs as [Hc' Hs]. revert Hc' H2.
  each_byte c; intros Hc' H2; try discriminate Hc'; try (split; reflexivity).
  destruct s as [|c s]; [congruence|].
  split; reflexivity.
Qed.

Lemma kept_not_percent (s : string) :
  all_bytes kept s = true -> all_bytes (other_than "%") s = true.
Proof.
  apply all_bytes_weaken. intros c.
  each_byte c; simpl; intros Hc; try reflexivity; discriminate Hc.
Qed.

(** ** The embedding at work *)

Example href_of_plain_id :
  option_map URL.href (parse "https://script.googleapis.com/v1/scripts/X:run")
  = Some "https://script.googleapis.com/v1/scripts/X:run".
Proof. reflexivity. Qed.

Example space_is_encoded_in_path :
  option_map pathname (parse "https://script.googleapis.com/v1/projects/a b/versions")
  = Some "/v1/projects/a%20b/versions".
Proof. reflexivity. Qed.

Example dot_segments_are_resolved :
  option_map pathname (parse "https://script.googleapis.com/v1/projects/../x/%2E/versions")
  = Some "/v1/x/versions".
Proof. reflexivity. Qed.

Example question_mark_starts_query :
  option_map (fun u => (pathname u, query u))
    (parse "https://script.googleapis.com/v1/projects/a?b/versions")
  = Some ("/v1/projects/a", Some "b/versions").
Proof. reflexivity. Qed.

Example newline_is_dropped :
  option_map pathname
    (parse ("https://script.googleapis.com/v1/projects/a"
            +:+ String Byte.lf "b/versions"))
  = Some "/v1/projects/ab/versions".
Proof. reflexivity. Qed.

Example serialize_escapes_delimiters :
  urlencoded_serialize [("quotaUser", "u&key=1"); ("fields", "a b+c")]
  = "quotaUser=u%26key%3D1&fields=a+b%2Bc".
Proof. reflexivity. Qed.

Example parse_reads_pairs :
  urlencoded_parse "a=1&&b&c=%zz+%41"
  = [("a", "1"); ("b", ""); ("c", "%zz A")].
Proof. reflexivity. Qed.

Example ToString_of_array :
  JS.ToString (VArr [VNum 1; VNull; VStr "a"; VArr [VNum (-2); VBool true]])
  = Some "1,,a,-2,true".
Proof. reflexivity. Qed.

Example ToString_of_shadowed_object :
  JS.ToString (VObj [("toString", VNum 1)]) = None.
Proof. reflexivity. Qed.

Example stringify_omits_undefined_members :
  JS.JSON_stringify (VObj [("function", VUndefined); ("parameters", VArr [VUndefined])])
  = Some ("{" +:+ Sample.quoted "parameters" +:+ ":[null]}").
Proof. reflexivity. Qed.

End URLFacts.

(** * Running the monad *)

(** The platform functions stay folded while an invocation is executed
    step by step. *)
#[local] Arguments URL.parse : simpl never.
#[local] Arguments URL.set_search : simpl never.
#[local] Arguments URL.append : simpl never.
#[local] Arguments URL.href : simpl never.
#[local] Arguments URL.urlencoded_serialize : simpl never.
#[local] Arguments JS.ToString : simpl never.
#[local] Arguments JS.JSON_stringify : simpl never.
#[local] Arguments JS.truthy : simpl never.
#[local] Arguments JS.get_member : simpl never.
#[local] Arguments JS.Number_toString : simpl never.

Lemma bind_ret {A B} (x : A) (k : A -> M B) env s :
  bind (ret x) k env s = k x env s.
Proof. reflexivity. Qed.

Lemma bind_throw {A B} (e : Error) (k : A -> M B) env s :
  bind (throw e) k env s = (inl e, s).
Proof. reflexivity. Qed.

Lemma bind_bind {A B C} (m : M A) (f : A -> M B) (k : B -> M C) env s :
  bind (bind m f) k env s = bind m (fun x => bind (f x) k) env s.
Proof. unfold bind. destruct (m env s) as [[e|x] s']; reflexivity. Qed.

Definition TypeError (env : Env) (msg : string) : Error :=
  mkError "TypeError" msg (capture_stack env "TypeError" msg).

Lemma bind_or_TypeError {A B} (o : option A) (msg : string) (k : A -> M B) env s :
  bind (or_TypeError o msg) k env s
  = match o with
    | Some x => k x env s
    | None => (inl (TypeError env msg), s)
    end.
Proof. destruct o; reflexivity. Qed.

Lemma bind_await {A B} (f : Env -> Error + A) (k : A -> M B) env s :
  bind (await f) k env s
  = match f env with
    | inl e => (inl e, s)
    | inr x => k x env s
    end.
Proof. unfold bind, await. destruct (f env); reflexivity. Qed.

Lemma bind_observe {B} (payload : value) (k : unit -> M B) env s :
  bind (observe payload) k env s = k tt env s.
Proof. reflexivity. Qed.

Lemma bind_Date_now {B} (k : Z -> M B) env s :
  bind Date_now k env s = k (clock env (ticks s)) env (tick s).
Proof. reflexivity. Qed.

Lemma bind_new_Date_toISOString {B} (k : string -> M B) env s :
  bind new_Date_toISOString k env s
  = k (toISOString env (clock env (ticks s))) env (tick s).
Proof. reflexivity. Qed.

Lemma bind_new_Error {B} (msg : string) (k : Error -> M B) env s :
  bind (new_Error msg) k env s
  = k (mkError "Error" msg (capture_stack env "Error" msg)) env s.
Proof. reflexivity. Qed.

Lemma bind_do_fetch {B} (r : Request) (k : Response -> M B) env s :
  bind (do_fetch r) k env s
  = match fetch env r with
    | inl e => (inl e, mkState (fetched s ++ [r]) (ticks s))
    | inr x => k x env (mkState (fetched s ++ [r]) (ticks s))
    end.
Proof. unfold bind, do_fetch. destruct (fetch env r); reflexivity. Qed.

Lemma bind_response_text {B} (r : Response) (k : string -> M B) env s :
  bind (response_text r) k env s
  = match text r with
    | inl e => (inl e, s)
    | inr x => k x env s
    end.
Proof. unfold bind, response_text. destruct (text r); reflexivity. Qed.

Lemma try_catch_run {A} (m : M A) (handler : Error -> M A) env s :
  try_catch m handler env s
  = match m env s with
    | (inl err, s') => handler err env s'
    | (inr x, s') => (inr x, s')
    end.
Proof. reflexivity. Qed.

Lemma bind_try_await {A B} (f : Env -> Error + A) (fallback : Error -> A)
    (k : A -> M B) env s :
  bind (try_catch (await f) (fun e => ret (fallback e))) k env s
  = k (match f env with inl e => fallback e | inr x => x end) env s.
Proof. unfold bind, try_catch, await, ret. destruct (f env); reflexivity. Qed.

(** One step of symbolic execution of an invocation. *)
Ltac run_step :=
  cbv beta iota;
  match goal with
  | |- context [if JS.nullish ?v then _ else _] => destruct (JS.nullish v) eqn:?
  | |- context [JS.ToString (VStr ?x)] => change (JS.ToString (VStr x)) with (Some x)
  | |- context [bind (bind ?m ?f) ?k ?env ?s] => rewrite (bind_bind m f k env s)
  | |- context [bind (ret ?x) ?k ?env ?s] => rewrite (bind_ret x k env s)
  | |- context [bind (throw ?e) ?k ?env ?s] => rewrite (bind_throw e k env s)
  | |- context [bind (or_TypeError ?o ?msg) ?k ?env ?s] =>
      rewrite (bind_or_TypeError o msg k env s)
  | |- context [bind (try_catch (await ?f) (fun e => ret (@?d e))) ?k ?env ?s] =>
      rewrite (bind_try_await f d k env s)
  | |- context [bind (await ?f) ?k ?env ?s] => rewrite (bind_await f k env s)
  | |- context [bind (observe ?p) ?k ?env ?s] => rewrite (bind_observe p k env s)
  | |- context [bind Date_now ?k ?env ?s] => rewrite (bind_Date_now k env s)
  | |- context [bind new_Date_toISOString ?k ?env ?s] =>
      rewrite (bind_new_Date_toISOString k env s)
  | |- context [bind (new_Error ?msg) ?k ?env ?s] => rewrite (bind_new_Error msg k env s)
  | |- context [bind (do_fetch ?r) ?k ?env ?s] => rewrite (bind_do_fetch r k env s)
  | |- context [bind (response_text ?r) ?k ?env ?s] =>
      rewrite (bind_response_text r k env s)
  | |- context [bind (if ?b then _ else _) _ _ _] => destruct b eqn:?
  | |- context [if negb (ok ?r) then _ else _] => destruct (ok r) eqn:?; cbn [negb]
  | |- context [bind (match ?v with VUndefined => _ | _ => _ end) _ _ _] =>
      destruct v eqn:?
  | |- context [match ?o with Some _ => _ | None => (inl _, _) end] => destruct o eqn:?
  | |- context [match ?x with inl _ => (inl _, _) | inr _ => _ end] => destruct x eqn:?
  end.

(** At the end of a path the recorded answers are replayed on the other
    side of the goal. *)
Ltac replay :=
  cbn; try discriminate;
  repeat match goal with
         | H : ?l = _ |- _ =>
             lazymatch l with
             | true => fail
             | false => fail
             | _ => rewrite H; cbn
             end
         end.

(** * Query parameters *)

Module Query.

(** The query parameter a truthy argument contributes:
    [if (v) params.append(name, v)]. *)
Definition entry (name : string) (v : value) : option (list (string * string)) :=
  if JS.truthy v then option_map (fun s => [(name, s)]) (JS.ToString v) else Some [].

End Query.

(** * Facts about script-run *)

Module ScriptRunFacts.
Import ScriptRun Query.

(** The three regions of [executeFunction]: the statements before the
    [try], the [try] block and the [catch] block. *)
Definition prepare {A} (a : args) (continue : URL.t -> M A) : M A :=
  let scriptId := scriptId a in
  let fields := fields a in
  let alt := JS.default (VStr "json") (alt a) in
  let quotaUser := quotaUser a in
  let prettyPrint := JS.default (VBool true) (prettyPrint a) in
  id <- ToString scriptId ;;
  url <- new_URL (baseUrl +:+ "/v1/scripts/" +:+ id +:+ ":run") ;;
  let params := [] in
  params <- (if JS.truthy fields then params_append params "fields" fields
             else ret params) ;;
  params <- (if JS.truthy alt then params_append params "alt" alt
             else ret params) ;;
  params <- (match prettyPrint with
             | VUndefined => ret params
             | _ => s <- call_toString prettyPrint ;;
                    params_append params "prettyPrint" (VStr s)
             end) ;;
  params <- (if JS.truthy quotaUser then params_append params "quotaUser" quotaUser
             else ret params) ;;
  continue (URL.set_search url (URL.urlencoded_serialize params)).

Definition requestBody (a : args) : value :=
  VObj [("function", functionName a);
        ("parameters", JS.default (VArr []) (parameters a));
        ("devMode", JS.default (VBool true) (devMode a))].

Definition inspect (data : value) : M value :=
  res <- get data "response" ;;
  err <- get data "error" ;;
  done <- get data "done" ;;
  observe VUndefined ;;
  res <- get data "response" ;;
  (if JS.truthy (opt_get (opt_get res "executionMetadata") "log")
   then observe VUndefined else ret tt) ;;
  ret data.

Definition recover (a : args) (error : Error) : M value :=
  timestamp <- new_Date_toISOString ;;
  ret (error_envelope error (errorDetails error (scriptId a) timestamp)).

Lemma script_run_regions (a : args) :
  executeFunction a
  = prepare a (fun url =>
     try_catch
       (headers <- await getAuthHeaders ;;
        name <- ToString (functionName a) ;;
        response <- do_fetch (mkRequest "POST" url
                                (<["Content-Type" := "application/json"]> headers)
                                (JS.JSON_stringify (requestBody a))) ;;
        if negb (ok response) then
          errorData <- response_json response ;;
          error <- new_Error (match JS.JSON_stringify errorData with
                              | Some s => s
                              | None => ""
                              end) ;;
          throw error
        else data <- response_json response ;; inspect data)
       (recover a)).
Proof. reflexivity. Qed.


(** The parameter [prettyPrint !== undefined] contributes. *)
Definition pretty_entry (v : value) : option (list (string * string)) :=
  match v with
  | VUndefined => Some []
  | _ => option_map (fun s => [("prettyPrint", s)]) (JS.call_toString v)
  end.

Definition template (id : string) : string :=
  baseUrl +:+ "/v1/scripts/" +:+ id +:+ ":run".

(** The list handed to [url.search], read off the arguments. *)
Definition query_params (a : args) : option (list (string * string)) :=
  f ← entry "fields" (fields a);
  al ← entry "alt" (JS.default (VStr "json") (alt a));
  pp ← pretty_entry (JS.default (VBool true) (prettyPrint a));
  q ← entry "quotaUser" (quotaUser a);
  Some (f ++ al ++ pp ++ q).

(** The URL of the request, read off the arguments; [None] when one of
    the conversions before the [try] throws. *)
Definition url_of (a : args) : option URL.t :=
  id ← JS.ToString (scriptId a);
  u0 ← URL.parse (template id);
  params ← query_params a;
  Some (URL.set_search u0 (URL.urlencoded_serialize params)).

(** The statements before the [try] either throw a [TypeError], leaving
    the state as it was, or continue with the URL of the request. *)
Lemma script_run_prepare {A} (a : args) (continue : URL.t -> M A) env s :
  match url_of a with
  | Some u => prepare a continue env s = continue u env s
  | None => exists e, prepare a continue env s = (inl e, s) /\ name e = "TypeError"
  end.
Proof.
  unfold url_of, query_params, prepare, entry, pretty_entry, template.
  unfold ToString, new_URL, params_append, call_toString, ToString.
  repeat run_step; replay;
    solve [ reflexivity | eexists; split; reflexivity ].
Qed.

(** The request handed to [fetch]. *)
Definition request (a : args) (u : URL.t) (h : gmap string string) : Request :=
  mkRequest "POST" u (<["Content-Type" := "application/json"]> h)
    (JS.JSON_stringify (requestBody a)).

(** What the [try] block makes of a response: the decoded body of a 2xx
    response, or the error it throws. *)
Definition settle (env : Env) (r : Response) : Error + value :=
  match text r with
  | inl e => inl e
  | inr t =>
      match JSON_parse env t with
      | inl e => inl e
      | inr d =>
          if ok r then
            if JS.nullish d then inl (TypeError env (cannot_read d "response"))
            else inr d
          else
            let msg := match JS.JSON_stringify d with Some s => s | None => "" end in
            inl (mkError "Error" msg (capture_stack env "Error" msg))
      end
  end.

(** The outcome of the [try] block and the requests it issued. *)
Definition attempt (env : Env) (a : args) (u : URL.t) : (Error + value) * list Request :=
  match getAuthHeaders env with
  | inl e => (inl e, [])
  | inr h =>
      match JS.ToString (functionName a) with
      | None => (inl (TypeError env "Cannot convert object to primitive value"), [])
      | Some _ =>
          (match fetch env (request a u h) with
           | inl e => inl e
           | inr r => settle env r
           end, [request a u h])
      end
  end.

(** An invocation in closed form: a [TypeError] before the [try]
    escapes; everything the [try] block throws comes back as the
    envelope. *)
Lemma script_run_closed_form (env : Env) (a : args) :
  match url_of a with
  | None =>
      exists e, run (executeFunction a) env = (inl e, []) /\ name e = "TypeError"
  | Some u =>
      run (executeFunction a) env
      = (inr (match fst (attempt env a u) with
              | inr d => d
              | inl e =>
                  error_envelope e
                    (errorDetails e (scriptId a) (toISOString env (clock env 0)))
              end),
         snd (attempt env a u))
  end.
Proof.
  unfold run. rewrite script_run_regions.
  pose proof (@script_run_prepare value a) as Hprep.
  destruct (url_of a) as [u|].
  2:{ match goal with |- context [prepare a ?k env ?s] =>
        destruct (Hprep k env s) as [e [-> He]] end.
      exists e. split; [reflexivity | assumption]. }
  rewrite Hprep, try_catch_run.
  unfold attempt, settle, request, recover, inspect, response_json, get, ToString.
  repeat run_step; replay; reflexivity.
Qed.


End ScriptRunFacts.

(** * Facts about versions-list *)

Module VersionsListFacts.
Import VersionsList.

Definition template (id : string) : string :=
  baseUrl +:+ "/v1/projects/" +:+ id +:+ "/versions".

(** [if (v) url.searchParams.append(name, v)] *)
Definition append_if (u : URL.t) (name : string) (v : value) : option URL.t :=
  if JS.truthy v then s ← JS.ToString v; Some (URL.append u name s) else Some u.

(** The URL of the request, read off the arguments; [None] when one of
    the conversions throws. *)
Definition url_of (a : args) : option URL.t :=
  id ← JS.ToString (scriptId a);
  u ← URL.parse (template id);
  size ← JS.call_toString (JS.default (VNum 100) (pageSize a));
  u ← Some (URL.append u "pageSize" size);
  u ← append_if u "pageToken" (pageToken a);
  u ← append_if u "fields" (fields a);
  u ← Some (URL.append u "alt" "json");
  u ← append_if u "key" (key a);
  (if JS.truthy (JS.default (VBool true) (prettyPrint a))
   then s ← JS.call_toString (JS.default (VBool true) (prettyPrint a));
        Some (URL.append u "prettyPrint" s)
   else Some u).

(** The statements of the [try] block that build the URL. *)
Definition prepare {A} (a : args) (continue : URL.t -> M A) : M A :=
  let scriptId := scriptId a in
  let pageSize := JS.default (VNum 100) (pageSize a) in
  let pageToken := pageToken a in
  let fields := fields a in
  let key := key a in
  let prettyPrint := JS.default (VBool true) (prettyPrint a) in
  id <- ToString scriptId ;;
  url <- new_URL (baseUrl +:+ "/v1/projects/" +:+ id +:+ "/versions") ;;
  size <- call_toString pageSize ;;
  url <- searchParams_append url "pageSize" (VStr size) ;;
  url <- (if JS.truthy pageToken then searchParams_append url "pageToken" pageToken
          else ret url) ;;
  url <- (if JS.truthy fields then searchParams_append url "fields" fields
          else ret url) ;;
  url <- searchParams_append url "alt" (VStr "json") ;;
  url <- (if JS.truthy key then searchParams_append url "key" key
          else ret url) ;;
  url <- (if JS.truthy prettyPrint
          then s <- call_toString prettyPrint ;;
               searchParams_append url "prettyPrint" (VStr s)
          else ret url) ;;
  continue url.

Lemma versions_list_prepare {A} (a : args) (continue : URL.t -> M A) env s :
  match url_of a with
  | Some u => prepare a continue env s = continue u env s
  | None => exists e, prepare a continue env s = (inl e, s) /\ name e = "TypeError"
  end.
Proof.
  unfold url_of, append_if, prepare, template.
  unfold ToString, new_URL, searchParams_append, call_toString, ToString.
  repeat run_step; replay;
    solve [ reflexivity | eexists; split; reflexivity ].
Qed.

(** The request handed to [fetch]. *)
Definition request (u : URL.t) (token : string) : Request :=
  mkRequest "GET" u
    (<["Authorization" := "Bearer " +:+ token]> {["Accept" := "application/json"]})
    None.

(** [errorData.error?.message || errorData.message || 'Unknown error'],
    for an [errorData] that has properties. *)
Definition reason (errorData : value) : value :=
  let first := opt_get (JS.get_member errorData "error") "message" in
  if JS.truthy first then first
  else or_else (JS.get_member errorData "message") (VStr "Unknown error").

(** The error a response outside 200-299 ends in. *)
Definition failure (env : Env) (r : Response) : Error :=
  match text r with
  | inl e => e
  | inr errorText =>
      let errorData :=
        match JSON_parse env errorText with
        | inr d => d
        | inl _ => VObj [("message", VStr errorText)]
        end in
      if JS.nullish errorData then TypeError env (cannot_read errorData "error")
      else
        match JS.ToString (reason errorData) with
        | None => TypeError env "Cannot convert object to primitive value"
        | Some s =>
            let msg := "API Error (" +:+ JS.Number_toString (status r) +:+ "): " +:+ s in
            mkError "Error" msg (capture_stack env "Error" msg)
        end
  end.

(** What the [try] block makes of a response. *)
Definition settle (env : Env) (r : Response) : Error + value :=
  if ok r then
    match text r with
    | inl e => inl e
    | inr t =>
        match JSON_parse env t with
        | inl e => inl e
        | inr d =>
            if JS.nullish d then inl (TypeError env (cannot_read d "versions"))
            else inr d
        end
    end
  else inl (failure env r).

(** The envelope the [catch] block returns for an error. *)
Definition enveloped (a : args) (e : Error) (v : value) : Prop :=
  exists duration timestamp,
    v = error_envelope e (errorDetails e (scriptId a) duration timestamp).

(** The requests of an invocation. *)
Definition sent (env : Env) (a : args) : list Request :=
  match getOAuthAccessToken env, url_of a with
  | inr token, Some u => [request u token]
  | _, _ => []
  end.

(** The result of an invocation. *)
Definition verdict (env : Env) (a : args) (v : value) : Prop :=
  match getOAuthAccessToken env with
  | inl e => enveloped a e v
  | inr token =>
      match url_of a with
      | None => exists e, name e = "TypeError" /\ enveloped a e v
      | Some u =>
          match fetch env (request u token) with
          | inl e => enveloped a e v
          | inr r =>
              match settle env r with
              | inl e => enveloped a e v
              | inr data => v = data
              end
          end
      end
  end.

Lemma versions_list_regions (a : args) :
  executeFunction a
  = (startTime <- Date_now ;;
     try_catch
       (token <- await getOAuthAccessToken ;;
        prepare a (fun url =>
          fetchStartTime <- Date_now ;;
          response <- do_fetch (request url token) ;;
          fetchEnd <- Date_now ;;
          if negb (ok response) then
            errorText <- response_text response ;;
            errorData <- try_catch (await (fun env => JSON_parse env errorText))
                           (fun parseError => ret (VObj [("message", VStr errorText)])) ;;
            now <- Date_now ;;
            timestamp <- new_Date_toISOString ;;
            err <- get errorData "error" ;;
            reason <- (if JS.truthy (opt_get err "message") then ret (opt_get err "message")
                       else msg <- get errorData "message" ;;
                            ret (or_else msg (VStr "Unknown error"))) ;;
            reason <- ToString reason ;;
            error <- new_Error ("API Error (" +:+ JS.Number_toString (status response)
                                +:+ "): " +:+ reason) ;;
            throw error
          else
            data <- response_json response ;;
            versions <- get data "versions" ;;
            now <- Date_now ;;
            ret data))
       (fun error =>
          now <- Date_now ;;
          timestamp <- new_Date_toISOString ;;
          ret (error_envelope error
                 (errorDetails error (scriptId a) (now - startTime)%Z timestamp)))).
Proof. reflexivity. Qed.

(** The body on a destructured argument, in closed form: it always
    returns, and what it issues and returns is read off the
    collaborators' answers. *)
Lemma versions_list_closed_form (env : Env) (a : args) :
  exists v, run (executeFunction a) env = (inr v, sent env a) /\ verdict env a v.
Proof.
  unfold run, sent, verdict. rewrite versions_list_regions.
  pose proof (@versions_list_prepare value a) as Hprep.
  rewrite bind_Date_now, try_catch_run.
  rewrite bind_await.
  destruct (getOAuthAccessToken env) as [e|token].
  { cbn. eexists. split; [reflexivity|]. do 2 eexists. reflexivity. }
  destruct (url_of a) as [u|].
  2:{ match goal with |- context [prepare a ?k env ?s] =>
        destruct (Hprep k env s) as [e [-> He]] end.
      cbn. eexists. split; [reflexivity|]. exists e. split; [assumption|].
      do 2 eexists. reflexivity. }
  rewrite Hprep.
  unfold settle, failure, reason, request, response_json, get, ToString.
  repeat run_step; replay;
    try solve [eexists; split; [reflexivity|];
               first [reflexivity | do 2 eexists; reflexivity]].
Qed.

End VersionsListFacts.


Module DeclaredFacts.

Lemma opt_string_ToString (v : value) :
  Declared.opt_string v = true -> exists s, JS.ToString v = Some s.
Proof. destruct v; try discriminate; intros _; eexists; reflexivity. Qed.

End DeclaredFacts.

Module ScriptRunTyped.
Import ScriptRun Query ScriptRunFacts.

Lemma script_run_template_parses (id : string) :
  exists u, URL.parse (template id) = Some u.
Proof.
  eexists. unfold template, baseUrl.
  change ("https://script.googleapis.com" +:+ "/v1/scripts/" +:+ id +:+ ":run")
    with (URL.origin +:+ String "/" ("v1/scripts/" +:+ id +:+ ":run")).
  apply URLFacts.parse_origin_path.
Qed.

Lemma entry_opt_string (name : string) (v : value) :
  Declared.opt_string v = true -> exists l, entry name v = Some l.
Proof.
  unfold entry. destruct v; try discriminate; intros _.
  - eexists; reflexivity.
  - destruct (JS.truthy (VStr s)); eexists; reflexivity.
Qed.

Lemma pretty_entry_default (v : value) :
  Declared.opt_boolean v = true ->
  exists s, pretty_entry (JS.default (VBool true) v) = Some [("prettyPrint", s)].
Proof. destruct v; try discriminate; intros _; eexists; reflexivity. Qed.

(** With arguments of the declared types nothing before the [try]
    throws. *)
Lemma script_run_url_of_declared (a : args) :
  Declared.script_run a = true -> exists u, url_of a = Some u.
Proof.
  unfold Declared.script_run. intros H.
  repeat (apply andb_prop in H as [H ?]).
  destruct (DeclaredFacts.opt_string_ToString (scriptId a)) as [id Hid]; [assumption|].
  destruct (script_run_template_parses id) as [u0 Hu0].
  destruct (entry_opt_string "fields" (fields a)) as [f Hf]; [assumption|].
  destruct (entry_opt_string "alt" (JS.default (VStr "json") (alt a))) as [al Hal].
  { destruct (alt a); try discriminate; reflexivity. }
  destruct (pretty_entry_default (prettyPrint a)) as [pp Hpp]; [assumption|].
  destruct (entry_opt_string "quotaUser" (quotaUser a)) as [q Hq]; [assumption|].
  unfold url_of, query_params. rewrite Hid, Hf, Hal, Hpp, Hq. cbn.
  rewrite Hu0. cbn. eexists; reflexivity.
Qed.

Lemma functionName_declared (a : args) :
  Declared.script_run a = true -> exists name, JS.ToString (functionName a) = Some name.
Proof.
  unfold Declared.script_run. intros H.
  repeat (apply andb_prop in H as [H ?]).
  apply DeclaredFacts.opt_string_ToString. assumption.
Qed.

End ScriptRunTyped.

(** * The URL of a script-run request *)

Module ScriptRunURL.
Import ScriptRun Query ScriptRunFacts.

(** On a script id made of bytes the path state copies, the path is the
    template's. *)
Lemma script_run_template_path (id : string) :
  URL.all_bytes URL.kept id = true ->
  URL.parse (template id)
  = Some (URL.mk ["v1"; "scripts"; id +:+ ":run"] None None []).
Proof.
  intros Hid. unfold template, baseUrl.
  change ("https://script.googleapis.com" +:+ "/v1/scripts/" +:+ id +:+ ":run")
    with (URL.origin +:+ String "/" ("v1/scripts/" +:+ id +:+ ":run")).
  rewrite URLFacts.parse_origin_path.
  rewrite !URLFacts.remove_tab_newline_app.
  rewrite (URLFacts.remove_tab_newline_kept id Hid).
  change (URL.remove_tab_newline "v1/scripts/" +:+ id +:+ URL.remove_tab_newline ":run")
    with (String "v" (String "1" (String "/" ("scripts/" +:+ id +:+ ":run")))).
  change (URL.path_state (String "v" (String "1" (String "/" ("scripts/" +:+ id +:+ ":run")))) "" [])
    with (URL.path_state (id +:+ ":run") "" ["v1"; "scripts"]).
  rewrite (URLFacts.path_state_kept id ":run" "" _ Hid).
  change (URL.path_state ":run" ("" +:+ id) ["v1"; "scripts"])
    with (URL.with_query
            (URL.close_segment false ((((id +:+ ":") +:+ "r") +:+ "u") +:+ "n")
               ["v1"; "scripts"]) None None).
  rewrite !URLFacts.append_assoc.
  change (":" +:+ "r" +:+ "u" +:+ "n") with ":run".
  assert (Hdot : URL.single_dot_segment (id +:+ ":run") = false
                 /\ URL.double_dot_segment (id +:+ ":run") = false).
  { apply URLFacts.no_dot_segment.
    - rewrite URLFacts.all_bytes_app, (URLFacts.kept_not_percent id Hid). reflexivity.
    - destruct id as [|c [|c' id]]; discriminate.
    - destruct id as [|c [|c' [|c'' id]]]; discriminate. }
  unfold URL.close_segment. destruct Hdot as [-> ->]. reflexivity.
Qed.

Lemma pretty_entry_shape (v : value) (pp : list (string * string)) :
  pretty_entry (JS.default (VBool true) v) = Some pp ->
  exists s, JS.call_toString (JS.default (VBool true) v) = Some s
            /\ pp = [("prettyPrint", s)].
Proof.
  unfold pretty_entry.
  destruct v; cbn;
    try discriminate;
    try (intros [= <-]; eexists; split; reflexivity);
    match goal with
    | |- context [JS.ToString ?x] => destruct (JS.ToString x)
    end; cbn; try discriminate; intros [= <-]; eexists; split; reflexivity.
Qed.

Lemma entry_names (name : string) (v : value) (l : list (string * string)) :
  entry name v = Some l -> map fst l = if JS.truthy v then [name] else [].
Proof.
  unfold entry. destruct (JS.truthy v).
  - destruct (JS.ToString v); cbn; [intros [= <-]; reflexivity | discriminate].
  - intros [= <-]. reflexivity.
Qed.

(** The parameter names of a request, in order. *)
Definition names (a : args) : list string :=
  (if JS.truthy (fields a) then ["fields"] else [])
  ++ (if JS.truthy (JS.default (VStr "json") (alt a)) then ["alt"] else [])
  ++ ["prettyPrint"]
  ++ (if JS.truthy (quotaUser a) then ["quotaUser"] else []).

Lemma query_params_names (a : args) (params : list (string * string)) :
  query_params a = Some params -> map fst params = names a.
Proof.
  unfold query_params, names.
  destruct (entry "fields" (fields a)) as [f|] eqn:Hf; [|discriminate].
  destruct (entry "alt" _) as [al|] eqn:Hal; [|discriminate].
  destruct (pretty_entry _) as [pp|] eqn:Hpp; [|discriminate].
  destruct (entry "quotaUser" _) as [q|] eqn:Hq; [|discriminate].
  cbn. intros [= <-].
  apply pretty_entry_shape in Hpp as [s [_ ->]].
  rewrite !map_app, (entry_names _ _ _ Hf), (entry_names _ _ _ Hal),
    (entry_names _ _ _ Hq).
  reflexivity.
Qed.

(** The URL of a request: the parsed template with the serialized
    parameter list as its query. *)
Lemma script_run_url_of_shape (a : args) (u : URL.t) :
  url_of a = Some u ->
  exists id u0 params,
    JS.ToString (scriptId a) = Some id /\
    URL.parse (template id) = Some u0 /\
    query_params a = Some params /\
    u = URL.mk (URL.path u0) (Some (URL.urlencoded_serialize params))
          (URL.fragment u0) params.
Proof.
  unfold url_of.
  destruct (JS.ToString (scriptId a)) as [id|]; [|discriminate].
  cbn. destruct (URL.parse (template id)) as [u0|] eqn:Hu0; [|discriminate].
  cbn. destruct (query_params a) as [params|] eqn:Hq; [|discriminate].
  cbn. intros [= <-]. exists id, u0, params.
  do 3 (split; [reflexivity || assumption|]).
  rewrite URLFacts.set_search_serialize.
  pose proof (query_params_names a params Hq) as Hn.
  destruct params as [|kv params]; [|reflexivity].
  unfold names in Hn. cbn in Hn.
  repeat match type of Hn with context [if ?b then _ else _] => destruct b end;
    discriminate.
Qed.

End ScriptRunURL.

(** * What script-run issues and returns *)

Module ScriptRunOutcome.
Import ScriptRun ScriptRunFacts ScriptRunURL.

(** A request is issued exactly when the URL could be built, the
    credentials were obtained and the function name could be put in the
    log line. *)
Lemma script_run_requests_eq (env : Env) (a : args) :
  requests (executeFunction a) env
  = match url_of a, getAuthHeaders env, JS.ToString (functionName a) with
    | Some u, inr h, Some _ => [request a u h]
    | _, _, _ => []
    end.
Proof.
  unfold requests. pose proof (script_run_closed_form env a) as H.
  destruct (url_of a) as [u|].
  - rewrite H. unfold attempt. cbn.
    destruct (getAuthHeaders env); [reflexivity|].
    destruct (JS.ToString (functionName a)); reflexivity.
  - destruct H as [e [-> _]]. reflexivity.
Qed.

Lemma script_run_requests_inv (env : Env) (a : args) (req : Request) :
  In req (requests (executeFunction a) env) ->
  exists u h name,
    url_of a = Some u /\ getAuthHeaders env = inr h /\
    JS.ToString (functionName a) = Some name /\ req = request a u h.
Proof.
  rewrite script_run_requests_eq.
  destruct (url_of a) as [u|]; [|intros []].
  destruct (getAuthHeaders env) as [e|h]; [intros []|].
  destruct (JS.ToString (functionName a)) as [name|]; [|intros []].
  intros [<- | []]. exists u, h, name. repeat split.
Qed.

(** The query string of an issued request decodes to the parameter list
    of the arguments. *)
Lemma script_run_request_query (env : Env) (a : args) (req : Request) :
  In req (requests (executeFunction a) env) ->
  exists params,
    query_params a = Some params /\
    URL.query (url req) = Some (URL.urlencoded_serialize params) /\
    URL.searchParams (url req) = params /\
    URL.urlencoded_parse (URL.urlencoded_serialize params) = params.
Proof.
  intros Hin. apply script_run_requests_inv in Hin as (u & h & name & Hu & _ & _ & ->).
  apply script_run_url_of_shape in Hu as (id & u0 & params & _ & _ & Hq & ->).
  exists params. repeat split; try assumption.
  apply URLFacts.urlencoded_parse_serialize.
Qed.

(** The outcome when the URL could be built. *)
Lemma script_run_outcome_eq (env : Env) (a : args) (u : URL.t) :
  url_of a = Some u ->
  outcome (executeFunction a) env
  = inr (match fst (attempt env a u) with
         | inr d => d
         | inl e =>
             error_envelope e
               (errorDetails e (scriptId a) (toISOString env (clock env 0)))
         end).
Proof.
  intros Hu. unfold outcome. pose proof (script_run_closed_form env a) as H.
  rewrite Hu in H. rewrite H. reflexivity.
Qed.

End ScriptRunOutcome.

(** * The URL of a versions-list request *)

Module VersionsListURL.
Import VersionsList VersionsListFacts.

Lemma versions_list_template_parses (id : string) :
  exists u, URL.parse (template id) = Some u.
Proof.
  eexists. unfold template, baseUrl.
  change ("https://script.googleapis.com" +:+ "/v1/projects/" +:+ id +:+ "/versions")
    with (URL.origin +:+ String "/" ("v1/projects/" +:+ id +:+ "/versions")).
  apply URLFacts.parse_origin_path.
Qed.

(** On a script id made of bytes the path state copies, and which is not
    a dot segment, the path is the template's. *)
Lemma versions_list_template_path (id : string) :
  URL.all_bytes URL.kept id = true -> id <> "." -> id <> ".." ->
  URL.parse (template id)
  = Some (URL.mk ["v1"; "projects"; id; "versions"] None None []).
Proof.
  intros Hid H1 H2. unfold template, baseUrl.
  change ("https://script.googleapis.com" +:+ "/v1/projects/" +:+ id +:+ "/versions")
    with (URL.origin +:+ String "/" ("v1/projects/" +:+ id +:+ "/versions")).
  rewrite URLFacts.parse_origin_path.
  rewrite !URLFacts.remove_tab_newline_app.
  rewrite (URLFacts.remove_tab_newline_kept id Hid).
  change (URL.path_state
            (URL.remove_tab_newline "v1/projects/" +:+ id
             +:+ URL.remove_tab_newline "/versions") "" [])
    with (URL.path_state (id +:+ "/versions") "" ["v1"; "projects"]).
  rewrite (URLFacts.path_state_kept id "/versions" "" _ Hid).
  change (URL.path_state "/versions" ("" +:+ id) ["v1"; "projects"])
    with (URL.with_query
            (URL.close_segment false "versions"
               (URL.close_segment true id ["v1"; "projects"])) None None).
  destruct (URLFacts.no_dot_segment id (URLFacts.kept_not_percent id Hid) H1 H2)
    as [Hs Hd].
  unfold URL.close_segment at 2. rewrite Hs, Hd. reflexivity.
Qed.

(** The parameters appended to the URL, read off the arguments. *)
Definition query_params (a : args) : option (list (string * string)) :=
  size ← JS.call_toString (JS.default (VNum 100) (pageSize a));
  t ← Query.entry "pageToken" (pageToken a);
  f ← Query.entry "fields" (fields a);
  k ← Query.entry "key" (key a);
  p ← (if JS.truthy (JS.default (VBool true) (prettyPrint a))
       then s ← JS.call_toString (JS.default (VBool true) (prettyPrint a));
            Some [("prettyPrint", s)]
       else Some []);
  Some ([("pageSize", size)] ++ t ++ f ++ [("alt", "json")] ++ k ++ p).

Lemma append_spec (u : URL.t) (name val : string) :
  URL.append u name val
  = URL.mk (URL.path u)
      (Some (URL.urlencoded_serialize (URL.searchParams u ++ [(name, val)])))
      (URL.fragment u) (URL.searchParams u ++ [(name, val)]).
Proof.
  unfold URL.append. rewrite URLFacts.urlencoded_serialize_empty.
  destruct (URL.searchParams u); reflexivity.
Qed.

(** The URL of a request: the parsed template with the appended
    parameters after those the template's text carried. *)
Lemma versions_list_url_of_shape (a : args) (u : URL.t) :
  url_of a = Some u ->
  exists id u0 l,
    JS.ToString (scriptId a) = Some id /\
    URL.parse (template id) = Some u0 /\
    query_params a = Some l /\
    u = URL.mk (URL.path u0)
          (Some (URL.urlencoded_serialize (URL.searchParams u0 ++ l)))
          (URL.fragment u0) (URL.searchParams u0 ++ l).
Proof.
  unfold url_of, query_params, append_if, Query.entry.
  destruct (JS.ToString (scriptId a)) as [id|]; [|discriminate].
  cbn. destruct (URL.parse (template id)) as [u0|] eqn:Hu0; [|discriminate].
  cbn. destruct (JS.call_toString (JS.default (VNum 100) (pageSize a)))
    as [size|]; [|discriminate].
  cbn. intros H. exists id, u0. revert H.
  repeat (cbn;
          match goal with
          | |- context [if JS.truthy ?v then _ else _] => destruct (JS.truthy v)
          | |- context [JS.ToString ?v] => destruct (JS.ToString v)
          | |- context [JS.call_toString ?v] => destruct (JS.call_toString v)
          end); cbn; try discriminate; intros [= <-];
    eexists; (do 3 (split; [reflexivity || assumption|]));
    rewrite !append_spec; cbn [URL.path URL.fragment URL.searchParams];
    rewrite <- !app_assoc; reflexivity.
Qed.

End VersionsListURL.

(** * What versions-list issues and returns *)

Module VersionsListOutcome.
Import VersionsList VersionsListFacts VersionsListURL.

Lemma versions_list_requests_eq (env : Env) (a : args) :
  requests (executeFunction a) env = sent env a.
Proof.
  unfold requests. destruct (versions_list_closed_form env a) as [v [-> _]]. reflexivity.
Qed.

Lemma versions_list_requests_inv (env : Env) (a : args) (req : Request) :
  In req (requests (executeFunction a) env) ->
  exists u token,
    url_of a = Some u /\ getOAuthAccessToken env = inr token /\ req = request u token.
Proof.
  rewrite versions_list_requests_eq. unfold sent.
  destruct (getOAuthAccessToken env) as [e|token]; [intros []|].
  destruct (url_of a) as [u|]; [|intros []].
  intros [<- | []]. exists u, token. repeat split.
Qed.

(** On a destructured argument the body always returns. *)
Lemma versions_list_outcome_verdict (env : Env) (a : args) :
  exists v, outcome (executeFunction a) env = inr v /\ verdict env a v.
Proof.
  unfold outcome. destruct (versions_list_closed_form env a) as [v [-> Hv]].
  exists v. split; [reflexivity | assumption].
Qed.

(** The query string of an issued request decodes to the parameters the
    template's text carried followed by the appended ones. *)
Lemma versions_list_request_query (env : Env) (a : args) (req : Request) :
  In req (requests (executeFunction a) env) ->
  exists q carried l,
    URL.query (url req) = Some q /\
    query_params a = Some l /\
    URL.urlencoded_parse q = carried ++ l.
Proof.
  intros Hin. apply versions_list_requests_inv in Hin as (u & token & Hu & _ & ->).
  apply versions_list_url_of_shape in Hu as (id & u0 & l & _ & _ & Hl & ->).
  exists (URL.urlencoded_serialize (URL.searchParams u0 ++ l)), (URL.searchParams u0), l.
  repeat split; try assumption.
  apply URLFacts.urlencoded_parse_serialize.
Qed.

(** With arguments of the declared types the URL can be built. *)
Lemma versions_list_url_of_declared (a : args) :
  Declared.versions_list a = true -> exists u, url_of a = Some u.
Proof.
  unfold Declared.versions_list. intros H.
  repeat (apply andb_prop in H as [H ?]).
  destruct (DeclaredFacts.opt_string_ToString (scriptId a)) as [id Hid]; [assumption|].
  destruct (versions_list_template_parses id) as [u0 Hu0].
  unfold url_of, append_if. rewrite Hid. cbn. rewrite Hu0. cbn.
  destruct (pageSize a); try discriminate;
    destruct (pageToken a); try discriminate;
    destruct (fields a); try discriminate;
    destruct (key a); try discriminate;
    destruct (prettyPrint a) as [| |[]| | | |]; try discriminate;
    cbn;
    repeat match goal with
           | |- context [if JS.truthy ?v then _ else _] => destruct (JS.truthy v); cbn
           end;
    eexists; reflexivity.
Qed.

End VersionsListOutcome.

(** * The parameters of a versions-list request *)

Module VersionsListQuery.
Import VersionsList VersionsListFacts VersionsListURL.

Lemma entry_string (name s : string) :
  s <> "" -> Query.entry name (VStr s) = Some [(name, s)].
Proof.
  intros Hs. unfold Query.entry, JS.truthy.
  destruct (String.eqb_spec s ""); [contradiction | reflexivity].
Qed.

(** What the appended parameters hold. *)
Lemma query_params_members (a : args) (l : list (string * string)) :
  query_params a = Some l ->
  (exists size,
      JS.call_toString (JS.default (VNum 100) (pageSize a)) = Some size /\
      In ("pageSize", size) l) /\
  (forall s, pageToken a = VStr s -> s <> "" -> In ("pageToken", s) l) /\
  (forall s, fields a = VStr s -> s <> "" -> In ("fields", s) l) /\
  In ("alt", "json") l /\
  (forall s, key a = VStr s -> s <> "" -> In ("key", s) l) /\
  (prettyPrint a = VUndefined \/ prettyPrint a = VBool true ->
   In ("prettyPrint", "true") l).
Proof.
  unfold query_params.
  destruct (JS.call_toString (JS.default (VNum 100) (pageSize a))) as [size|];
    [|discriminate].
  cbn. destruct (Query.entry "pageToken" (pageToken a)) as [t|] eqn:Ht;
    [|discriminate].
  cbn. destruct (Query.entry "fields" (fields a)) as [f|] eqn:Hf;
    [|discriminate].
  cbn. destruct (Query.entry "key" (key a)) as [k|] eqn:Hk;
    [|discriminate].
  cbn.
  destruct (if JS.truthy (JS.default (VBool true) (prettyPrint a))
            then _ else _) as [p|] eqn:Hp; [|discriminate].
  cbn. intros [= <-].
  split; [exists size; split; [reflexivity | left; reflexivity]|].
  split.
  { intros s Hs Hne. rewrite Hs, (entry_string _ _ Hne) in Ht.
    injection Ht as <-. right. apply in_or_app. left. left. reflexivity. }
  split.
  { intros s Hs Hne. rewrite Hs, (entry_string _ _ Hne) in Hf.
    injection Hf as <-. right. apply in_or_app. right.
    apply in_or_app. left. left. reflexivity. }
  split.
  { right. apply in_or_app. right. apply in_or_app. right. left. reflexivity. }
  split.
  { intros s Hs Hne. rewrite Hs, (entry_string _ _ Hne) in Hk.
    injection Hk as <-. right. apply in_or_app. right.
    apply in_or_app. right. right. apply in_or_app. left. left. reflexivity. }
  intros Hpp.
  assert (Hp' : p = [("prettyPrint", "true")]).
  { destruct Hpp as [Hpp | Hpp]; rewrite Hpp in Hp; cbn in Hp;
      injection Hp as <-; reflexivity. }
  subst p. right. apply in_or_app. right. apply in_or_app. right. right.
  apply in_or_app. right. left. reflexivity.
Qed.

End VersionsListQuery.

(** * The path of an issued request *)

Module Paths.

(** On a script id of bytes the path state copies, the path of
    script-run's request is the template's. *)
Lemma script_run_request_path
    (env : Env) (a : ScriptRun.args) (req : Request) (id : string) :
  In req (requests (ScriptRun.executeFunction a) env) ->
  JS.ToString (ScriptRun.scriptId a) = Some id ->
  URL.all_bytes URL.kept id = true ->
  URL.pathname (url req) = "/v1/scripts/" +:+ id +:+ ":run".
Proof.
  intros Hin Hid Hkept.
  apply ScriptRunOutcome.script_run_requests_inv in Hin
    as (u & h & name & Hu & _ & _ & ->).
  apply ScriptRunURL.script_run_url_of_shape in Hu
    as (id' & u0 & params & Hid' & Hu0 & _ & ->).
  rewrite Hid in Hid'. injection Hid' as <-.
  rewrite (ScriptRunURL.script_run_template_path id Hkept) in Hu0.
  injection Hu0 as <-. reflexivity.
Qed.

(** The same for versions-list, on a script id that is not a dot
    segment. *)
Lemma versions_list_request_path
    (env : Env) (a : VersionsList.args) (req : Request) (id : string) :
  In req (requests (VersionsList.executeFunction a) env) ->
  JS.ToString (VersionsList.scriptId a) = Some id ->
  URL.all_bytes URL.kept id = true -> id <> "." -> id <> ".." ->
  URL.pathname (url req) = "/v1/projects/" +:+ id +:+ "/versions".
Proof.
  intros Hin Hid Hkept H1 H2.
  apply VersionsListOutcome.versions_list_requests_inv in Hin
    as (u & token & Hu & _ & ->).
  apply VersionsListURL.versions_list_url_of_shape in Hu
    as (id' & u0 & l' & Hid' & Hu0 & _ & ->).
  rewrite Hid in Hid'. injection Hid' as <-.
  rewrite (VersionsListURL.versions_list_template_path id Hkept H1 H2) in Hu0.
  injection Hu0 as <-. reflexivity.
Qed.

End Paths.

(** * Success and error messages *)

Module Messages.

(** A 2xx response whose body decodes to a value other than [null] is
    returned as decoded, by script-run ... *)
Lemma script_run_passes_body_through
    (env : Env) (a : ScriptRun.args) (req : Request) (r : Response)
    (t : string) (data : value) :
  In req (requests (ScriptRun.executeFunction a) env) ->
  fetch env req = inr r -> ok r = true -> text r = inr t ->
  JSON_parse env t = inr data -> JS.nullish data = false ->
  outcome (ScriptRun.executeFunction a) env = inr data.
Proof.
  intros Hin Hfetch Hok Htext Hparse Hdata.
  apply ScriptRunOutcome.script_run_requests_inv in Hin as (u & h & name & Hu & Hh & Hname & ->).
  rewrite (ScriptRunOutcome.script_run_outcome_eq env a u Hu).
  unfold ScriptRunFacts.attempt, ScriptRunFacts.settle.
  rewrite Hh, Hname. cbn. rewrite Hfetch, Htext, Hparse, Hok, Hdata. reflexivity.
Qed.

(** ... and by versions-list. *)
Lemma versions_list_passes_body_through
    (env : Env) (a : VersionsList.args) (req : Request) (r : Response)
    (t : string) (data : value) :
  In req (requests (VersionsList.executeFunction a) env) ->
  fetch env req = inr r -> ok r = true -> text r = inr t ->
  JSON_parse env t = inr data -> JS.nullish data = false ->
  outcome (VersionsList.executeFunction a) env = inr data.
Proof.
  intros Hin Hfetch Hok Htext Hparse Hdata.
  apply VersionsListOutcome.versions_list_requests_inv in Hin as (u & token & Hu & Htoken & ->).
  destruct (VersionsListOutcome.versions_list_outcome_verdict env a) as (v & -> & Hv).
  unfold VersionsListFacts.verdict, VersionsListFacts.settle in Hv.
  rewrite Htoken, Hu, Hfetch, Hok, Htext, Hparse, Hdata in Hv.
  rewrite Hv. reflexivity.
Qed.

(** A transport fault of script-run comes back with its own message. *)
Lemma script_run_transport_fault
    (env : Env) (a : ScriptRun.args) (req : Request) (e : Error) :
  In req (requests (ScriptRun.executeFunction a) env) ->
  fetch env req = inl e ->
  exists details,
    outcome (ScriptRun.executeFunction a) env = inr (error_envelope e details).
Proof.
  intros Hin Hfetch.
  apply ScriptRunOutcome.script_run_requests_inv in Hin as (u & h & name & Hu & Hh & Hname & ->).
  rewrite (ScriptRunOutcome.script_run_outcome_eq env a u Hu).
  unfold ScriptRunFacts.attempt. rewrite Hh, Hname. cbn. rewrite Hfetch.
  eexists. reflexivity.
Qed.

(** An error body that is JSON comes back serialized in the message of
    script-run's envelope. *)
Lemma script_run_error_body_json
    (env : Env) (a : ScriptRun.args) (req : Request) (r : Response)
    (t : string) (errorData : value) :
  In req (requests (ScriptRun.executeFunction a) env) ->
  fetch env req = inr r -> ok r = false -> text r = inr t ->
  JSON_parse env t = inr errorData ->
  exists details rawError,
    outcome (ScriptRun.executeFunction a) env
    = inr (VObj [("error", VBool true);
                 ("message",
                  VStr (match JS.JSON_stringify errorData with
                        | Some s => s
                        | None => ""
                        end));
                 ("details", details);
                 ("rawError", rawError)]).
Proof.
  intros Hin Hfetch Hok Htext Hparse.
  apply ScriptRunOutcome.script_run_requests_inv in Hin as (u & h & name & Hu & Hh & Hname & ->).
  rewrite (ScriptRunOutcome.script_run_outcome_eq env a u Hu).
  unfold ScriptRunFacts.attempt, ScriptRunFacts.settle.
  rewrite Hh, Hname. cbn. rewrite Hfetch, Htext, Hparse, Hok.
  do 2 eexists. reflexivity.
Qed.

(** An error body that is a JSON object comes back in the message of
    versions-list's envelope as the status and the remote reason. *)
Lemma versions_list_error_body_json
    (env : Env) (a : VersionsList.args) (req : Request) (r : Response)
    (t : string) (members : list (string * value)) (reason : string) :
  In req (requests (VersionsList.executeFunction a) env) ->
  fetch env req = inr r -> ok r = false -> text r = inr t ->
  JSON_parse env t = inr (VObj members) ->
  JS.ToString (VersionsListFacts.reason (VObj members)) = Some reason ->
  exists details rawError,
    outcome (VersionsList.executeFunction a) env
    = inr (VObj [("error", VBool true);
                 ("message",
                  VStr ("API Error (" +:+ JS.Number_toString (status r) +:+ "): "
                        +:+ reason));
                 ("details", details);
                 ("rawError", rawError)]).
Proof.
  intros Hin Hfetch Hok Htext Hparse Hreason.
  apply VersionsListOutcome.versions_list_requests_inv in Hin as (u & token & Hu & Htoken & ->).
  destruct (VersionsListOutcome.versions_list_outcome_verdict env a) as (v & -> & Hv).
  unfold VersionsListFacts.verdict in Hv.
  rewrite Htoken, Hu, Hfetch in Hv.
  unfold VersionsListFacts.settle, VersionsListFacts.failure in Hv.
  rewrite Hok, Htext, Hparse in Hv. cbn [JS.nullish] in Hv.
  rewrite Hreason in Hv.
  destruct Hv as (duration & timestamp & ->).
  do 2 eexists. reflexivity.
Qed.

End Messages.


(** * The claims *)

Module Claims.

(** ** C3: the request for scriptId X, function f, parameters 1, 2 *)

Definition X_f_1_2 : ScriptRun.args :=
  Sample.run_args (VStr "X") (VStr "f") (VArr [VNum 1; VNum 2]) VUndefined.

Definition body_f_1_2 : string :=
  "{" +:+ Sample.quoted "function" +:+ ":" +:+ Sample.quoted "f" +:+ ","
  +:+ Sample.quoted "parameters" +:+ ":[1,2],"
  +:+ Sample.quoted "devMode" +:+ ":true}".

(** C3.  Called with scriptId X, functionName f, parameters [1,2] and
    nothing else, and given credentials, script-run issues exactly one
    request: a POST to the path /v1/scripts/X:run (the full URL carries
    the defaulted alt and prettyPrint) whose body is the JSON text of
    function f, parameters [1,2], devMode true. *)
Theorem script_run_request_X_f (env : Env) (h : gmap string string) :
  getAuthHeaders env = inr h ->
  exists req,
    requests (ScriptRun.executeFunction X_f_1_2) env = [req] /\
    method req = "POST" /\
    URL.pathname (url req) = "/v1/scripts/X:run" /\
    URL.href (url req)
    = "https://script.googleapis.com/v1/scripts/X:run?alt=json&prettyPrint=true" /\
    body req = Some body_f_1_2 /\
    JS.JSON_stringify
      (VObj [("function", VStr "f");
             ("parameters", VArr [VNum 1; VNum 2]);
             ("devMode", VBool true)]) = Some body_f_1_2.
Proof.
  intros Hauth. rewrite ScriptRunOutcome.script_run_requests_eq, Hauth.
  let u := eval vm_compute in (ScriptRunFacts.url_of X_f_1_2) in
  change (ScriptRunFacts.url_of X_f_1_2) with u.
  eexists. split; [reflexivity|].
  repeat split; vm_compute; reflexivity.
Qed.

Lemma script_run_request_X_f_witness :
  getAuthHeaders (Sample.env (Sample.replies 200 "OK" "{}")) = inr Sample.headers /\
  exists req,
    requests (ScriptRun.executeFunction X_f_1_2)
      (Sample.env (Sample.replies 200 "OK" "{}")) = [req] /\
    method req = "POST" /\
    URL.pathname (url req) = "/v1/scripts/X:run" /\
    URL.href (url req)
    = "https://script.googleapis.com/v1/scripts/X:run?alt=json&prettyPrint=true" /\
    body req = Some body_f_1_2 /\
    JS.JSON_stringify
      (VObj [("function", VStr "f");
             ("parameters", VArr [VNum 1; VNum 2]);
             ("devMode", VBool true)]) = Some body_f_1_2.
Proof.
  split; [reflexivity|].
  apply (script_run_request_X_f _ Sample.headers). reflexivity.
Defined.

(** ** C9: the authentication arguments of script-run are ignored *)

(** Two argument objects that differ at most in [key], [access_token]
    and [oauth_token]. *)
Definition same_but_auth (a1 a2 : ScriptRun.args) : Prop :=
  ScriptRun.scriptId a1 = ScriptRun.scriptId a2 /\
  ScriptRun.functionName a1 = ScriptRun.functionName a2 /\
  ScriptRun.parameters a1 = ScriptRun.parameters a2 /\
  ScriptRun.devMode a1 = ScriptRun.devMode a2 /\
  ScriptRun.fields a1 = ScriptRun.fields a2 /\
  ScriptRun.alt a1 = ScriptRun.alt a2 /\
  ScriptRun.quotaUser a1 = ScriptRun.quotaUser a2 /\
  ScriptRun.prettyPrint a1 = ScriptRun.prettyPrint a2.

(** C9.  Two invocations of script-run that differ only in key,
    access_token and oauth_token have the same run in every environment:
    the same outcome (result or thrown error) and the same issued
    requests, with their URL, method, headers and body. *)
Theorem script_run_ignores_auth_arguments (env : Env) (a1 a2 : ScriptRun.args) :
  same_but_auth a1 a2 ->
  run (ScriptRun.executeFunction a1) env = run (ScriptRun.executeFunction a2) env.
Proof.
  destruct a1, a2. unfold same_but_auth. cbn.
  intros (-> & -> & -> & -> & -> & -> & -> & ->). reflexivity.
Qed.

Definition with_tokens (key access_token oauth_token : value) : ScriptRun.args :=
  ScriptRun.mkArgs (VStr "X") (VStr "f") VUndefined VUndefined VUndefined
    VUndefined key access_token oauth_token VUndefined VUndefined.

Lemma script_run_ignores_auth_arguments_witness :
  same_but_auth (with_tokens VUndefined VUndefined VUndefined)
    (with_tokens (VStr "k") (VStr "a") (VStr "o")) /\
  run (ScriptRun.executeFunction (with_tokens VUndefined VUndefined VUndefined))
    (Sample.env (Sample.replies 200 "OK" "{}"))
  = run (ScriptRun.executeFunction (with_tokens (VStr "k") (VStr "a") (VStr "o")))
      (Sample.env (Sample.replies 200 "OK" "{}")).
Proof.
  assert (H : same_but_auth (with_tokens VUndefined VUndefined VUndefined)
                (with_tokens (VStr "k") (VStr "a") (VStr "o")))
    by (repeat split; reflexivity).
  split; [exact H|].
  apply (script_run_ignores_auth_arguments _ _ _ H).
Defined.

(** ** C7: the query string of script-run *)

(** C7.  The query string of every request script-run issues decodes to
    parameters named, in this order, fields (when the argument is
    truthy), alt (when the argument, json by default, is truthy),
    prettyPrint (always: supplied or defaulted) and quotaUser (when the
    argument is truthy); so every name is one of these four, and key,
    access_token and oauth_token are not among them. *)
Theorem script_run_query_names (env : Env) (a : ScriptRun.args) (req : Request) :
  In req (requests (ScriptRun.executeFunction a) env) ->
  exists q,
    URL.query (url req) = Some q /\
    map fst (URL.urlencoded_parse q)
    = (if JS.truthy (ScriptRun.fields a) then ["fields"] else [])
      ++ (if JS.truthy (JS.default (VStr "json") (ScriptRun.alt a)) then ["alt"] else [])
      ++ ["prettyPrint"]
      ++ (if JS.truthy (ScriptRun.quotaUser a) then ["quotaUser"] else []) /\
    incl (map fst (URL.urlencoded_parse q)) ["fields"; "alt"; "prettyPrint"; "quotaUser"] /\
    ~ In "key" (map fst (URL.urlencoded_parse q)) /\
    ~ In "access_token" (map fst (URL.urlencoded_parse q)) /\
    ~ In "oauth_token" (map fst (URL.urlencoded_parse q)).
Proof.
  intros Hin.
  destruct (ScriptRunOutcome.script_run_request_query env a req Hin)
    as (params & Hparams & Hq & _ & Hround).
  exists (URL.urlencoded_serialize params). split; [assumption|].
  rewrite Hround, (ScriptRunURL.query_params_names a params Hparams).
  unfold ScriptRunURL.names.
  destruct (JS.truthy (ScriptRun.fields a)),
           (JS.truthy (JS.default (VStr "json") (ScriptRun.alt a))),
           (JS.truthy (ScriptRun.quotaUser a)); cbn;
    (split; [reflexivity|]);
    (split; [intros x Hx; cbn in Hx; cbn; intuition|]);
    repeat split; intros Hx; cbn in Hx; intuition discriminate.
Qed.

Definition with_key : ScriptRun.args :=
  ScriptRun.mkArgs (VStr "X") (VStr "f") VUndefined VUndefined (VStr "done")
    VUndefined (VStr "secret") VUndefined VUndefined (VStr "u&key=1") VUndefined.

Definition request_with_key : Request :=
  ScriptRunFacts.request with_key
    (URL.mk ["v1"; "scripts"; "X:run"]
       (Some "fields=done&alt=json&prettyPrint=true&quotaUser=u%26key%3D1") None
       [("fields", "done"); ("alt", "json"); ("prettyPrint", "true");
        ("quotaUser", "u&key=1")])
    Sample.headers.

Lemma script_run_query_names_witness :
  In request_with_key
    (requests (ScriptRun.executeFunction with_key)
       (Sample.env (Sample.replies 200 "OK" "{}"))) /\
  exists q,
    URL.query (url request_with_key) = Some q /\
    map fst (URL.urlencoded_parse q)
    = (if JS.truthy (ScriptRun.fields with_key) then ["fields"] else [])
      ++ (if JS.truthy (JS.default (VStr "json") (ScriptRun.alt with_key))
          then ["alt"] else [])
      ++ ["prettyPrint"]
      ++ (if JS.truthy (ScriptRun.quotaUser with_key) then ["quotaUser"] else []) /\
    incl (map fst (URL.urlencoded_parse q)) ["fields"; "alt"; "prettyPrint"; "quotaUser"] /\
    ~ In "key" (map fst (URL.urlencoded_parse q)) /\
    ~ In "access_token" (map fst (URL.urlencoded_parse q)) /\
    ~ In "oauth_token" (map fst (URL.urlencoded_parse q)).
Proof.
  assert (Hin : In request_with_key
                  (requests (ScriptRun.executeFunction with_key)
                     (Sample.env (Sample.replies 200 "OK" "{}")))).
  { rewrite ScriptRunOutcome.script_run_requests_eq.
    left. vm_compute. reflexivity. }
  split; [exact Hin|].
  apply (script_run_query_names _ _ _ Hin).
Defined.

(** ** C6: defaults of omitted arguments *)

(** C6.  In every request script-run issues, an omitted devMode is sent
    as devMode true in the body and an omitted prettyPrint as
    prettyPrint=true in the query string; in every request versions-list
    issues, an omitted pageSize is sent as pageSize=100 and an omitted
    prettyPrint as prettyPrint=true in the query string. *)
Theorem defaults_when_omitted (env : Env) :
  (forall a req,
      In req (requests (ScriptRun.executeFunction a) env) ->
      (ScriptRun.devMode a = VUndefined ->
       body req
       = JS.JSON_stringify
           (VObj [("function", ScriptRun.functionName a);
                  ("parameters", JS.default (VArr []) (ScriptRun.parameters a));
                  ("devMode", VBool true)])) /\
      (ScriptRun.prettyPrint a = VUndefined ->
       exists q, URL.query (url req) = Some q /\
                 In ("prettyPrint", "true") (URL.urlencoded_parse q))) /\
  (forall a req,
      In req (requests (VersionsList.executeFunction a) env) ->
      exists q,
        URL.query (url req) = Some q /\
        (VersionsList.pageSize a = VUndefined ->
         In ("pageSize", "100") (URL.urlencoded_parse q)) /\
        (VersionsList.prettyPrint a = VUndefined ->
         In ("prettyPrint", "true") (URL.urlencoded_parse q))).
Proof.
  split.
  - intros a req Hin. split.
    + intros Hdev.
      apply ScriptRunOutcome.script_run_requests_inv in Hin as (u & h & name & _ & _ & _ & ->).
      cbn. unfold ScriptRunFacts.requestBody. rewrite Hdev. reflexivity.
    + intros Hpp.
      destruct (ScriptRunOutcome.script_run_request_query env a req Hin)
        as (params & Hparams & Hq & _ & Hround).
      exists (URL.urlencoded_serialize params). split; [assumption|].
      rewrite Hround. revert Hparams. unfold ScriptRunFacts.query_params.
      rewrite Hpp.
      destruct (Query.entry "fields" _) as [f|]; [|discriminate].
      cbn. destruct (Query.entry "alt" _) as [al|]; [|discriminate].
      cbn. destruct (Query.entry "quotaUser" _) as [qu|]; [|discriminate].
      cbn. intros [= <-].
      apply in_or_app. right. apply in_or_app. right. left. reflexivity.
  - intros a req Hin.
    destruct (VersionsListOutcome.versions_list_request_query env a req Hin)
      as (q & carried & l & Hq & Hl & Hparse).
    exists q. split; [assumption|].
    destruct (VersionsListQuery.query_params_members a l Hl)
      as ((size & Hsize & Hin_size) & _ & _ & _ & _ & Hpp).
    rewrite Hparse. split.
    + intros Hps. rewrite Hps in Hsize. injection Hsize as <-.
      apply in_or_app. right. exact Hin_size.
    + intros Hp. apply in_or_app. right. apply Hpp. left. exact Hp.
Qed.

Definition request_X_f : Request :=
  ScriptRunFacts.request X_f_1_2
    (URL.mk ["v1"; "scripts"; "X:run"] (Some "alt=json&prettyPrint=true") None
       [("alt", "json"); ("prettyPrint", "true")])
    Sample.headers.

Definition request_list_X : Request :=
  VersionsListFacts.request
    (URL.mk ["v1"; "projects"; "X"; "versions"]
       (Some "pageSize=100&alt=json&prettyPrint=true") None
       [("pageSize", "100"); ("alt", "json"); ("prettyPrint", "true")])
    "token".

Lemma defaults_when_omitted_witness :
  (In request_X_f
     (requests (ScriptRun.executeFunction X_f_1_2)
        (Sample.env (Sample.replies 200 "OK" "{}"))) /\
   ScriptRun.devMode X_f_1_2 = VUndefined /\
   ScriptRun.prettyPrint X_f_1_2 = VUndefined /\
   body request_X_f = Some body_f_1_2 /\
   exists q, URL.query (url request_X_f) = Some q /\
             In ("prettyPrint", "true") (URL.urlencoded_parse q)) /\
  (In request_list_X
     (requests (VersionsList.executeFunction (Sample.list_args (VStr "X")))
        (Sample.env (Sample.replies 200 "OK" "{}"))) /\
   exists q,
     URL.query (url request_list_X) = Some q /\
     In ("pageSize", "100") (URL.urlencoded_parse q) /\
     In ("prettyPrint", "true") (URL.urlencoded_parse q)).
Proof.
  destruct (defaults_when_omitted (Sample.env (Sample.replies 200 "OK" "{}")))
    as [Hrun Hlist].
  assert (Hin : In request_X_f
                  (requests (ScriptRun.executeFunction X_f_1_2)
                     (Sample.env (Sample.replies 200 "OK" "{}")))).
  { rewrite ScriptRunOutcome.script_run_requests_eq. left. vm_compute. reflexivity. }
  assert (Hin' : In request_list_X
                   (requests (VersionsList.executeFunction (Sample.list_args (VStr "X")))
                      (Sample.env (Sample.replies 200 "OK" "{}")))).
  { rewrite VersionsListOutcome.versions_list_requests_eq. left. vm_compute. reflexivity. }
  split.
  - destruct (Hrun _ _ Hin) as [Hbody Hquery].
    split; [exact Hin|]. split; [reflexivity|]. split; [reflexivity|].
    split; [rewrite (Hbody eq_refl); vm_compute; reflexivity|].
    apply Hquery. reflexivity.
  - split; [exact Hin'|].
    destruct (Hlist _ _ Hin') as (q & Hq & Hsize & Hpp).
    exists q. split; [exact Hq|]. split; [apply Hsize | apply Hpp]; reflexivity.
Defined.

(** ** C8: the request of versions-list *)

(** C8, as the code has it.  Every request versions-list issues is a
    GET.  Its path is /v1/projects/{scriptId}/versions when the script
    id, as text, is made of bytes URL parsing leaves in place (no
    delimiter [/ \ ? #], no percent sign, nothing percent-encoded) and is
    not a dot segment.  Its query string holds pageSize always, pageToken
    and fields when given as non-empty strings, alt=json always, and
    prettyPrint=true when prettyPrint is omitted or true. *)
Theorem versions_list_request (env : Env) (a : VersionsList.args) (req : Request) :
  In req (requests (VersionsList.executeFunction a) env) ->
  method req = "GET" /\
  (forall id,
      JS.ToString (VersionsList.scriptId a) = Some id ->
      URL.all_bytes URL.kept id = true -> id <> "." -> id <> ".." ->
      URL.pathname (url req) = "/v1/projects/" +:+ id +:+ "/versions") /\
  exists q,
    URL.query (url req) = Some q /\
    (exists size,
        JS.call_toString (JS.default (VNum 100) (VersionsList.pageSize a)) = Some size /\
        In ("pageSize", size) (URL.urlencoded_parse q)) /\
    (forall s, VersionsList.pageToken a = VStr s -> s <> "" ->
               In ("pageToken", s) (URL.urlencoded_parse q)) /\
    (forall s, VersionsList.fields a = VStr s -> s <> "" ->
               In ("fields", s) (URL.urlencoded_parse q)) /\
    In ("alt", "json") (URL.urlencoded_parse q) /\
    (VersionsList.prettyPrint a = VUndefined \/ VersionsList.prettyPrint a = VBool true ->
     In ("prettyPrint", "true") (URL.urlencoded_parse q)).
Proof.
  intros Hin.
  destruct (VersionsListOutcome.versions_list_request_query env a req Hin)
    as (q & carried & l & Hq & Hl & Hparse).
  split.
  { apply VersionsListOutcome.versions_list_requests_inv in Hin
      as (u & token & _ & _ & ->).
    reflexivity. }
  split.
  - intros id. apply (Paths.versions_list_request_path env a req id Hin).
  - exists q. split; [assumption|]. rewrite Hparse.
    destruct (VersionsListQuery.query_params_members a l Hl)
      as ((size & Hsize & Hin_size) & Htoken & Hfields & Halt & _ & Hpp).
    split; [exists size; split; [assumption | apply in_or_app; right; assumption]|].
    split; [intros s Hs Hne; apply in_or_app; right; apply (Htoken s Hs Hne)|].
    split; [intros s Hs Hne; apply in_or_app; right; apply (Hfields s Hs Hne)|].
    split; [apply in_or_app; right; assumption|].
    intros H. apply in_or_app. right. apply Hpp. assumption.
Qed.

Lemma versions_list_request_witness :
  In request_list_X
    (requests (VersionsList.executeFunction (Sample.list_args (VStr "X")))
       (Sample.env (Sample.replies 200 "OK" "{}"))) /\
  method request_list_X = "GET" /\
  URL.pathname (url request_list_X) = "/v1/projects/X/versions" /\
  exists q,
    URL.query (url request_list_X) = Some q /\
    In ("pageSize", "100") (URL.urlencoded_parse q) /\
    In ("alt", "json") (URL.urlencoded_parse q) /\
    In ("prettyPrint", "true") (URL.urlencoded_parse q).
Proof.
  assert (Hin : In request_list_X
                  (requests (VersionsList.executeFunction (Sample.list_args (VStr "X")))
                     (Sample.env (Sample.replies 200 "OK" "{}")))).
  { rewrite VersionsListOutcome.versions_list_requests_eq. left. vm_compute. reflexivity. }
  destruct (versions_list_request _ _ _ Hin)
    as (Hget & Hpath & q & Hq & (size & Hsize & Hin_size) & _ & _ & Halt & Hpp).
  split; [exact Hin|]. split; [exact Hget|].
  split.
  { apply (Hpath "X"); [reflexivity | reflexivity | discriminate | discriminate]. }
  exists q. split; [exact Hq|].
  injection Hsize as <-.
  split; [exact Hin_size|]. split; [exact Halt|].
  apply Hpp. left. reflexivity.
Defined.

(** C8 as stated fails on a script id that holds a URL delimiter: with
    scriptId [a?b] the request goes to the path /v1/projects/a and the
    rest of the template lands in the query string.  And with
    prettyPrint false the query string carries no prettyPrint. *)
Lemma versions_list_path_cut_at_question_mark :
  (exists req,
      requests (VersionsList.executeFunction (Sample.list_args (VStr "a?b")))
        (Sample.env (Sample.replies 200 "OK" "{}")) = [req] /\
      JS.ToString (VersionsList.scriptId (Sample.list_args (VStr "a?b"))) = Some "a?b" /\
      URL.pathname (url req) = "/v1/projects/a" /\
      URL.pathname (url req) <> "/v1/projects/" +:+ "a?b" +:+ "/versions" /\
      URL.href (url req)
      = "https://script.googleapis.com/v1/projects/a?b%2Fversions=&pageSize=100&alt=json&prettyPrint=true") /\
  (exists req,
      requests
        (VersionsList.executeFunction
           (VersionsList.mkArgs (VStr "X") VUndefined VUndefined VUndefined
              VUndefined VUndefined VUndefined (VBool false)))
        (Sample.env (Sample.replies 200 "OK" "{}")) = [req] /\
      URL.query (url req) = Some "pageSize=100&alt=json" /\
      URL.urlencoded_parse "pageSize=100&alt=json"
      = [("pageSize", "100"); ("alt", "json")]).
Proof.
  split.
  - rewrite VersionsListOutcome.versions_list_requests_eq.
    eexists. split; [vm_compute; reflexivity|].
    split; [reflexivity|]. split; [reflexivity|].
    split; [discriminate | reflexivity].
  - rewrite VersionsListOutcome.versions_list_requests_eq.
    eexists. split; [vm_compute; reflexivity|].
    split; reflexivity.
Qed.

(** ** C2: a missing required field *)

(** C2 as stated fails: called without scriptId (and given credentials)
    script-run issues its request all the same, to the path
    /v1/scripts/undefined:run, which names no script. *)
Lemma script_run_without_scriptId_issues_request :
  ScriptRun.scriptId (Sample.run_args VUndefined (VStr "f") VUndefined VUndefined)
  = VUndefined /\
  exists req,
    requests
      (ScriptRun.executeFunction
         (Sample.run_args VUndefined (VStr "f") VUndefined VUndefined))
      (Sample.env (Sample.replies 200 "OK" "{}")) = [req] /\
    URL.pathname (url req) = "/v1/scripts/undefined:run".
Proof.
  split; [reflexivity|].
  rewrite ScriptRunOutcome.script_run_requests_eq.
  eexists. split; [vm_compute; reflexivity | reflexivity].
Qed.

(** C2, as the code has it.  Nothing validates the required fields.
    Given credentials and arguments of the declared types, each tool
    issues its one request whether or not a required field is present.
    Without scriptId, the path of every issued request carries the text
    undefined in the id's place; without functionName, the path of
    script-run's request is the regular /v1/scripts/{scriptId}:run (for
    a script id of bytes URL parsing leaves in place). *)
Theorem missing_required_field (env : Env) :
  (forall a req,
      In req (requests (ScriptRun.executeFunction a) env) ->
      (ScriptRun.scriptId a = VUndefined ->
       URL.pathname (url req) = "/v1/scripts/undefined:run") /\
      (ScriptRun.functionName a = VUndefined ->
       forall id, ScriptRun.scriptId a = VStr id ->
                  URL.all_bytes URL.kept id = true ->
                  URL.pathname (url req) = "/v1/scripts/" +:+ id +:+ ":run")) /\
  (forall a h,
      Declared.script_run a = true -> getAuthHeaders env = inr h ->
      exists req, requests (ScriptRun.executeFunction a) env = [req]) /\
  (forall a req,
      In req (requests (VersionsList.executeFunction a) env) ->
      VersionsList.scriptId a = VUndefined ->
      URL.pathname (url req) = "/v1/projects/undefined/versions") /\
  (forall a token,
      Declared.versions_list a = true -> getOAuthAccessToken env = inr token ->
      exists req, requests (VersionsList.executeFunction a) env = [req]).
Proof.
  pose proof (Paths.script_run_request_path env) as Hrun.
  split; [|split; [|split]].
  - intros a req Hin. split.
    + intros Hid. apply (Hrun a req "undefined" Hin); [rewrite Hid|]; reflexivity.
    + intros _ id Hid Hkept. apply (Hrun a req id Hin); [rewrite Hid; reflexivity|].
      exact Hkept.
  - intros a h Ha Hh. rewrite ScriptRunOutcome.script_run_requests_eq, Hh.
    destruct (ScriptRunTyped.script_run_url_of_declared a Ha) as [u ->].
    destruct (ScriptRunTyped.functionName_declared a Ha) as [name ->].
    eexists; reflexivity.
  - intros a req Hin Hid.
    apply (Paths.versions_list_request_path env a req "undefined" Hin);
      [rewrite Hid; reflexivity | reflexivity | |]; discriminate.
  - intros a token Ha Ht. rewrite VersionsListOutcome.versions_list_requests_eq.
    unfold VersionsListFacts.sent. rewrite Ht.
    destruct (VersionsListOutcome.versions_list_url_of_declared a Ha) as [u ->].
    eexists; reflexivity.
Qed.

Definition request_without_scriptId : Request :=
  ScriptRunFacts.request (Sample.run_args VUndefined (VStr "f") VUndefined VUndefined)
    (URL.mk ["v1"; "scripts"; "undefined:run"] (Some "alt=json&prettyPrint=true") None
       [("alt", "json"); ("prettyPrint", "true")])
    Sample.headers.

Definition request_without_functionName : Request :=
  ScriptRunFacts.request (Sample.run_args (VStr "X") VUndefined VUndefined VUndefined)
    (URL.mk ["v1"; "scripts"; "X:run"] (Some "alt=json&prettyPrint=true") None
       [("alt", "json"); ("prettyPrint", "true")])
    Sample.headers.

Definition request_list_without_scriptId : Request :=
  VersionsListFacts.request
    (URL.mk ["v1"; "projects"; "undefined"; "versions"]
       (Some "pageSize=100&alt=json&prettyPrint=true") None
       [("pageSize", "100"); ("alt", "json"); ("prettyPrint", "true")])
    "token".

Lemma missing_required_field_witness :
  (In request_without_scriptId
     (requests
        (ScriptRun.executeFunction
           (Sample.run_args VUndefined (VStr "f") VUndefined VUndefined))
        (Sample.env (Sample.replies 200 "OK" "{}"))) /\
   URL.pathname (url request_without_scriptId) = "/v1/scripts/undefined:run") /\
  (In request_without_functionName
     (requests
        (ScriptRun.executeFunction
           (Sample.run_args (VStr "X") VUndefined VUndefined VUndefined))
        (Sample.env (Sample.replies 200 "OK" "{}"))) /\
   URL.pathname (url request_without_functionName) = "/v1/scripts/" +:+ "X" +:+ ":run") /\
  (Declared.script_run (Sample.run_args VUndefined VUndefined VUndefined VUndefined) = true /\
   exists req,
     requests
       (ScriptRun.executeFunction
          (Sample.run_args VUndefined VUndefined VUndefined VUndefined))
       (Sample.env (Sample.replies 200 "OK" "{}")) = [req]) /\
  (In request_list_without_scriptId
     (requests (VersionsList.executeFunction (Sample.list_args VUndefined))
        (Sample.env (Sample.replies 200 "OK" "{}"))) /\
   URL.pathname (url request_list_without_scriptId) = "/v1/projects/undefined/versions") /\
  (Declared.versions_list (Sample.list_args VUndefined) = true /\
   exists req,
     requests (VersionsList.executeFunction (Sample.list_args VUndefined))
       (Sample.env (Sample.replies 200 "OK" "{}")) = [req]).
Proof.
  destruct (missing_required_field (Sample.env (Sample.replies 200 "OK" "{}")))
    as (Hrun & Hrun_issued & Hlist & Hlist_issued).
  assert (H1 : In request_without_scriptId
                 (requests
                    (ScriptRun.executeFunction
                       (Sample.run_args VUndefined (VStr "f") VUndefined VUndefined))
                    (Sample.env (Sample.replies 200 "OK" "{}")))).
  { rewrite ScriptRunOutcome.script_run_requests_eq. left. vm_compute. reflexivity. }
  assert (H2 : In request_without_functionName
                 (requests
                    (ScriptRun.executeFunction
                       (Sample.run_args (VStr "X") VUndefined VUndefined VUndefined))
                    (Sample.env (Sample.replies 200 "OK" "{}")))).
  { rewrite ScriptRunOutcome.script_run_requests_eq. left. vm_compute. reflexivity. }
  assert (H3 : In request_list_without_scriptId
                 (requests (VersionsList.executeFunction (Sample.list_args VUndefined))
                    (Sample.env (Sample.replies 200 "OK" "{}")))).
  { rewrite VersionsListOutcome.versions_list_requests_eq. left. vm_compute. reflexivity. }
  split; [split; [exact H1 | apply (proj1 (Hrun _ _ H1)); reflexivity]|].
  split; [split; [exact H2 | apply (proj2 (Hrun _ _ H2) eq_refl "X"); reflexivity]|].
  split; [split; [reflexivity | apply (Hrun_issued _ Sample.headers); reflexivity]|].
  split; [split; [exact H3 | apply (Hlist _ _ H3); reflexivity]|].
  split; [reflexivity | apply (Hlist_issued _ "token"); reflexivity].
Defined.

(** ** C10: versions-list and an error body that is not JSON *)

(** C10 as stated fails on an empty body: the text after the status is
    then Unknown error, not the (empty) raw body. *)
Lemma versions_list_empty_error_body :
  JSON_parse (Sample.env (Sample.replies 502 "Bad Gateway" "")) ""
  = inl Sample.SyntaxError /\
  exists v,
    outcome (VersionsList.executeFunction (Sample.list_args (VStr "X")))
      (Sample.env (Sample.replies 502 "Bad Gateway" "")) = inr v /\
    JS.get_member v "message" = VStr "API Error (502): Unknown error" /\
    JS.get_member v "message" <> VStr ("API Error (502): " +:+ "").
Proof.
  split; [reflexivity|].
  eexists. split; [vm_compute; reflexivity|].
  split; [reflexivity | discriminate].
Qed.

(** The fallback object [{message: errorText}] has no [error] member, so
    the reason is its message, or the default when that is empty. *)
Lemma reason_of_fallback (t : string) :
  JS.ToString (VersionsListFacts.reason (VObj [("message", VStr t)]))
  = Some (if String.eqb t "" then "Unknown error" else t).
Proof. destruct t; reflexivity. Qed.

(** C10, as the code has it.  When the remote answers a request of
    versions-list with a status outside 200-299 and a body that is not
    JSON, the tool returns the error envelope, and its message is
    API Error (status): text, where text is the raw body, or
    Unknown error when the body is empty. *)
Theorem versions_list_error_body_not_json
    (env : Env) (a : VersionsList.args) (req : Request) (r : Response)
    (t : string) (e : Error) :
  In req (requests (VersionsList.executeFunction a) env) ->
  fetch env req = inr r ->
  ok r = false ->
  text r = inr t ->
  JSON_parse env t = inl e ->
  exists details rawError,
    outcome (VersionsList.executeFunction a) env
    = inr (VObj [("error", VBool true);
                 ("message",
                  VStr ("API Error (" +:+ JS.Number_toString (status r) +:+ "): "
                        +:+ (if String.eqb t "" then "Unknown error" else t)));
                 ("details", details);
                 ("rawError", rawError)]).
Proof.
  intros Hin Hfetch Hok Htext Hparse.
  apply VersionsListOutcome.versions_list_requests_inv in Hin as (u & token & Hu & Htoken & ->).
  destruct (VersionsListOutcome.versions_list_outcome_verdict env a) as (v & -> & Hv).
  unfold VersionsListFacts.verdict in Hv.
  rewrite Htoken, Hu, Hfetch in Hv.
  unfold VersionsListFacts.settle, VersionsListFacts.failure in Hv.
  rewrite Hok, Htext, Hparse in Hv. cbn [JS.nullish] in Hv.
  rewrite reason_of_fallback in Hv.
  destruct Hv as (duration & timestamp & ->).
  do 2 eexists. reflexivity.
Qed.

Lemma versions_list_error_body_not_json_witness :
  In request_list_X
    (requests (VersionsList.executeFunction (Sample.list_args (VStr "X")))
       (Sample.env (Sample.replies 502 "Bad Gateway" "<html>Bad Gateway</html>"))) /\
  exists details rawError,
    outcome (VersionsList.executeFunction (Sample.list_args (VStr "X")))
      (Sample.env (Sample.replies 502 "Bad Gateway" "<html>Bad Gateway</html>"))
    = inr (VObj [("error", VBool true);
                 ("message",
                  VStr ("API Error (" +:+ JS.Number_toString 502 +:+ "): "
                        +:+ "<html>Bad Gateway</html>"));
                 ("details", details);
                 ("rawError", rawError)]).
Proof.
  assert (Hin : In request_list_X
                  (requests (VersionsList.executeFunction (Sample.list_args (VStr "X")))
                     (Sample.env
                        (Sample.replies 502 "Bad Gateway" "<html>Bad Gateway</html>")))).
  { rewrite VersionsListOutcome.versions_list_requests_eq. left. vm_compute. reflexivity. }
  split; [exact Hin|].
  apply (versions_list_error_body_not_json _ _ _
           (mkResponse 502 "Bad Gateway" None (inr "<html>Bad Gateway</html>"))
           "<html>Bad Gateway</html>" Sample.SyntaxError Hin);
    reflexivity.
Defined.

(** ** C1: failures come back as the envelope *)

(** The object [{error: true, message, details, rawError}]. *)
Definition is_envelope (v : value) : Prop :=
  exists msg details rawError,
    v = VObj [("error", VBool true);
              ("message", VStr msg);
              ("details", details);
              ("rawError", rawError)].

(** The failures of an invocation, told from the requests it issued: it
    issued none (no credentials, or no URL), the transport failed, the
    status was outside 200-299, the body could not be read, or the body
    was not JSON. *)
Inductive http_failure (env : Env) : list Request -> Prop :=
| no_request : http_failure env []
| network_fault req e :
    fetch env req = inl e -> http_failure env [req]
| bad_status req r :
    fetch env req = inr r -> ok r = false -> http_failure env [req]
| unreadable_body req r e :
    fetch env req = inr r -> text r = inl e -> http_failure env [req]
| not_json req r t e :
    fetch env req = inr r -> text r = inr t -> JSON_parse env t = inl e ->
    http_failure env [req].

(** C1 as stated fails: with prettyPrint null, script-run throws a
    TypeError before its [try] block is entered, and the error reaches
    the caller. *)
Lemma script_run_null_prettyPrint_throws :
  outcome
    (ScriptRun.executeFunction (Sample.run_args (VStr "X") (VStr "f") VUndefined VNull))
    (Sample.env (Sample.replies 200 "OK" "{}"))
  = inl (mkError "TypeError" "Cannot read properties of null (reading 'toString')"
           "TypeError: Cannot read properties of null (reading 'toString')").
Proof. vm_compute. reflexivity. Qed.

Lemma error_envelope_is_envelope (e : Error) (details : value) :
  is_envelope (error_envelope e details).
Proof. unfold is_envelope, error_envelope. do 3 eexists. reflexivity. Qed.

(** On a destructured argument whose members are omitted or of their
    declared types, script-run returns normally in every environment;
    when the invocation failed the value returned is the envelope. *)
Lemma script_run_returns_or_envelopes (env : Env) (ra : ScriptRun.args) :
  Declared.script_run ra = true ->
  exists v,
    outcome (ScriptRun.executeFunction ra) env = inr v /\
    (http_failure env (requests (ScriptRun.executeFunction ra) env) ->
     is_envelope v).
Proof.
  intros Hra.
  destruct (ScriptRunTyped.script_run_url_of_declared ra Hra) as [u Hu].
  rewrite (ScriptRunOutcome.script_run_outcome_eq env ra u Hu).
  rewrite ScriptRunOutcome.script_run_requests_eq, Hu.
  unfold ScriptRunFacts.attempt.
  destruct (getAuthHeaders env) as [e|h]; cbn.
  { eexists. split; [reflexivity|]. intros _. apply error_envelope_is_envelope. }
  destruct (ScriptRunTyped.functionName_declared ra Hra) as [name ->]. cbn.
  destruct (fetch env (ScriptRunFacts.request ra u h)) as [e|r] eqn:Hfetch.
  { eexists. split; [reflexivity|]. intros _. apply error_envelope_is_envelope. }
  unfold ScriptRunFacts.settle.
  destruct (text r) as [e|t] eqn:Htext.
  { eexists. split; [reflexivity|]. intros _. apply error_envelope_is_envelope. }
  destruct (JSON_parse env t) as [e|d] eqn:Hparse.
  { eexists. split; [reflexivity|]. intros _. apply error_envelope_is_envelope. }
  destruct (ok r) eqn:Hok.
  2:{ eexists. split; [reflexivity|]. intros _. apply error_envelope_is_envelope. }
  destruct (JS.nullish d).
  { eexists. split; [reflexivity|]. intros _. apply error_envelope_is_envelope. }
  eexists. split; [reflexivity|]. intros Hfail.
  inversion Hfail; subst; congruence.
Qed.

(** versions-list does so on any destructured argument. *)
Lemma versions_list_returns_or_envelopes (env : Env) (va : VersionsList.args) :
  exists v,
    outcome (VersionsList.executeFunction va) env = inr v /\
    (http_failure env (requests (VersionsList.executeFunction va) env) ->
     is_envelope v).
Proof.
  destruct (VersionsListOutcome.versions_list_outcome_verdict env va) as (v & Hv & Hverdict).
  exists v. split; [exact Hv|].
  rewrite VersionsListOutcome.versions_list_requests_eq.
  unfold VersionsListFacts.verdict in Hverdict. unfold VersionsListFacts.sent.
  assert (Henv : forall e, VersionsListFacts.enveloped va e v -> is_envelope v).
  { intros e (duration & timestamp & ->). apply error_envelope_is_envelope. }
  destruct (getOAuthAccessToken env) as [e|token]; [intros _; eauto|].
  destruct (VersionsListFacts.url_of va) as [u|];
    [|intros _; destruct Hverdict as (e & _ & He); eauto].
  destruct (fetch env (VersionsListFacts.request u token)) as [e|r] eqn:Hfetch;
    [intros _; eauto|].
  destruct (VersionsListFacts.settle env r) as [e|d] eqn:Hsettle;
    [intros _; eauto|].
  intros Hfail. exfalso.
  assert (Hgood : ok r = true /\ exists t, text r = inr t /\ JSON_parse env t = inr d).
  { revert Hsettle. unfold VersionsListFacts.settle.
    destruct (ok r); [|discriminate].
    destruct (text r) as [e|t]; [discriminate|].
    destruct (JSON_parse env t) as [e|d'] eqn:Hd'; [discriminate|].
    destruct (JS.nullish d'); [discriminate|].
    intros [= <-]. split; [reflexivity|]. exists t. split; [reflexivity | exact Hd']. }
  destruct Hgood as (Hok & t & Htext & Hparse).
  inversion Hfail; subst; congruence.
Qed.

(** C1, as the code has it.  The environment's collaborators reject
    with [Error] objects.  A call without an argument object
    ([undefined] or [null]) throws a [TypeError] while the parameter
    pattern is bound, before anything is sent.  A call with an argument
    object returns normally: script-run when the members are omitted or
    of their declared types, versions-list whatever the members are; and
    when the invocation failed (no request, network fault, status
    outside 200-299, unreadable body, body that is not JSON) the value
    returned is the envelope with error true, message, details and
    rawError. *)
Theorem failures_become_envelopes (env : Env) (ra va : value) :
  (JS.nullish ra = true ->
   exists e,
     outcome (ScriptRun.invoke ra) env = inl e /\ name e = "TypeError" /\
     requests (ScriptRun.invoke ra) env = []) /\
  (JS.nullish va = true ->
   exists e,
     outcome (VersionsList.invoke va) env = inl e /\ name e = "TypeError" /\
     requests (VersionsList.invoke va) env = []) /\
  (JS.nullish ra = false ->
   Declared.script_run (ScriptRun.destructure ra) = true ->
   exists v,
     outcome (ScriptRun.invoke ra) env = inr v /\
     (http_failure env (requests (ScriptRun.invoke ra) env) -> is_envelope v)) /\
  (JS.nullish va = false ->
   exists v,
     outcome (VersionsList.invoke va) env = inr v /\
     (http_failure env (requests (VersionsList.invoke va) env) -> is_envelope v)).
Proof.
  split; [|split; [|split]].
  - intros Hra. unfold ScriptRun.invoke. rewrite Hra.
    eexists. split; [reflexivity|]. split; reflexivity.
  - intros Hva. unfold VersionsList.invoke. rewrite Hva.
    eexists. split; [reflexivity|]. split; reflexivity.
  - intros Hra Htyped. unfold ScriptRun.invoke. rewrite Hra.
    apply script_run_returns_or_envelopes. exact Htyped.
  - intros Hva. unfold VersionsList.invoke. rewrite Hva.
    apply versions_list_returns_or_envelopes.
Qed.

(** The argument objects [{scriptId: 'X', functionName: 'f', parameters:
    [1, 2]}] and [{scriptId: 'X'}], and the remote answering 502 with an
    empty body. *)
Definition call_X_f : value :=
  VObj [("scriptId", VStr "X"); ("functionName", VStr "f");
        ("parameters", VArr [VNum 1; VNum 2])].

Definition call_X : value := VObj [("scriptId", VStr "X")].

Definition bad_gateway : Env := Sample.env (Sample.replies 502 "Bad Gateway" "").

Lemma failures_become_envelopes_witness :
  (exists e,
      outcome (ScriptRun.invoke VUndefined) bad_gateway = inl e /\
      name e = "TypeError" /\
      requests (ScriptRun.invoke VUndefined) bad_gateway = []) /\
  (exists e,
      outcome (VersionsList.invoke VNull) bad_gateway = inl e /\
      name e = "TypeError" /\
      requests (VersionsList.invoke VNull) bad_gateway = []) /\
  (exists v,
      outcome (ScriptRun.invoke call_X_f) bad_gateway = inr v /\
      (http_failure bad_gateway (requests (ScriptRun.invoke call_X_f) bad_gateway) ->
       is_envelope v)) /\
  (exists v,
      outcome (VersionsList.invoke call_X) bad_gateway = inr v /\
      (http_failure bad_gateway (requests (VersionsList.invoke call_X) bad_gateway) ->
       is_envelope v)).
Proof.
  split; [|split; [|split]].
  - apply (proj1 (failures_become_envelopes bad_gateway VUndefined VNull)).
    reflexivity.
  - apply (proj1 (proj2 (failures_become_envelopes bad_gateway VUndefined VNull))).
    reflexivity.
  - apply (proj1 (proj2 (proj2 (failures_become_envelopes bad_gateway call_X_f call_X))));
      reflexivity.
  - apply (proj2 (proj2 (proj2 (failures_become_envelopes bad_gateway call_X_f call_X)))).
    reflexivity.
Defined.

(** ** C4: what the envelope says about a remote error *)

(** C4, at an error body that is not JSON.  The remote answers
    script-run with status 502 and an HTML page.  The envelope's message
    is the decoder's complaint; neither the status nor the body is in
    it. *)
Lemma script_run_html_error_body :
  exists details rawError,
    outcome (ScriptRun.executeFunction X_f_1_2)
      (Sample.env (Sample.replies 502 "Bad Gateway" "<html>Bad Gateway</html>"))
    = inr (VObj [("error", VBool true);
                 ("message", VStr (message Sample.SyntaxError));
                 ("details", details);
                 ("rawError", rawError)]).
Proof. do 2 eexists. vm_compute. reflexivity. Qed.

(** ** C5: a 200 response is passed through *)

(** C5, at the JSON body [null].  The remote answers with status 200 and
    the body null.  Both tools read a property of the decoded body for
    their log entry, which throws on null, and return the envelope
    instead of the body. *)
Lemma null_body_is_not_passed_through :
  JSON_parse (Sample.env (Sample.replies 200 "OK" "null")) "null" = inr VNull /\
  (exists details rawError,
      outcome (ScriptRun.executeFunction X_f_1_2)
        (Sample.env (Sample.replies 200 "OK" "null"))
      = inr (VObj [("error", VBool true);
                   ("message", VStr "Cannot read properties of null (reading 'response')");
                   ("details", details);
                   ("rawError", rawError)])) /\
  (exists details rawError,
      outcome (VersionsList.executeFunction (Sample.list_args (VStr "X")))
        (Sample.env (Sample.replies 200 "OK" "null"))
      = inr (VObj [("error", VBool true);
                   ("message", VStr "Cannot read properties of null (reading 'versions')");
                   ("details", details);
                   ("rawError", rawError)])).
Proof.
  split; [reflexivity|].
  split; do 2 eexists; vm_compute; reflexivity.
Qed.

End Claims.

(** * Further properties of the two tools *)

Module Wrappers.

(** Sample invocations and the requests they come to, given the sample
    credentials. *)
Definition call_f : ScriptRun.args :=
  Sample.run_args (VStr "X") (VStr "f") (VArr [VNum 1; VNum 2]) VUndefined.

Definition request_f : Request :=
  ScriptRunFacts.request call_f
    (URL.mk ["v1"; "scripts"; "X:run"] (Some "alt=json&prettyPrint=true") None
       [("alt", "json"); ("prettyPrint", "true")])
    Sample.headers.

Definition request_list : Request :=
  VersionsListFacts.request
    (URL.mk ["v1"; "projects"; "X"; "versions"]
       (Some "pageSize=100&alt=json&prettyPrint=true") None
       [("pageSize", "100"); ("alt", "json"); ("prettyPrint", "true")])
    "token".

(** ** One request at most *)

(** X1.  An invocation of either tool hands at most one request to
    [fetch], whatever the arguments and whatever the collaborators
    answer. *)
Theorem at_most_one_request
    (env : Env) (ra : ScriptRun.args) (va : VersionsList.args) :
  (List.length (requests (ScriptRun.executeFunction ra) env) <= 1)%nat /\
  (List.length (requests (VersionsList.executeFunction va) env) <= 1)%nat.
Proof.
  split.
  - rewrite ScriptRunOutcome.script_run_requests_eq.
    destruct (ScriptRunFacts.url_of ra); [|cbn; lia].
    destruct (getAuthHeaders env); [cbn; lia|].
    destruct (JS.ToString (ScriptRun.functionName ra)); cbn; lia.
  - rewrite VersionsListOutcome.versions_list_requests_eq.
    unfold VersionsListFacts.sent.
    destruct (getOAuthAccessToken env); [cbn; lia|].
    destruct (VersionsListFacts.url_of va); cbn; lia.
Qed.

(** ** Credentials that cannot be obtained *)

(** X2.  When [getAuthHeaders] rejects, script-run, called with
    arguments of the declared types, sends nothing and returns the
    envelope made of that very error. *)
Theorem script_run_without_credentials
    (env : Env) (a : ScriptRun.args) (e : Error) :
  getAuthHeaders env = inl e ->
  Declared.script_run a = true ->
  requests (ScriptRun.executeFunction a) env = [] /\
  exists timestamp,
    outcome (ScriptRun.executeFunction a) env
    = inr (error_envelope e
             (ScriptRun.errorDetails e (ScriptRun.scriptId a) timestamp)).
Proof.
  intros Hauth Ha. split.
  - rewrite ScriptRunOutcome.script_run_requests_eq, Hauth.
    destruct (ScriptRunFacts.url_of a); reflexivity.
  - destruct (ScriptRunTyped.script_run_url_of_declared a Ha) as [u Hu].
    rewrite (ScriptRunOutcome.script_run_outcome_eq env a u Hu).
    unfold ScriptRunFacts.attempt. rewrite Hauth. cbn.
    eexists. reflexivity.
Qed.

(** An environment without credentials. *)
Definition refused : Error :=
  mkError "Error" "No refresh token" "Error: No refresh token".

Definition locked_out : Env :=
  mkEnv (inl refused) (inl refused)
        (Sample.replies 200 "OK" "{}") Sample.parse
        (fun n => 1000 * Z.of_nat n)%Z
        (fun _ => "2025-01-01T00:00:00.000Z")
        Sample.stack_text.

Lemma script_run_without_credentials_witness :
  getAuthHeaders locked_out = inl refused /\
  Declared.script_run call_f = true /\
  requests (ScriptRun.executeFunction call_f) locked_out = [] /\
  exists timestamp,
    outcome (ScriptRun.executeFunction call_f) locked_out
    = inr (error_envelope refused
             (ScriptRun.errorDetails refused
                (ScriptRun.scriptId call_f) timestamp)).
Proof.
  split; [reflexivity|]. split; [reflexivity|].
  apply (script_run_without_credentials locked_out call_f); reflexivity.
Defined.

(** X3.  When [getOAuthAccessToken] rejects, versions-list sends nothing
    and returns the envelope made of that very error, whatever its
    arguments. *)
Theorem versions_list_without_credentials
    (env : Env) (a : VersionsList.args) (e : Error) :
  getOAuthAccessToken env = inl e ->
  requests (VersionsList.executeFunction a) env = [] /\
  exists duration timestamp,
    outcome (VersionsList.executeFunction a) env
    = inr (error_envelope e
             (VersionsList.errorDetails e (VersionsList.scriptId a)
                duration timestamp)).
Proof.
  intros Hauth. split.
  - rewrite VersionsListOutcome.versions_list_requests_eq.
    unfold VersionsListFacts.sent. rewrite Hauth. reflexivity.
  - destruct (VersionsListOutcome.versions_list_outcome_verdict env a) as (v & -> & Hv).
    unfold VersionsListFacts.verdict in Hv. rewrite Hauth in Hv.
    destruct Hv as (duration & timestamp & ->).
    exists duration, timestamp. reflexivity.
Qed.

Lemma versions_list_without_credentials_witness :
  getOAuthAccessToken locked_out = inl refused /\
  requests (VersionsList.executeFunction (Sample.list_args (VStr "X"))) locked_out = [] /\
  exists duration timestamp,
    outcome (VersionsList.executeFunction (Sample.list_args (VStr "X"))) locked_out
    = inr (error_envelope refused
             (VersionsList.errorDetails refused
                (VersionsList.scriptId (Sample.list_args (VStr "X")))
                duration timestamp)).
Proof.
  split; [reflexivity|].
  apply (versions_list_without_credentials locked_out). reflexivity.
Defined.

(** ** What comes back from the remote *)

(** The remote cannot be reached. *)
Definition unreachable : Error :=
  mkError "TypeError" "fetch failed" "TypeError: fetch failed".

Definition offline : Env := Sample.env (fun _ => inl unreachable).

(** X4.  When [fetch] rejects, the one request was handed over and the
    tool returns the envelope made of the transport error: its message
    is the fault's message. *)
Theorem transport_fault_is_enveloped (env : Env) :
  (forall a req e,
      In req (requests (ScriptRun.executeFunction a) env) ->
      fetch env req = inl e ->
      requests (ScriptRun.executeFunction a) env = [req] /\
      exists timestamp,
        outcome (ScriptRun.executeFunction a) env
        = inr (error_envelope e
                 (ScriptRun.errorDetails e (ScriptRun.scriptId a) timestamp))) /\
  (forall a req e,
      In req (requests (VersionsList.executeFunction a) env) ->
      fetch env req = inl e ->
      requests (VersionsList.executeFunction a) env = [req] /\
      exists duration timestamp,
        outcome (VersionsList.executeFunction a) env
        = inr (error_envelope e
                 (VersionsList.errorDetails e (VersionsList.scriptId a)
                    duration timestamp))).
Proof.
  split.
  - intros a req e Hin Hfetch.
    pose proof Hin as Hin'.
    apply ScriptRunOutcome.script_run_requests_inv in Hin
      as (u & h & name & Hu & Hh & Hname & ->).
    split.
    + rewrite ScriptRunOutcome.script_run_requests_eq, Hu, Hh, Hname. reflexivity.
    + rewrite (ScriptRunOutcome.script_run_outcome_eq env a u Hu).
      unfold ScriptRunFacts.attempt. rewrite Hh, Hname. cbn. rewrite Hfetch.
      eexists. reflexivity.
  - intros a req e Hin Hfetch.
    apply VersionsListOutcome.versions_list_requests_inv in Hin
      as (u & token & Hu & Htoken & ->).
    split.
    + rewrite VersionsListOutcome.versions_list_requests_eq.
      unfold VersionsListFacts.sent. rewrite Htoken, Hu. reflexivity.
    + destruct (VersionsListOutcome.versions_list_outcome_verdict env a) as (v & -> & Hv).
      unfold VersionsListFacts.verdict in Hv. rewrite Htoken, Hu, Hfetch in Hv.
      destruct Hv as (duration & timestamp & ->).
      exists duration, timestamp. reflexivity.
Qed.

Lemma transport_fault_is_enveloped_witness :
  (In request_f (requests (ScriptRun.executeFunction call_f) offline) /\
   fetch offline request_f = inl unreachable /\
   requests (ScriptRun.executeFunction call_f) offline = [request_f] /\
   exists timestamp,
     outcome (ScriptRun.executeFunction call_f) offline
     = inr (error_envelope unreachable
              (ScriptRun.errorDetails unreachable
                 (ScriptRun.scriptId call_f) timestamp))) /\
  (In request_list
      (requests (VersionsList.executeFunction (Sample.list_args (VStr "X"))) offline) /\
   fetch offline request_list = inl unreachable /\
   requests (VersionsList.executeFunction (Sample.list_args (VStr "X"))) offline
   = [request_list] /\
   exists duration timestamp,
     outcome (VersionsList.executeFunction (Sample.list_args (VStr "X"))) offline
     = inr (error_envelope unreachable
              (VersionsList.errorDetails unreachable
                 (VersionsList.scriptId (Sample.list_args (VStr "X")))
                 duration timestamp))).
Proof.
  destruct (transport_fault_is_enveloped offline) as [Hrun Hlist].
  assert (H1 : In request_f
                 (requests (ScriptRun.executeFunction call_f) offline)).
  { rewrite ScriptRunOutcome.script_run_requests_eq. left. vm_compute. reflexivity. }
  assert (H2 : In request_list
                 (requests (VersionsList.executeFunction (Sample.list_args (VStr "X")))
                    offline)).
  { rewrite VersionsListOutcome.versions_list_requests_eq. left. vm_compute. reflexivity. }
  split.
  - split; [exact H1|]. split; [reflexivity|]. apply (Hrun _ _ _ H1). reflexivity.
  - split; [exact H2|]. split; [reflexivity|]. apply (Hlist _ _ _ H2). reflexivity.
Defined.

(** X5.  A response with a status in 200-299 whose body decodes to a
    value other than [null] is returned as decoded, unchanged, by both
    tools. *)
Theorem decoded_body_is_returned (env : Env) :
  (forall a req r t data,
      In req (requests (ScriptRun.executeFunction a) env) ->
      fetch env req = inr r -> ok r = true -> text r = inr t ->
      JSON_parse env t = inr data -> JS.nullish data = false ->
      outcome (ScriptRun.executeFunction a) env = inr data) /\
  (forall a req r t data,
      In req (requests (VersionsList.executeFunction a) env) ->
      fetch env req = inr r -> ok r = true -> text r = inr t ->
      JSON_parse env t = inr data -> JS.nullish data = false ->
      outcome (VersionsList.executeFunction a) env = inr data).
Proof.
  split; intros a req r t data.
  - apply Messages.script_run_passes_body_through.
  - apply Messages.versions_list_passes_body_through.
Qed.

Lemma decoded_body_is_returned_witness :
  (In request_f
     (requests (ScriptRun.executeFunction call_f)
        (Sample.env (Sample.replies 204 "No Content" "{}"))) /\
   outcome (ScriptRun.executeFunction call_f)
     (Sample.env (Sample.replies 204 "No Content" "{}")) = inr (VObj [])) /\
  (In request_list
     (requests (VersionsList.executeFunction (Sample.list_args (VStr "X")))
        (Sample.env (Sample.replies 204 "No Content" "{}"))) /\
   outcome (VersionsList.executeFunction (Sample.list_args (VStr "X")))
     (Sample.env (Sample.replies 204 "No Content" "{}")) = inr (VObj [])).
Proof.
  destruct (decoded_body_is_returned (Sample.env (Sample.replies 204 "No Content" "{}")))
    as [Hrun Hlist].
  assert (H1 : In request_f
                 (requests (ScriptRun.executeFunction call_f)
                    (Sample.env (Sample.replies 204 "No Content" "{}")))).
  { rewrite ScriptRunOutcome.script_run_requests_eq. left. vm_compute. reflexivity. }
  assert (H2 : In request_list
                 (requests (VersionsList.executeFunction (Sample.list_args (VStr "X")))
                    (Sample.env (Sample.replies 204 "No Content" "{}")))).
  { rewrite VersionsListOutcome.versions_list_requests_eq. left. vm_compute. reflexivity. }
  split.
  - split; [exact H1|].
    apply (Hrun _ _ (mkResponse 204 "No Content" None (inr "{}")) "{}" (VObj []) H1);
      reflexivity.
  - split; [exact H2|].
    apply (Hlist _ _ (mkResponse 204 "No Content" None (inr "{}")) "{}" (VObj []) H2);
      reflexivity.
Defined.

(** X6.  A response with a status in 200-299 whose body is not JSON ends
    in the envelope made of the decoder's error, in both tools. *)
Theorem undecodable_success_is_enveloped (env : Env) :
  (forall a req r t e,
      In req (requests (ScriptRun.executeFunction a) env) ->
      fetch env req = inr r -> ok r = true -> text r = inr t ->
      JSON_parse env t = inl e ->
      exists timestamp,
        outcome (ScriptRun.executeFunction a) env
        = inr (error_envelope e
                 (ScriptRun.errorDetails e (ScriptRun.scriptId a) timestamp))) /\
  (forall a req r t e,
      In req (requests (VersionsList.executeFunction a) env) ->
      fetch env req = inr r -> ok r = true -> text r = inr t ->
      JSON_parse env t = inl e ->
      exists duration timestamp,
        outcome (VersionsList.executeFunction a) env
        = inr (error_envelope e
                 (VersionsList.errorDetails e (VersionsList.scriptId a)
                    duration timestamp))).
Proof.
  split.
  - intros a req r t e Hin Hfetch Hok Htext Hparse.
    apply ScriptRunOutcome.script_run_requests_inv in Hin
      as (u & h & name & Hu & Hh & Hname & ->).
    rewrite (ScriptRunOutcome.script_run_outcome_eq env a u Hu).
    unfold ScriptRunFacts.attempt, ScriptRunFacts.settle.
    rewrite Hh, Hname. cbn. rewrite Hfetch, Htext, Hparse.
    eexists. reflexivity.
  - intros a req r t e Hin Hfetch Hok Htext Hparse.
    apply VersionsListOutcome.versions_list_requests_inv in Hin
      as (u & token & Hu & Htoken & ->).
    destruct (VersionsListOutcome.versions_list_outcome_verdict env a) as (v & -> & Hv).
    unfold VersionsListFacts.verdict, VersionsListFacts.settle in Hv.
    rewrite Htoken, Hu, Hfetch, Hok, Htext, Hparse in Hv.
    destruct Hv as (duration & timestamp & ->).
    exists duration, timestamp. reflexivity.
Qed.

Lemma undecodable_success_is_enveloped_witness :
  (In request_f
     (requests (ScriptRun.executeFunction call_f)
        (Sample.env (Sample.replies 204 "No Content" ""))) /\
   exists timestamp,
     outcome (ScriptRun.executeFunction call_f)
       (Sample.env (Sample.replies 204 "No Content" ""))
     = inr (error_envelope Sample.SyntaxError
              (ScriptRun.errorDetails Sample.SyntaxError
                 (ScriptRun.scriptId call_f) timestamp))) /\
  (In request_list
     (requests (VersionsList.executeFunction (Sample.list_args (VStr "X")))
        (Sample.env (Sample.replies 204 "No Content" ""))) /\
   exists duration timestamp,
     outcome (VersionsList.executeFunction (Sample.list_args (VStr "X")))
       (Sample.env (Sample.replies 204 "No Content" ""))
     = inr (error_envelope Sample.SyntaxError
              (VersionsList.errorDetails Sample.SyntaxError
                 (VersionsList.scriptId (Sample.list_args (VStr "X")))
                 duration timestamp))).
Proof.
  destruct (undecodable_success_is_enveloped
              (Sample.env (Sample.replies 204 "No Content" ""))) as [Hrun Hlist].
  assert (H1 : In request_f
                 (requests (ScriptRun.executeFunction call_f)
                    (Sample.env (Sample.replies 204 "No Content" "")))).
  { rewrite ScriptRunOutcome.script_run_requests_eq. left. vm_compute. reflexivity. }
  assert (H2 : In request_list
                 (requests (VersionsList.executeFunction (Sample.list_args (VStr "X")))
                    (Sample.env (Sample.replies 204 "No Content" "")))).
  { rewrite VersionsListOutcome.versions_list_requests_eq. left. vm_compute. reflexivity. }
  split.
  - split; [exact H1|].
    apply (Hrun _ _ (mkResponse 204 "No Content" None (inr "")) "" _ H1); reflexivity.
  - split; [exact H2|].
    apply (Hlist _ _ (mkResponse 204 "No Content" None (inr "")) "" _ H2); reflexivity.
Defined.

(** The envelope whose message is [msg]. *)
Definition envelope_saying (msg : string) (result : Error + value) : Prop :=
  exists details rawError,
    result = inr (VObj [("error", VBool true);
                        ("message", VStr msg);
                        ("details", details);
                        ("rawError", rawError)]).

(** X7.  When the remote answers script-run with a status outside
    200-299 and a JSON body, the tool returns the envelope of a plain
    [Error] whose message is the JSON text of the decoded body. *)
Theorem script_run_remote_error
    (env : Env) (a : ScriptRun.args) (req : Request) (r : Response)
    (t s : string) (errorData : value) :
  In req (requests (ScriptRun.executeFunction a) env) ->
  fetch env req = inr r -> ok r = false -> text r = inr t ->
  JSON_parse env t = inr errorData ->
  JS.JSON_stringify errorData = Some s ->
  exists timestamp,
    outcome (ScriptRun.executeFunction a) env
    = inr (error_envelope (mkError "Error" s (capture_stack env "Error" s))
             (ScriptRun.errorDetails
                (mkError "Error" s (capture_stack env "Error" s))
                (ScriptRun.scriptId a) timestamp)).
Proof.
  intros Hin Hfetch Hok Htext Hparse Hs.
  apply ScriptRunOutcome.script_run_requests_inv in Hin
    as (u & h & name & Hu & Hh & Hname & ->).
  rewrite (ScriptRunOutcome.script_run_outcome_eq env a u Hu).
  unfold ScriptRunFacts.attempt, ScriptRunFacts.settle.
  rewrite Hh, Hname. cbn. rewrite Hfetch, Htext, Hparse, Hok, Hs.
  eexists. reflexivity.
Qed.

Lemma script_run_remote_error_witness :
  exists timestamp,
    outcome (ScriptRun.executeFunction call_f)
      (Sample.env (Sample.replies 404 "Not Found" "{}"))
    = inr (error_envelope (mkError "Error" "{}" "Error: {}")
             (ScriptRun.errorDetails (mkError "Error" "{}" "Error: {}")
                (VStr "X") timestamp)).
Proof.
  assert (H1 : In request_f
                 (requests (ScriptRun.executeFunction call_f)
                    (Sample.env (Sample.replies 404 "Not Found" "{}")))).
  { rewrite ScriptRunOutcome.script_run_requests_eq. left. vm_compute. reflexivity. }
  apply (script_run_remote_error _ _ _
           (mkResponse 404 "Not Found" None (inr "{}")) "{}" "{}" (VObj []) H1);
    reflexivity.
Defined.

(** X8.  The reason versions-list reports for a status outside 200-299
    with a JSON object as body: the message of the object's [error]
    member when that is a non-empty string, whatever else the object
    holds; without an [error] member, the object's own [message] when
    that is a non-empty string; with neither member, Unknown error. *)
Theorem versions_list_reason_precedence
    (env : Env) (a : VersionsList.args) (req : Request) (r : Response)
    (t : string) (members : list (string * value)) :
  In req (requests (VersionsList.executeFunction a) env) ->
  fetch env req = inr r -> ok r = false -> text r = inr t ->
  JSON_parse env t = inr (VObj members) ->
  (forall inner s,
      JS.lookup_member "error" members = Some (VObj inner) ->
      JS.lookup_member "message" inner = Some (VStr s) -> s <> "" ->
      envelope_saying ("API Error (" +:+ JS.Number_toString (status r) +:+ "): " +:+ s)
        (outcome (VersionsList.executeFunction a) env)) /\
  (forall s,
      JS.lookup_member "error" members = None ->
      JS.lookup_member "message" members = Some (VStr s) -> s <> "" ->
      envelope_saying ("API Error (" +:+ JS.Number_toString (status r) +:+ "): " +:+ s)
        (outcome (VersionsList.executeFunction a) env)) /\
  (JS.lookup_member "error" members = None ->
   JS.lookup_member "message" members = None ->
   envelope_saying
     ("API Error (" +:+ JS.Number_toString (status r) +:+ "): " +:+ "Unknown error")
     (outcome (VersionsList.executeFunction a) env)).
Proof.
  intros Hin Hfetch Hok Htext Hparse.
  pose proof (fun reason =>
                Messages.versions_list_error_body_json env a req r t members reason
                  Hin Hfetch Hok Htext Hparse) as Hmsg.
  assert (Hne : forall s, s <> "" -> JS.truthy (VStr s) = true).
  { intros s Hs. unfold JS.truthy. destruct (String.eqb_spec s ""); [contradiction|reflexivity]. }
  split; [|split].
  - intros inner s Herr Hm Hs. apply Hmsg.
    unfold VersionsListFacts.reason, JS.get_member, opt_get. rewrite Herr.
    cbn [JS.nullish]. unfold JS.get_member. rewrite Hm, (Hne s Hs). reflexivity.
  - intros s Herr Hm Hs. apply Hmsg.
    unfold VersionsListFacts.reason, JS.get_member, opt_get. rewrite Herr, Hm.
    cbn [JS.nullish]. unfold JS.truthy at 1. unfold VersionsList.or_else.
    rewrite (Hne s Hs). reflexivity.
  - intros Herr Hm. apply Hmsg.
    unfold VersionsListFacts.reason, JS.get_member, opt_get. rewrite Herr, Hm.
    reflexivity.
Qed.

(** A decoder that knows one more body: the error object of the
    Apps Script API, cut down to its message. *)
Definition not_found_body : string :=
  "{" +:+ Sample.quoted "error" +:+ ":{" +:+ Sample.quoted "message" +:+ ":"
  +:+ Sample.quoted "Requested entity was not found." +:+ "}}".

Definition not_found_data : list (string * value) :=
  [("error", VObj [("message", VStr "Requested entity was not found.")])].

Definition not_found : Env :=
  mkEnv (inr Sample.headers) (inr "token")
        (Sample.replies 404 "Not Found" not_found_body)
        (fun t => if String.eqb t not_found_body then inr (VObj not_found_data)
                  else Sample.parse t)
        (fun n => 1000 * Z.of_nat n)%Z
        (fun _ => "2025-01-01T00:00:00.000Z")
        Sample.stack_text.

Lemma versions_list_reason_precedence_witness :
  envelope_saying "API Error (404): Requested entity was not found."
    (outcome (VersionsList.executeFunction (Sample.list_args (VStr "X"))) not_found).
Proof.
  assert (H1 : In request_list
                 (requests (VersionsList.executeFunction (Sample.list_args (VStr "X")))
                    not_found)).
  { rewrite VersionsListOutcome.versions_list_requests_eq. left. vm_compute. reflexivity. }
  refine (proj1 (versions_list_reason_precedence not_found _ _
                   (mkResponse 404 "Not Found" None (inr not_found_body))
                   not_found_body not_found_data H1 _ _ _ _)
            [("message", VStr "Requested entity was not found.")]
            "Requested entity was not found." _ _ _);
    try reflexivity.
  discriminate.
Defined.

(** ** What is sent *)

(** X9.  The headers of a request.  script-run sends the headers
    [getAuthHeaders] resolved to, with Content-Type set to
    application/json over whatever they held under that name;
    versions-list sends two headers only, Accept and the bearer token
    [getOAuthAccessToken] resolved to, and no body. *)
Theorem request_headers (env : Env) :
  (forall a req h,
      In req (requests (ScriptRun.executeFunction a) env) ->
      getAuthHeaders env = inr h ->
      headers req !! "Content-Type" = Some "application/json" /\
      forall k, k <> "Content-Type" -> headers req !! k = h !! k) /\
  (forall a req token,
      In req (requests (VersionsList.executeFunction a) env) ->
      getOAuthAccessToken env = inr token ->
      body req = None /\
      forall k,
        headers req !! k
        = if String.eqb k "Authorization" then Some ("Bearer " +:+ token)
          else if String.eqb k "Accept" then Some "application/json"
          else None).
Proof.
  split.
  - intros a req h Hin Hh.
    apply ScriptRunOutcome.script_run_requests_inv in Hin
      as (u & h' & name & _ & Hh' & _ & ->).
    rewrite Hh in Hh'. injection Hh' as <-.
    unfold ScriptRunFacts.request. cbn [headers]. split.
    + apply lookup_insert_eq.
    + intros k Hk. apply lookup_insert_ne. congruence.
  - intros a req token Hin Htoken.
    apply VersionsListOutcome.versions_list_requests_inv in Hin
      as (u & token' & _ & Htoken' & ->).
    rewrite Htoken in Htoken'. injection Htoken' as <-.
    unfold VersionsListFacts.request. cbn [headers body].
    split; [reflexivity|]. intros k.
    destruct (String.eqb_spec k "Authorization") as [-> | Hk1].
    + apply lookup_insert_eq.
    + rewrite lookup_insert_ne by congruence.
      destruct (String.eqb_spec k "Accept") as [-> | Hk2].
      * apply lookup_singleton_eq.
      * apply lookup_singleton_ne. congruence.
Qed.

Definition answering : Env := Sample.env (Sample.replies 200 "OK" "{}").

Lemma run_X_f_request (respond : Request -> Error + Response) :
  requests (ScriptRun.executeFunction call_f) (Sample.env respond)
  = [request_f].
Proof. rewrite ScriptRunOutcome.script_run_requests_eq. vm_compute. reflexivity. Qed.

Lemma list_X_request (respond : Request -> Error + Response) :
  requests (VersionsList.executeFunction (Sample.list_args (VStr "X"))) (Sample.env respond)
  = [request_list].
Proof. rewrite VersionsListOutcome.versions_list_requests_eq. vm_compute. reflexivity. Qed.

Lemma request_headers_witness :
  (headers request_f !! "Content-Type" = Some "application/json" /\
   headers request_f !! "Authorization" = Some "Bearer token") /\
  (body request_list = None /\
   headers request_list !! "Authorization" = Some "Bearer token" /\
   headers request_list !! "Accept" = Some "application/json" /\
   headers request_list !! "Content-Type" = None).
Proof.
  destruct (request_headers answering) as [Hrun Hlist].
  split.
  - destruct (Hrun call_f request_f Sample.headers) as [H1 H2].
    + unfold answering. rewrite run_X_f_request. left. reflexivity.
    + reflexivity.
    + split; [exact H1|]. rewrite H2 by discriminate. reflexivity.
  - destruct (Hlist (Sample.list_args (VStr "X")) request_list "token")
      as [H1 H2].
    + unfold answering. rewrite list_X_request. left. reflexivity.
    + reflexivity.
    + split; [exact H1|].
      split; [apply (H2 "Authorization")|].
      split; [apply (H2 "Accept") | apply (H2 "Content-Type")].
Defined.

(** X10.  The values script-run puts in the query string are those of
    the arguments: a non-empty string given as fields, alt or quotaUser
    decodes from the query string unchanged, an omitted alt is sent as
    json, and a boolean prettyPrint is sent as the text true or false. *)
Theorem script_run_query_values (env : Env) (a : ScriptRun.args) (req : Request) :
  In req (requests (ScriptRun.executeFunction a) env) ->
  exists q,
    URL.query (url req) = Some q /\
    (forall s, ScriptRun.fields a = VStr s -> s <> "" ->
               In ("fields", s) (URL.urlencoded_parse q)) /\
    (forall s, ScriptRun.alt a = VStr s -> s <> "" ->
               In ("alt", s) (URL.urlencoded_parse q)) /\
    (ScriptRun.alt a = VUndefined -> In ("alt", "json") (URL.urlencoded_parse q)) /\
    (forall b, ScriptRun.prettyPrint a = VBool b ->
               In ("prettyPrint", JS.Boolean_toString b) (URL.urlencoded_parse q)) /\
    (forall s, ScriptRun.quotaUser a = VStr s -> s <> "" ->
               In ("quotaUser", s) (URL.urlencoded_parse q)).
Proof.
  intros Hin.
  apply ScriptRunOutcome.script_run_request_query in Hin
    as (params & Hq & Hquery & _ & Hround).
  exists (URL.urlencoded_serialize params). split; [assumption|].
  rewrite Hround. clear Hquery Hround.
  unfold ScriptRunFacts.query_params in Hq.
  destruct (Query.entry "fields" _) as [f|] eqn:Hf; [|discriminate].
  cbn in Hq. destruct (Query.entry "alt" _) as [al|] eqn:Hal; [|discriminate].
  cbn in Hq. destruct (ScriptRunFacts.pretty_entry _) as [pp|] eqn:Hpp; [|discriminate].
  cbn in Hq. destruct (Query.entry "quotaUser" _) as [qu|] eqn:Hqu; [|discriminate].
  cbn in Hq. injection Hq as <-.
  split; [|split; [|split; [|split]]].
  - intros s Hs Hne. rewrite Hs, (VersionsListQuery.entry_string _ _ Hne) in Hf.
    injection Hf as <-. apply in_or_app. left. left. reflexivity.
  - intros s Hs Hne. rewrite Hs in Hal. cbn [JS.default] in Hal.
    rewrite (VersionsListQuery.entry_string _ _ Hne) in Hal.
    injection Hal as <-. apply in_or_app. right. apply in_or_app. left. left. reflexivity.
  - intros Hs. rewrite Hs in Hal. injection Hal as <-.
    apply in_or_app. right. apply in_or_app. left. left. reflexivity.
  - intros b Hb. rewrite Hb in Hpp. injection Hpp as <-.
    apply in_or_app. right. apply in_or_app. right. apply in_or_app. left.
    left. reflexivity.
  - intros s Hs Hne. rewrite Hs, (VersionsListQuery.entry_string _ _ Hne) in Hqu.
    injection Hqu as <-. apply in_or_app. right. apply in_or_app. right.
    apply in_or_app. right. left. reflexivity.
Qed.

(** script-run called with a field selector that holds the query
    delimiters, a quota user with a space, and prettyPrint false. *)
Definition selective : ScriptRun.args :=
  ScriptRun.mkArgs (VStr "X") (VStr "f") VUndefined VUndefined
    (VStr "a&b=c") VUndefined VUndefined VUndefined VUndefined
    (VStr "me too") (VBool false).

Lemma script_run_query_values_witness :
  exists req q,
    requests (ScriptRun.executeFunction selective) answering = [req] /\
    URL.query (url req) = Some q /\
    q = "fields=a%26b%3Dc&alt=json&prettyPrint=false&quotaUser=me+too" /\
    In ("fields", "a&b=c") (URL.urlencoded_parse q) /\
    In ("alt", "json") (URL.urlencoded_parse q) /\
    In ("prettyPrint", "false") (URL.urlencoded_parse q) /\
    In ("quotaUser", "me too") (URL.urlencoded_parse q).
Proof.
  assert (Hreq : exists req,
             requests (ScriptRun.executeFunction selective) answering = [req] /\
             URL.query (url req)
             = Some "fields=a%26b%3Dc&alt=json&prettyPrint=false&quotaUser=me+too").
  { rewrite ScriptRunOutcome.script_run_requests_eq. vm_compute.
    eexists. split; reflexivity. }
  destruct Hreq as (req & Hreq & Hquery).
  destruct (script_run_query_values answering selective req)
    as (q & Hq & Hfields & _ & Halt & Hpretty & Hquota).
  { rewrite Hreq. left. reflexivity. }
  exists req, q. split; [exact Hreq|]. split; [exact Hq|].
  split; [congruence|].
  split; [apply Hfields; [reflexivity | discriminate]|].
  split; [apply Halt; reflexivity|].
  split; [apply (Hpretty false); reflexivity|].
  apply Hquota; [reflexivity | discriminate].
Defined.

(** The names of the parameters versions-list appends, in order. *)
Definition versions_list_names (a : VersionsList.args) : list string :=
  ["pageSize"]
  ++ (if JS.truthy (VersionsList.pageToken a) then ["pageToken"] else [])
  ++ (if JS.truthy (VersionsList.fields a) then ["fields"] else [])
  ++ ["alt"]
  ++ (if JS.truthy (VersionsList.key a) then ["key"] else [])
  ++ (if JS.truthy (JS.default (VBool true) (VersionsList.prettyPrint a))
      then ["prettyPrint"] else []).

Lemma versions_list_query_params_names
    (a : VersionsList.args) (l : list (string * string)) :
  VersionsListURL.query_params a = Some l -> map fst l = versions_list_names a.
Proof.
  unfold VersionsListURL.query_params, versions_list_names.
  destruct (JS.call_toString (JS.default (VNum 100) (VersionsList.pageSize a)))
    as [size|]; [|discriminate].
  cbn. destruct (Query.entry "pageToken" _) as [t|] eqn:Ht; [|discriminate].
  cbn. destruct (Query.entry "fields" _) as [f|] eqn:Hf; [|discriminate].
  cbn. destruct (Query.entry "key" _) as [k|] eqn:Hk; [|discriminate].
  cbn.
  destruct (JS.truthy (JS.default (VBool true) (VersionsList.prettyPrint a))).
  - destruct (JS.call_toString _) as [s|]; [|discriminate].
    cbn. intros [= <-]. cbn [map fst]. repeat (rewrite map_app; cbn [map fst]).
    rewrite (ScriptRunURL.entry_names _ _ _ Ht), (ScriptRunURL.entry_names _ _ _ Hf),
      (ScriptRunURL.entry_names _ _ _ Hk).
    reflexivity.
  - cbn. intros [= <-]. cbn [map fst]. repeat (rewrite map_app; cbn [map fst]).
    rewrite (ScriptRunURL.entry_names _ _ _ Ht), (ScriptRunURL.entry_names _ _ _ Hf),
      (ScriptRunURL.entry_names _ _ _ Hk).
    reflexivity.
Qed.

(** The template of versions-list carries no query of its own when the
    script id is made of bytes the path state copies. *)
Lemma versions_list_template_no_query (id : string) (u0 : URL.t) :
  URL.all_bytes URL.kept id = true ->
  URL.parse (VersionsListFacts.template id) = Some u0 ->
  URL.searchParams u0 = [].
Proof.
  intros Hid. unfold VersionsListFacts.template, VersionsList.baseUrl.
  change ("https://script.googleapis.com" +:+ "/v1/projects/" +:+ id +:+ "/versions")
    with (URL.origin +:+ String "/" ("v1/projects/" +:+ id +:+ "/versions")).
  rewrite URLFacts.parse_origin_path.
  rewrite !URLFacts.remove_tab_newline_app.
  rewrite (URLFacts.remove_tab_newline_kept id Hid).
  change (URL.path_state
            (URL.remove_tab_newline "v1/projects/" +:+ id
             +:+ URL.remove_tab_newline "/versions") "" [])
    with (URL.path_state (id +:+ "/versions") "" ["v1"; "projects"]).
  rewrite (URLFacts.path_state_kept id "/versions" "" _ Hid).
  change (URL.path_state "/versions" ("" +:+ id) ["v1"; "projects"])
    with (URL.with_query
            (URL.close_segment false "versions"
               (URL.close_segment true id ["v1"; "projects"])) None None).
  intros [= <-]. reflexivity.
Qed.

(** X11.  For a script id made of bytes URL parsing leaves in place, the
    query string of versions-list's request decodes to parameters named,
    in this order, pageSize, pageToken (when truthy), fields (when
    truthy), alt, key (when truthy) and prettyPrint (when truthy, true
    by default).  So the API key is sent when given, as given, and
    access_token and oauth_token never are. *)
Theorem versions_list_query_names
    (env : Env) (a : VersionsList.args) (req : Request) (id : string) :
  In req (requests (VersionsList.executeFunction a) env) ->
  JS.ToString (VersionsList.scriptId a) = Some id ->
  URL.all_bytes URL.kept id = true ->
  exists q,
    URL.query (url req) = Some q /\
    map fst (URL.urlencoded_parse q) = versions_list_names a /\
    (forall s, VersionsList.key a = VStr s -> s <> "" ->
               In ("key", s) (URL.urlencoded_parse q)) /\
    ~ In "access_token" (map fst (URL.urlencoded_parse q)) /\
    ~ In "oauth_token" (map fst (URL.urlencoded_parse q)).
Proof.
  intros Hin Hid Hkept.
  apply VersionsListOutcome.versions_list_requests_inv in Hin
    as (u & token & Hu & _ & ->).
  apply VersionsListURL.versions_list_url_of_shape in Hu
    as (id' & u0 & l & Hid' & Hu0 & Hl & ->).
  rewrite Hid in Hid'. injection Hid' as <-.
  rewrite (versions_list_template_no_query id u0 Hkept Hu0). cbn [app].
  exists (URL.urlencoded_serialize l). split; [reflexivity|].
  rewrite URLFacts.urlencoded_parse_serialize.
  pose proof (versions_list_query_params_names a l Hl) as Hnames.
  split; [exact Hnames|].
  split.
  { apply (VersionsListQuery.query_params_members a l Hl). }
  rewrite Hnames. unfold versions_list_names.
  split; intros H;
    repeat (apply in_app_or in H as [H | H]);
    repeat match type of H with
           | In _ (if ?b then _ else _) => destruct b
           end;
    cbn in H; intuition discriminate.
Qed.

(** versions-list called with an API key, both tokens and prettyPrint
    false. *)
Definition keyed : VersionsList.args :=
  VersionsList.mkArgs (VStr "X") (VNum 5) VUndefined VUndefined
    (VStr "k/1") (VStr "ya29.a") (VStr "ya29.b") (VBool false).

Lemma versions_list_query_names_witness :
  exists req q,
    requests (VersionsList.executeFunction keyed) answering = [req] /\
    URL.query (url req) = Some q /\
    q = "pageSize=5&alt=json&key=k%2F1" /\
    map fst (URL.urlencoded_parse q) = ["pageSize"; "alt"; "key"] /\
    In ("key", "k/1") (URL.urlencoded_parse q).
Proof.
  assert (Hreq : exists req,
             requests (VersionsList.executeFunction keyed) answering = [req] /\
             URL.query (url req) = Some "pageSize=5&alt=json&key=k%2F1").
  { rewrite VersionsListOutcome.versions_list_requests_eq. vm_compute.
    eexists. split; reflexivity. }
  destruct Hreq as (req & Hreq & Hquery).
  destruct (versions_list_query_names answering keyed req "X")
    as (q & Hq & Hnames & Hkey & _).
  { rewrite Hreq. left. reflexivity. }
  { reflexivity. }
  { reflexivity. }
  exists req, q. split; [exact Hreq|]. split; [exact Hq|].
  split; [congruence|].
  split; [exact Hnames|].
  apply Hkey; [reflexivity | discriminate].
Defined.

(** X12.  Whatever script-run throws is a [TypeError] raised before the
    [try] block was entered, so before anything was sent. *)
Theorem script_run_throws_before_sending
    (env : Env) (a : ScriptRun.args) (e : Error) :
  outcome (ScriptRun.executeFunction a) env = inl e ->
  name e = "TypeError" /\ requests (ScriptRun.executeFunction a) env = [].
Proof.
  unfold outcome, requests.
  pose proof (ScriptRunFacts.script_run_closed_form env a) as H.
  destruct (ScriptRunFacts.url_of a) as [u|].
  - rewrite H. discriminate.
  - destruct H as [e' [-> He']]. cbn. intros [= <-]. split; [assumption | reflexivity].
Qed.

Lemma script_run_throws_before_sending_witness :
  name (mkError "TypeError" "Cannot read properties of null (reading 'toString')"
          "TypeError: Cannot read properties of null (reading 'toString')")
  = "TypeError" /\
  requests
    (ScriptRun.executeFunction (Sample.run_args (VStr "X") (VStr "f") VUndefined VNull))
    answering = [].
Proof.
  apply (script_run_throws_before_sending answering
           (Sample.run_args (VStr "X") (VStr "f") VUndefined VNull)).
  vm_compute. reflexivity.
Defined.



(** ** The duration versions-list reports *)

(** The result of versions-list is the decoded body of a 2xx response to
    its request, or the envelope of an error, whose duration is then the
    difference between a later reading of the clock and the first. *)
Lemma versions_list_timed (env : Env) (a : VersionsList.args) :
  exists v,
    outcome (VersionsList.executeFunction a) env = inr v /\
    ((exists token u r t,
         getOAuthAccessToken env = inr token /\
         VersionsListFacts.url_of a = Some u /\
         fetch env (VersionsListFacts.request u token) = inr r /\
         ok r = true /\ text r = inr t /\ JSON_parse env t = inr v) \/
     (exists e k timestamp,
         v = error_envelope e
               (VersionsList.errorDetails e (VersionsList.scriptId a)
                  (clock env (S k) - clock env 0) timestamp))).
Proof.
  unfold outcome, run. rewrite VersionsListFacts.versions_list_regions.
  pose proof (@VersionsListFacts.versions_list_prepare value a) as Hprep.
  rewrite bind_Date_now, try_catch_run.
  rewrite bind_await.
  destruct (getOAuthAccessToken env) as [e|token] eqn:Htoken.
  { cbn. eexists. split; [reflexivity|]. right. do 3 eexists. reflexivity. }
  destruct (VersionsListFacts.url_of a) as [u|] eqn:Hu.
  2:{ match goal with |- context [VersionsListFacts.prepare a ?k env ?s] =>
        destruct (Hprep k env s) as [e [-> He]] end.
      cbn. eexists. split; [reflexivity|]. right. do 3 eexists. reflexivity. }
  rewrite Hprep.
  unfold response_json, get, ToString.
  repeat run_step; cbn;
    (eexists; split; [reflexivity|]);
    first [ right; do 3 eexists; reflexivity
          | left; exists token, u; do 2 eexists;
            repeat split; eassumption ].
Qed.

(** X14.  Under a clock that never runs backwards, versions-list returns
    either the decoded body of a 2xx response to its request, or the
    error envelope with a duration that is not negative. *)
Theorem versions_list_result_and_duration (env : Env) (a : VersionsList.args) :
  (forall m n, (m <= n)%nat -> (clock env m <= clock env n)%Z) ->
  exists v,
    outcome (VersionsList.executeFunction a) env = inr v /\
    ((exists req r t,
         In req (requests (VersionsList.executeFunction a) env) /\
         fetch env req = inr r /\ ok r = true /\ text r = inr t /\
         JSON_parse env t = inr v) \/
     (exists e duration timestamp,
         (0 <= duration)%Z /\
         v = error_envelope e
               (VersionsList.errorDetails e (VersionsList.scriptId a)
                  duration timestamp))).
Proof.
  intros Hclock.
  destruct (versions_list_timed env a) as (v & Hv & [Hdata | Herr]).
  - exists v. split; [exact Hv|]. left.
    destruct Hdata as (token & u & r & t & Htoken & Hu & Hfetch & Hok & Htext & Hparse).
    exists (VersionsListFacts.request u token), r, t.
    split; [|repeat split; assumption].
    rewrite VersionsListOutcome.versions_list_requests_eq.
    unfold VersionsListFacts.sent. rewrite Htoken, Hu. left. reflexivity.
  - exists v. split; [exact Hv|]. right.
    destruct Herr as (e & k & timestamp & ->).
    exists e, (clock env (S k) - clock env 0)%Z, timestamp.
    split; [|reflexivity].
    pose proof (Hclock 0%nat (S k) ltac:(lia)). lia.
Qed.

Lemma versions_list_result_and_duration_witness :
  exists v,
    outcome (VersionsList.executeFunction (Sample.list_args (VStr "X"))) locked_out
    = inr v /\
    ((exists req r t,
         In req (requests (VersionsList.executeFunction (Sample.list_args (VStr "X")))
                   locked_out) /\
         fetch locked_out req = inr r /\ ok r = true /\ text r = inr t /\
         JSON_parse locked_out t = inr v) \/
     (exists e duration timestamp,
         (0 <= duration)%Z /\
         v = error_envelope e
               (VersionsList.errorDetails e
                  (VersionsList.scriptId (Sample.list_args (VStr "X")))
                  duration timestamp))).
Proof.
  apply (versions_list_result_and_duration locked_out (Sample.list_args (VStr "X"))).
  intros m n Hmn. cbn. lia.
Defined.

(** X15.  What script-run returns is either the decoded body of a 2xx
    response to its request, or the error envelope, stamped with the
    first reading of the clock. *)
Theorem script_run_result (env : Env) (a : ScriptRun.args) (v : value) :
  outcome (ScriptRun.executeFunction a) env = inr v ->
  (exists req r t,
      In req (requests (ScriptRun.executeFunction a) env) /\
      fetch env req = inr r /\ ok r = true /\ text r = inr t /\
      JSON_parse env t = inr v) \/
  (exists e,
      v = error_envelope e
            (ScriptRun.errorDetails e (ScriptRun.scriptId a)
               (toISOString env (clock env 0)))).
Proof.
  pose proof (ScriptRunFacts.script_run_closed_form env a) as H.
  rewrite ScriptRunOutcome.script_run_requests_eq.
  unfold outcome.
  destruct (ScriptRunFacts.url_of a) as [u|].
  2:{ destruct H as [e [-> _]]. discriminate. }
  rewrite H. clear H. unfold ScriptRunFacts.attempt.
  destruct (getAuthHeaders env) as [e|h].
  { cbn. intros [= <-]. right. eexists. reflexivity. }
  destruct (JS.ToString (ScriptRun.functionName a)) as [name|].
  2:{ cbn. intros [= <-]. right. eexists. reflexivity. }
  cbn [fst].
  destruct (fetch env (ScriptRunFacts.request a u h)) as [e|r] eqn:Hfetch.
  { intros [= <-]. right. eexists. reflexivity. }
  unfold ScriptRunFacts.settle.
  destruct (text r) as [e|t] eqn:Htext.
  { intros [= <-]. right. eexists. reflexivity. }
  destruct (JSON_parse env t) as [e|d] eqn:Hparse.
  { intros [= <-]. right. eexists. reflexivity. }
  destruct (ok r) eqn:Hok.
  2:{ intros [= <-]. right. eexists. reflexivity. }
  destruct (JS.nullish d).
  { intros [= <-]. right. eexists. reflexivity. }
  intros [= <-]. left. exists (ScriptRunFacts.request a u h), r, t.
  split; [left; reflexivity|]. repeat split; assumption.
Qed.

Lemma script_run_result_witness :
  (exists req r t,
      In req (requests (ScriptRun.executeFunction call_f) answering) /\
      fetch answering req = inr r /\ ok r = true /\ text r = inr t /\
      JSON_parse answering t = inr (VObj [])) \/
  (exists e,
      VObj [] = error_envelope e
                  (ScriptRun.errorDetails e (ScriptRun.scriptId call_f)
                     (toISOString answering (clock answering 0)))).
Proof.
  apply (script_run_result answering call_f (VObj [])).
  vm_compute. reflexivity.
Defined.

End Wrappers.
(** * The smoke-test scripts

    [testScriptRun] and [testOAuth] (quick-oauth-test.js) call the
    Apps Script API once, by hand, and report on the console.  Here the
    console is what a script is for, so its lines are recorded: a line
    is the list of arguments handed to [console.log] or
    [console.error].  The scripts share the environment of the tools,
    in which what a collaborator rejects with is an [Error] object: the
    [catch] block of [testOAuth] reads [error.message], which every
    such object has. *)

Module Scripts.

(** An argument of a console call: a value, or a caught error. *)
Inductive shown : Type :=
| Val (v : value)
| Thrown (e : Error).

Inductive stream : Type := Stdout | Stderr.

Record Line : Type := mkLine {
  to : stream;
  arguments : list shown
}.

Record Session : Type := mkSession {
  sent : list Request;
  printed : list Line
}.

Definition T (A : Type) : Type := Env -> Session -> (Error + A) * Session.

Definition ret {A} (x : A) : T A := fun _ s => (inr x, s).

Definition bind {A B} (m : T A) (k : A -> T B) : T B :=
  fun env s =>
    match m env s with
    | (inl err, s') => (inl err, s')
    | (inr x, s') => k x env s'
    end.

Definition try_catch {A} (m : T A) (handler : Error -> T A) : T A :=
  fun env s =>
    match m env s with
    | (inl err, s') => handler err env s'
    | (inr x, s') => (inr x, s')
    end.

Declare Scope script_scope.
Delimit Scope script_scope with script.
Notation "x <- m ;; k" := (bind m (fun x => k))
  (at level 100, m at next level, right associativity) : script_scope.
Notation "m ;; k" := (bind m (fun _ => k))
  (at level 100, right associativity) : script_scope.
Local Open Scope script_scope.

Definition await {A} (f : Env -> Error + A) : T A := fun env s => (f env, s).

Definition throw_TypeError {A} (msg : string) : T A :=
  fun env s => (inl (mkError "TypeError" msg (capture_stack env "TypeError" msg)), s).

Definition or_TypeError {A} (o : option A) (msg : string) : T A :=
  match o with
  | Some x => ret x
  | None => throw_TypeError msg
  end.

Definition console_log (args : list shown) : T unit :=
  fun _ s => (inr tt, mkSession (sent s) (printed s ++ [mkLine Stdout args])).

Definition console_error (args : list shown) : T unit :=
  fun _ s => (inr tt, mkSession (sent s) (printed s ++ [mkLine Stderr args])).

(** A string argument. *)
Definition say (s : string) : shown := Val (VStr s).

Definition nl : string := String Byte.lf "".

(** [fetch(input, {method, headers, body})] on the text of a URL. *)
Definition fetch_text (input method : string) (headers : gmap string string)
    (body : option string) : T Response :=
  match URL.parse input with
  | None => throw_TypeError ("Failed to parse URL from " +:+ input)
  | Some u =>
      fun env s =>
        let r := mkRequest method u headers body in
        (fetch env r, mkSession (sent s ++ [r]) (printed s))
  end.

Definition response_text (r : Response) : T string := fun _ s => (text r, s).

Definition response_json (r : Response) : T value :=
  t <- response_text r ;; await (fun env => JSON_parse env t).

(** [v.k] *)
Definition get (v : value) (k : string) : T value :=
  or_TypeError (if JS.nullish v then None else Some (JS.get_member v k))
    (cannot_read v k).

(** A value in a template literal. *)
Definition ToString (v : value) : T string :=
  or_TypeError (JS.ToString v) "Cannot convert object to primitive value".

(** [JSON.stringify(v, null, gap)] for a gap of spaces: each level of an
    object or array with members goes on lines of its own, indented by
    one more gap. *)
Fixpoint JSON_stringify_indented (gap indent : string) (v : value) : option string :=
  match v with
  | VUndefined => None
  | VNull => Some "null"
  | VBool b => Some (JS.Boolean_toString b)
  | VNum n => Some (JS.Number_toString n)
  | VStr s => Some (JS.quote s)
  | VArr items =>
      let inner := indent +:+ gap in
      match map (fun item =>
                   match JSON_stringify_indented gap inner item with
                   | Some s => s
                   | None => "null"
                   end) items with
      | [] => Some "[]"
      | parts =>
          Some ("[" +:+ nl +:+ inner +:+ JS.join ("," +:+ nl +:+ inner) parts
                +:+ nl +:+ indent +:+ "]")
      end
  | VObj members =>
      let inner := indent +:+ gap in
      match flat_map (fun kv =>
                        match JSON_stringify_indented gap inner (snd kv) with
                        | Some s => [JS.quote (fst kv) +:+ ": " +:+ s]
                        | None => []
                        end) members with
      | [] => Some "{}"
      | parts =>
          Some ("{" +:+ nl +:+ inner +:+ JS.join ("," +:+ nl +:+ inner) parts
                +:+ nl +:+ indent +:+ "}")
      end
  end.

(** The result of [JSON.stringify] as a console argument. *)
Definition stringified (o : option string) : shown :=
  match o with
  | Some s => say s
  | None => Val VUndefined
  end.

(** The script project both scripts address. *)
Definition scriptId : string :=
  "1i4qaE4iLJRAjcoirYxKjOmHf27U-kXjHBZBEJw_LxFgaJiwWf1REvSxH".

(** ** testScriptRun *)

Definition testScriptRun : T unit :=
  console_log [say ("Testing script.run functionality..." +:+ nl)] ;;
  try_catch
    (headers <- await getAuthHeaders ;;
     console_log [say "✅ Got auth headers"] ;;
     let url := "https://script.googleapis.com/v1/scripts/" +:+ scriptId +:+ ":run" in
     let body := VObj [("function", VStr "testFunction");
                       ("parameters", VArr []);
                       ("devMode", VBool false)] in
     console_log [say (nl +:+ "Calling script.run API...")] ;;
     console_log [say ("URL: " +:+ url)] ;;
     console_log [say "Body:"; Val body] ;;
     response <- fetch_text url "POST"
                   (<["Content-Type" := "application/json"]> headers)
                   (JS.JSON_stringify body) ;;
     console_log [say (nl +:+ "Response status: "
                       +:+ JS.Number_toString (status response) +:+ " "
                       +:+ statusText response)] ;;
     data <- response_json response ;;
     console_log [say "Response:";
                  stringified (JSON_stringify_indented "  " "" data)] ;;
     pass <- (if ok response
              then error <- get data "error" ;; ret (negb (JS.truthy error))
              else ret false) ;;
     if pass : bool then console_log [say (nl +:+ "✅ script.run is working!")]
     else console_log [say (nl +:+ "❌ script.run failed")])
    (fun error => console_error [say "❌ Test failed:"; Thrown error]).

(** The two lines with which it ends when nothing was thrown. *)
Definition working : Line :=
  mkLine Stdout [say (nl +:+ "✅ script.run is working!")].

Definition failed : Line :=
  mkLine Stdout [say (nl +:+ "❌ script.run failed")].

(** ** testOAuth *)

(** [s.substring(0, n)], counted in bytes here and in UTF-16 units by
    JavaScript; the two agree on a credential of ASCII characters. *)
Definition substring_to (n : nat) (s : string) : string := String.substring 0 n s.

Definition testOAuth : T unit :=
  console_log [say ("Testing OAuth authentication..." +:+ nl)] ;;
  try_catch
    (headers <- await getAuthHeaders ;;
     console_log [say "✅ Successfully got auth headers"] ;;
     Authorization <- or_TypeError (headers !! "Authorization")
                        (cannot_read VUndefined "substring") ;;
     console_log [say ("   Authorization: Bearer "
                       +:+ substring_to 50 Authorization +:+ "...")] ;;
     console_log [say (nl +:+ "Testing API call - fetching script info...")] ;;
     response <- fetch_text ("https://script.googleapis.com/v1/projects/" +:+ scriptId)
                   "GET" headers None ;;
     console_log [say ("Response status: "
                       +:+ JS.Number_toString (status response) +:+ " "
                       +:+ statusText response)] ;;
     if ok response then
       data <- response_json response ;;
       console_log [say (nl +:+ "✅ OAuth is working! Script info:")] ;;
       title <- get data "title" ;;
       title <- ToString title ;;
       console_log [say ("   Title: " +:+ title)] ;;
       id <- get data "scriptId" ;;
       id <- ToString id ;;
       console_log [say ("   Script ID: " +:+ id)] ;;
       updateTime <- get data "updateTime" ;;
       updateTime <- ToString updateTime ;;
       console_log [say ("   Last modified: " +:+ updateTime)]
     else
       error <- response_text response ;;
       console_log [say (nl +:+ "❌ API call failed:"); say error])
    (fun error => console_error [say "❌ OAuth test failed:"; say (message error)]).

(** The line that announces the script info. *)
Definition authorized : Line :=
  mkLine Stdout [say (nl +:+ "✅ OAuth is working! Script info:")].

(** A script runs from an empty session. *)
Definition run (script : T unit) (env : Env) : (Error + unit) * Session :=
  script env (mkSession [] []).

End Scripts.

(** * Facts about the smoke-test scripts *)

Module ScriptsFacts.
Import Scripts.

#[local] Arguments JSON_stringify_indented : simpl never.

Example stringify_indented_nests :
  JSON_stringify_indented "  " ""
    (VObj [("done", VBool true);
           ("skipped", VUndefined);
           ("response", VObj [("result", VArr [VNum 1; VArr []; VObj []])])])
  = Some ("{" +:+ nl
          +:+ "  " +:+ Sample.quoted "done" +:+ ": true," +:+ nl
          +:+ "  " +:+ Sample.quoted "response" +:+ ": {" +:+ nl
          +:+ "    " +:+ Sample.quoted "result" +:+ ": [" +:+ nl
          +:+ "      1," +:+ nl
          +:+ "      []," +:+ nl
          +:+ "      {}" +:+ nl
          +:+ "    ]" +:+ nl
          +:+ "  }" +:+ nl
          +:+ "}").
Proof. reflexivity. Qed.

(** The two addresses. *)
Definition run_url : URL.t :=
  URL.mk ["v1"; "scripts"; scriptId +:+ ":run"] None None [].

Definition project_url : URL.t :=
  URL.mk ["v1"; "projects"; scriptId] None None [].

Lemma run_url_parses :
  URL.parse ("https://script.googleapis.com/v1/scripts/" +:+ scriptId +:+ ":run")
  = Some run_url.
Proof. vm_compute. reflexivity. Qed.

Lemma project_url_parses :
  URL.parse ("https://script.googleapis.com/v1/projects/" +:+ scriptId)
  = Some project_url.
Proof. vm_compute. reflexivity. Qed.

(** The body [testScriptRun] sends. *)
Definition smoke_body : value :=
  VObj [("function", VStr "testFunction");
        ("parameters", VArr []);
        ("devMode", VBool false)].

(** The requests of the scripts, for the headers [getAuthHeaders]
    resolved to. *)
Definition smoke_request (h : gmap string string) : Request :=
  mkRequest "POST" run_url (<["Content-Type" := "application/json"]> h)
    (JS.JSON_stringify smoke_body).

Definition project_request (h : gmap string string) : Request :=
  mkRequest "GET" project_url h None.

(** One step of a script: the next answer of the environment is case
    split. *)
Ltac script_step :=
  match goal with
  | |- context [match getAuthHeaders ?e with inl _ => _ | inr _ => _ end] =>
      destruct (getAuthHeaders e) eqn:?
  | |- context [match fetch ?e ?r with inl _ => _ | inr _ => _ end] =>
      destruct (fetch e r) eqn:?
  | |- context [match text ?r with inl _ => _ | inr _ => _ end] =>
      destruct (text r) eqn:?
  | |- context [match JSON_parse ?e ?t with inl _ => _ | inr _ => _ end] =>
      destruct (JSON_parse e t) eqn:?
  | |- context [if ok ?r then _ else _] => destruct (ok r) eqn:?
  | |- context [if JS.nullish ?v then _ else _] => destruct (JS.nullish v) eqn:?
  | |- context [JS.truthy ?v] => destruct (JS.truthy v) eqn:?
  | |- context [match JS.ToString ?v with Some _ => _ | None => _ end] =>
      destruct (JS.ToString v) eqn:?
  | |- context [match ?h !! ?k with Some _ => _ | None => _ end] =>
      destruct (h !! k) eqn:?
  end.

Ltac script_run :=
  unfold run, bind, try_catch, await, console_log, console_error, fetch_text,
    response_json, response_text, get, ToString, or_TypeError, throw_TypeError,
    ret, bind, await;
  rewrite ?run_url_parses, ?project_url_parses;
  fold smoke_body;
  repeat (cbn; script_step); cbn.

(** [testScriptRun] in closed form. *)
Lemma testScriptRun_sent (env : Env) :
  sent (snd (run testScriptRun env))
  = match getAuthHeaders env with
    | inr h => [smoke_request h]
    | inl _ => []
    end.
Proof.
  unfold testScriptRun. script_run; reflexivity.
Qed.

Lemma testOAuth_sent (env : Env) :
  sent (snd (run testOAuth env))
  = match getAuthHeaders env with
    | inr h =>
        match h !! "Authorization" with
        | Some _ => [project_request h]
        | None => []
        end
    | inl _ => []
    end.
Proof.
  unfold testOAuth. script_run; reflexivity.
Qed.

(** A line that is not the one looked for. *)
Ltac differ H :=
  cbv [working failed authorized say nl String.append arguments] in H;
  discriminate H.

Ltac not_printed :=
  let H := fresh in
  cbn [In]; intros H;
  repeat (destruct H as [H | H]; [differ H|]);
  try contradiction.

Ltac is_printed := cbn [In]; repeat (first [left; reflexivity | right]).

End ScriptsFacts.

Module SmokeTests.
Import Scripts ScriptsFacts.

#[local] Arguments JSON_stringify_indented : simpl never.

(** X16.  In an environment whose collaborators reject with [Error]
    objects, neither script throws: whether the credentials helper, the
    network and the decoder resolve or reject, the script returns,
    having handed at most one request to [fetch]. *)
Theorem smoke_tests_never_throw (env : Env) :
  (exists s, run testScriptRun env = (inr tt, s) /\ (List.length (sent s) <= 1)%nat) /\
  (exists s, run testOAuth env = (inr tt, s) /\ (List.length (sent s) <= 1)%nat).
Proof.
  split.
  - unfold testScriptRun. script_run;
      (eexists; split; [reflexivity | cbn; lia]).
  - unfold testOAuth. script_run;
      (eexists; split; [reflexivity | cbn; lia]).
Qed.

(** The arguments with which the tool does what [testScriptRun] does by
    hand. *)
Definition smoke_args : ScriptRun.args :=
  ScriptRun.mkArgs (VStr scriptId) (VStr "testFunction") VUndefined (VBool false)
    VUndefined VUndefined VUndefined VUndefined VUndefined VUndefined VUndefined.

(** X17.  Given credentials, [testScriptRun] sends one request: a POST
    to /v1/scripts/{id}:run with no query string, with the helper's
    headers and Content-Type application/json, asking for testFunction
    with no parameters and devMode false.  The script-run tool called
    for the same function with devMode false sends the same method,
    path, headers and body; its URL differs by the query string. *)
Theorem testScriptRun_request (env : Env) (h : gmap string string) :
  getAuthHeaders env = inr h ->
  exists req,
    sent (snd (run testScriptRun env)) = [req] /\
    method req = "POST" /\
    URL.href (url req)
    = "https://script.googleapis.com/v1/scripts/" +:+ scriptId +:+ ":run" /\
    headers req = <["Content-Type" := "application/json"]> h /\
    body req
    = Some ("{" +:+ Sample.quoted "function" +:+ ":" +:+ Sample.quoted "testFunction"
            +:+ "," +:+ Sample.quoted "parameters" +:+ ":[],"
            +:+ Sample.quoted "devMode" +:+ ":false}") /\
    exists tool,
      requests (ScriptRun.executeFunction smoke_args) env = [tool] /\
      method tool = method req /\
      URL.pathname (url tool) = URL.pathname (url req) /\
      headers tool = headers req /\
      body tool = body req /\
      URL.query (url req) = None /\
      URL.query (url tool) = Some "alt=json&prettyPrint=true".
Proof.
  intros Hh. exists (smoke_request h).
  split; [rewrite testScriptRun_sent, Hh; reflexivity|].
  split; [reflexivity|].
  split; [vm_compute; reflexivity|].
  split; [reflexivity|].
  split; [vm_compute; reflexivity|].
  eexists. split.
  { rewrite ScriptRunOutcome.script_run_requests_eq, Hh.
    assert (Hu : ScriptRunFacts.url_of smoke_args
                 = Some (URL.mk ["v1"; "scripts"; scriptId +:+ ":run"]
                           (Some "alt=json&prettyPrint=true") None
                           [("alt", "json"); ("prettyPrint", "true")])).
    { vm_compute. reflexivity. }
    rewrite Hu. reflexivity. }
  repeat split; vm_compute; reflexivity.
Qed.

Lemma testScriptRun_request_witness :
  exists req,
    sent (snd (run testScriptRun Wrappers.answering)) = [req] /\
    method req = "POST" /\
    URL.href (url req)
    = "https://script.googleapis.com/v1/scripts/" +:+ scriptId +:+ ":run" /\
    headers req = <["Content-Type" := "application/json"]> Sample.headers /\
    body req
    = Some ("{" +:+ Sample.quoted "function" +:+ ":" +:+ Sample.quoted "testFunction"
            +:+ "," +:+ Sample.quoted "parameters" +:+ ":[],"
            +:+ Sample.quoted "devMode" +:+ ":false}") /\
    exists tool,
      requests (ScriptRun.executeFunction smoke_args) Wrappers.answering = [tool] /\
      method tool = method req /\
      URL.pathname (url tool) = URL.pathname (url req) /\
      headers tool = headers req /\
      body tool = body req /\
      URL.query (url req) = None /\
      URL.query (url tool) = Some "alt=json&prettyPrint=true".
Proof.
  apply (testScriptRun_request Wrappers.answering Sample.headers). reflexivity.
Defined.

(** X18.  [testScriptRun] prints that script.run is working exactly when
    credentials were obtained, the response to its request has a status
    in 200-299, and its body decodes to a value (other than [null])
    whose [error] member is absent or falsy. *)
Theorem testScriptRun_verdict (env : Env) :
  In working (printed (snd (run testScriptRun env))) <->
  exists h r t data,
    getAuthHeaders env = inr h /\
    fetch env (smoke_request h) = inr r /\
    ok r = true /\
    text r = inr t /\
    JSON_parse env t = inr data /\
    JS.nullish data = false /\
    JS.truthy (JS.get_member data "error") = false.
Proof.
  unfold testScriptRun, smoke_request. script_run;
    (split;
     [ first [ solve [not_printed]
             | intros _; do 4 eexists; repeat split; eassumption ]
     | first [ intros _; solve [is_printed]
             | intros (h' & r' & t' & data' & H1 & H2 & H3 & H4 & H5 & H6 & H7);
               exfalso; congruence ] ]).
Qed.

(** X19.  [testOAuth] sends its request exactly when the helper resolved
    to headers that hold an Authorization member: a GET to
    /v1/projects/{id} that carries the helper's headers as they are and
    no body. *)
Theorem testOAuth_request (env : Env) (req : Request) :
  In req (sent (snd (run testOAuth env))) <->
  exists h credential,
    getAuthHeaders env = inr h /\
    h !! "Authorization" = Some credential /\
    method req = "GET" /\
    URL.parse ("https://script.googleapis.com/v1/projects/" +:+ scriptId)
    = Some (url req) /\
    headers req = h /\
    body req = None.
Proof.
  rewrite testOAuth_sent. split.
  - destruct (getAuthHeaders env) as [e|h]; [intros []|].
    destruct (h !! "Authorization") as [credential|] eqn:Hc; [|intros []].
    intros [<- | []]. exists h, credential.
    split; [reflexivity|]. split; [assumption|]. split; [reflexivity|].
    split; [exact project_url_parses|]. split; reflexivity.
  - intros (h & credential & -> & -> & Hm & Hu & Hh & Hb).
    left. rewrite project_url_parses in Hu. injection Hu as Hu.
    destruct req as [m u hs b]. cbn in *. subst. reflexivity.
Qed.

(** The line [testOAuth] prints when the API call was refused, with the
    body of the response. *)
Definition refused_with (body : string) : Line :=
  mkLine Stdout [say (nl +:+ "❌ API call failed:"); say body].

(** X20.  [testOAuth] prints that OAuth is working exactly when the
    credentials hold an Authorization member, the response to its
    request has a status in 200-299 and its body is JSON; it prints that
    the API call failed, with the body as received, exactly when the
    status is outside 200-299 and the body could be read. *)
Theorem testOAuth_verdict (env : Env) :
  (In authorized (printed (snd (run testOAuth env))) <->
   exists h credential r t data,
     getAuthHeaders env = inr h /\
     h !! "Authorization" = Some credential /\
     fetch env (project_request h) = inr r /\
     ok r = true /\
     text r = inr t /\
     JSON_parse env t = inr data) /\
  (forall body,
      In (refused_with body) (printed (snd (run testOAuth env))) <->
      exists h credential r,
        getAuthHeaders env = inr h /\
        h !! "Authorization" = Some credential /\
        fetch env (project_request h) = inr r /\
        ok r = false /\
        text r = inr body).
Proof.
  split.
  - unfold testOAuth, project_request. script_run;
      (split;
       [ first [ solve [not_printed]
               | intros _; do 5 eexists; repeat split; eassumption ]
       | first [ intros _; solve [is_printed]
               | intros (h' & c' & r' & t' & data' & H1 & H2 & H3 & H4 & H5 & H6);
                 exfalso; congruence ] ]).
  - intros body. unfold testOAuth, project_request, refused_with. script_run;
      (split;
       [ first [ solve [not_printed]
               | cbn [In]; intros H;
                 repeat (destruct H as [H | H]; [differ H|]);
                 destruct H as [H | []]; injection H as <-;
                 do 3 eexists; repeat split; eassumption ]
       | intros (h' & c' & r' & H1 & H2 & H3 & H4 & H5);
         first [ exfalso; congruence
               | replace body with s by congruence; solve [is_printed] ] ]).
Qed.

(** The lines with which [testScriptRun] reports how the test went:
    working, failed, or the error it caught. *)
Definition caught (l : Line) : bool :=
  match to l, arguments l with
  | Stderr, [Val (VStr s); Thrown _] => String.eqb s "❌ Test failed:"
  | _, _ => false
  end.

Definition reports (l : Line) : bool :=
  match to l, arguments l with
  | Stdout, [Val (VStr s)] =>
      String.eqb s (nl +:+ "✅ script.run is working!")
      || String.eqb s (nl +:+ "❌ script.run failed")
  | _, _ => caught l
  end.

(** X21.  Every run of [testScriptRun] reports exactly once, on its last
    line: that line says working, failed, or shows the caught error, and
    no line before it does. *)
Theorem testScriptRun_reports_once (env : Env) :
  exists before verdict,
    printed (snd (run testScriptRun env)) = before ++ [verdict] /\
    reports verdict = true /\
    forallb (fun l => negb (reports l)) before = true.
Proof.
  unfold testScriptRun. script_run;
    match goal with
    | |- exists before verdict, ?l = _ /\ _ =>
        exists (List.removelast l), (List.last l working)
    end;
    (split; [reflexivity | split; lazy; reflexivity]).
Qed.

(** [testOAuth] can report both ways in one run: on a 2xx response with
    the body [null] it prints that OAuth is working, then fails to read
    the title and prints that the test failed. *)
Example testOAuth_reports_twice :
  printed (snd (run testOAuth (Sample.env (Sample.replies 200 "OK" "null"))))
  = [mkLine Stdout [say ("Testing OAuth authentication..." +:+ nl)];
     mkLine Stdout [say "✅ Successfully got auth headers"];
     mkLine Stdout [say "   Authorization: Bearer Bearer token..."];
     mkLine Stdout [say (nl +:+ "Testing API call - fetching script info...")];
     mkLine Stdout [say "Response status: 200 OK"];
     authorized;
     mkLine Stderr [say "❌ OAuth test failed:";
                    say "Cannot read properties of null (reading 'title')"]].
Proof. vm_compute. reflexivity. Qed.

Example testScriptRun_on_an_empty_object :
  printed (snd (run testScriptRun (Sample.env (Sample.replies 200 "OK" "{}"))))
  = [mkLine Stdout [say ("Testing script.run functionality..." +:+ nl)];
     mkLine Stdout [say "✅ Got auth headers"];
     mkLine Stdout [say (nl +:+ "Calling script.run API...")];
     mkLine Stdout [say ("URL: https://script.googleapis.com/v1/scripts/"
                         +:+ scriptId +:+ ":run")];
     mkLine Stdout [say "Body:"; Val smoke_body];
     mkLine Stdout [say (nl +:+ "Response status: 200 OK")];
     mkLine Stdout [say "Response:"; say "{}"];
     working].
Proof. vm_compute. reflexivity. Qed.

End SmokeTests.
